(** * go-coinspaid: request signing, response classification and decoding

    A shallow embedding of the client library in [coinspaid.go]: the
    constructor [NewClient], the two operations [TakeAddress] and
    [WithdrawCrypto], the response classifier [checkResponse], the signer
    [createSignedRequestHeader] and the [UnmarshalJSON] methods of the
    output types.

    The Go standard library is not part of the repository.  The pieces of
    it that the client calls are modelled here as far as the client's
    behaviour depends on them: [crypto/sha512], [crypto/hmac] and
    [encoding/hex] in full, [encoding/json] for the decoding of the
    library's own structs ([Module Json]), and the URL functions, the JSON
    encoder and the network as fields of a [Platform]. *)

From Stdlib Require Import ZArith NArith Ascii String List Bool Lia.
From Stdlib Require Import DecimalString DecimalPos DecimalFacts.
From stdpp Require Import base option list strings gmap.

Local Open Scope Z_scope.
Set Warnings "-register-all".

(** ** Bytes

    A Go [string] and a Go [[]byte] are both sequences of bytes; both are
    modelled as [string] (a list of 8-bit [ascii] characters).  Arithmetic on
    bytes goes through their values in [Z]. *)

Definition byte_val (c : ascii) : Z := Z.of_N (N_of_ascii c).
Definition byte_chr (z : Z) : ascii := ascii_of_N (Z.to_N (z mod 256)).

Definition bytes_of_string (s : string) : list Z :=
  map byte_val (list_ascii_of_string s).
Definition string_of_bytes (l : list Z) : string :=
  string_of_list_ascii (map byte_chr l).

(** ** crypto/sha512 (FIPS 180-4, SHA-512) on 64-bit words in [Z] *)

Module SHA512.

Definition w64 (x : Z) : Z := x mod 2 ^ 64.
Definition add64 (x y : Z) : Z := w64 (x + y).
Definition rotr (n x : Z) : Z :=
  Z.lor (Z.shiftr x n) (w64 (Z.shiftl x (64 - n))).
Definition not64 (x : Z) : Z := Z.lxor x (2 ^ 64 - 1).

Definition Ch (x y z : Z) : Z := Z.lxor (Z.land x y) (Z.land (not64 x) z).
Definition Maj (x y z : Z) : Z :=
  Z.lxor (Z.lxor (Z.land x y) (Z.land x z)) (Z.land y z).
Definition Sigma0 (x : Z) : Z := Z.lxor (Z.lxor (rotr 28 x) (rotr 34 x)) (rotr 39 x).
Definition Sigma1 (x : Z) : Z := Z.lxor (Z.lxor (rotr 14 x) (rotr 18 x)) (rotr 41 x).
Definition sigma0 (x : Z) : Z := Z.lxor (Z.lxor (rotr 1 x) (rotr 8 x)) (Z.shiftr x 7).
Definition sigma1 (x : Z) : Z := Z.lxor (Z.lxor (rotr 19 x) (rotr 61 x)) (Z.shiftr x 6).

Definition init : list Z :=
  [
    0x6a09e667f3bcc908; 0xbb67ae8584caa73b; 0x3c6ef372fe94f82b; 0xa54ff53a5f1d36f1;
    0x510e527fade682d1; 0x9b05688c2b3e6c1f; 0x1f83d9abfb41bd6b; 0x5be0cd19137e2179
  ].

Definition K : list Z :=
  [
    0x428a2f98d728ae22; 0x7137449123ef65cd; 0xb5c0fbcfec4d3b2f; 0xe9b5dba58189dbbc;
    0x3956c25bf348b538; 0x59f111f1b605d019; 0x923f82a4af194f9b; 0xab1c5ed5da6d8118;
    0xd807aa98a3030242; 0x12835b0145706fbe; 0x243185be4ee4b28c; 0x550c7dc3d5ffb4e2;
    0x72be5d74f27b896f; 0x80deb1fe3b1696b1; 0x9bdc06a725c71235; 0xc19bf174cf692694;
    0xe49b69c19ef14ad2; 0xefbe4786384f25e3; 0x0fc19dc68b8cd5b5; 0x240ca1cc77ac9c65;
    0x2de92c6f592b0275; 0x4a7484aa6ea6e483; 0x5cb0a9dcbd41fbd4; 0x76f988da831153b5;
    0x983e5152ee66dfab; 0xa831c66d2db43210; 0xb00327c898fb213f; 0xbf597fc7beef0ee4;
    0xc6e00bf33da88fc2; 0xd5a79147930aa725; 0x06ca6351e003826f; 0x142929670a0e6e70;
    0x27b70a8546d22ffc; 0x2e1b21385c26c926; 0x4d2c6dfc5ac42aed; 0x53380d139d95b3df;
    0x650a73548baf63de; 0x766a0abb3c77b2a8; 0x81c2c92e47edaee6; 0x92722c851482353b;
    0xa2bfe8a14cf10364; 0xa81a664bbc423001; 0xc24b8b70d0f89791; 0xc76c51a30654be30;
    0xd192e819d6ef5218; 0xd69906245565a910; 0xf40e35855771202a; 0x106aa07032bbd1b8;
    0x19a4c116b8d2d0c8; 0x1e376c085141ab53; 0x2748774cdf8eeb99; 0x34b0bcb5e19b48a8;
    0x391c0cb3c5c95a63; 0x4ed8aa4ae3418acb; 0x5b9cca4f7763e373; 0x682e6ff3d6b2b8a3;
    0x748f82ee5defb2fc; 0x78a5636f43172f60; 0x84c87814a1f0ab72; 0x8cc702081a6439ec;
    0x90befffa23631e28; 0xa4506cebde82bde9; 0xbef9a3f7b2c67915; 0xc67178f2e372532b;
    0xca273eceea26619c; 0xd186b8c721c0c207; 0xeada7dd6cde0eb1e; 0xf57d4f7fee6ed178;
    0x06f067aa72176fba; 0x0a637dc5a2c898a6; 0x113f9804bef90dae; 0x1b710b35131c471b;
    0x28db77f523047d84; 0x32caab7b40c72493; 0x3c9ebe0a15c9bebc; 0x431d67c49c100d4c;
    0x4cc5d4becb3e42b6; 0x597f299cfc657e2a; 0x5fcb6fab3ad6faec; 0x6c44198c4a475817
  ].

(** Size and BlockSize of the package, in bytes. *)
Definition Size : nat := 64.
Definition BlockSize : nat := 128.

(** Big-endian rendering of [x] in [n] bytes, and its inverse. *)
Fixpoint be_bytes (n : nat) (x : Z) : list Z :=
  match n with
  | O => []
  | S k => (Z.shiftr x (8 * Z.of_nat k)) mod 256 :: be_bytes k x
  end.

Definition be_word (bs : list Z) : Z :=
  fold_left (fun acc b => Z.lor (Z.shiftl acc 8) b) bs 0.

(** Padding: the byte 0x80, zero bytes up to 112 modulo 128, and the length
    of the message in bits as a 128-bit big-endian number. *)
Definition pad (msg : list Z) : list Z :=
  let len := Z.of_nat (length msg) in
  let zeros := Z.to_nat ((111 - len) mod 128) in
  msg ++ [128] ++ repeat 0 zeros ++ be_bytes 16 (8 * len).

(** The list is cut into groups of [n] (the last one may be shorter);
    [fuel] bounds the number of groups. *)
Fixpoint chunks {A} (fuel n : nat) (l : list A) : list (list A) :=
  match fuel with
  | O => []
  | S f =>
      match l with
      | [] => []
      | _ => take n l :: chunks f n (drop n l)
      end
  end.

Definition words_of_block (blk : list Z) : list Z :=
  map be_word (chunks 16 8 blk).

(** The message schedule, most recent word first: [rev_w] holds
    W(t-1), W(t-2), ...; the next word is
    s1(W(t-2)) + W(t-7) + s0(W(t-15)) + W(t-16). *)
Definition next_w (rev_w : list Z) : Z :=
  add64 (add64 (sigma1 (nth 1 rev_w 0)) (nth 6 rev_w 0))
        (add64 (sigma0 (nth 14 rev_w 0)) (nth 15 rev_w 0)).

Fixpoint extend (n : nat) (rev_w : list Z) : list Z :=
  match n with
  | O => rev_w
  | S k => extend k (next_w rev_w :: rev_w)
  end.

Definition schedule (blk : list Z) : list Z :=
  rev (extend 64 (rev (words_of_block blk))).

Record regs := Regs { ra : Z; rb : Z; rc : Z; rd : Z; re : Z; rf : Z; rg : Z; rh : Z }.

Definition round (r : regs) (kw : Z * Z) : regs :=
  let t1 := add64 (add64 (add64 (rh r) (Sigma1 (re r)))
                         (add64 (Ch (re r) (rf r) (rg r)) (fst kw))) (snd kw) in
  let t2 := add64 (Sigma0 (ra r)) (Maj (ra r) (rb r) (rc r)) in
  Regs (add64 t1 t2) (ra r) (rb r) (rc r) (add64 (rd r) t1) (re r) (rf r) (rg r).

Definition regs_of (h : list Z) : regs :=
  Regs (nth 0 h 0) (nth 1 h 0) (nth 2 h 0) (nth 3 h 0)
       (nth 4 h 0) (nth 5 h 0) (nth 6 h 0) (nth 7 h 0).
Definition list_of (r : regs) : list Z :=
  [ra r; rb r; rc r; rd r; re r; rf r; rg r; rh r].

Definition add_state (h : list Z) (r : regs) : list Z :=
  [add64 (nth 0 h 0) (ra r); add64 (nth 1 h 0) (rb r);
   add64 (nth 2 h 0) (rc r); add64 (nth 3 h 0) (rd r);
   add64 (nth 4 h 0) (re r); add64 (nth 5 h 0) (rf r);
   add64 (nth 6 h 0) (rg r); add64 (nth 7 h 0) (rh r)].

Definition block (h : list Z) (blk : list Z) : list Z :=
  add_state h (fold_left round (combine K (schedule blk)) (regs_of h)).

(** Sum512: the 64-byte digest of a message. *)
Definition Sum512 (msg : list Z) : list Z :=
  let p := pad msg in
  let h := fold_left block (chunks (length p) 128 p) init in
  concat (map (be_bytes 8) h).

End SHA512.

(** ** crypto/hmac with SHA-512 (RFC 2104) *)

Module HMAC.

(** hmac.New: a key longer than the block size is hashed first; the key is
    then padded with zero bytes to the block size. *)
Definition block_key (key : list Z) : list Z :=
  let k := if Nat.ltb SHA512.BlockSize (length key) then SHA512.Sum512 key else key in
  k ++ repeat 0 (SHA512.BlockSize - length k).

Definition ipad (key : list Z) : list Z := map (Z.lxor 54) (block_key key).
Definition opad (key : list Z) : list Z := map (Z.lxor 92) (block_key key).

(** h.Write(body); h.Sum(nil) *)
Definition Sum (key body : list Z) : list Z :=
  SHA512.Sum512 (opad key ++ SHA512.Sum512 (ipad key ++ body)).

End HMAC.

(** ** encoding/hex *)

Module Hex.

Definition hextable : string := "0123456789abcdef".

Definition digit (n : Z) : ascii :=
  match String.get (Z.to_nat n) hextable with
  | Some c => c
  | None => "0"%char
  end.

(** hex.EncodeToString: two digits per byte, high nibble first. *)
Fixpoint Encode (src : list Z) : list ascii :=
  match src with
  | [] => []
  | b :: rest => digit (Z.shiftr b 4) :: digit (Z.land b 15) :: Encode rest
  end.

Definition EncodeToString (src : list Z) : string :=
  string_of_list_ascii (Encode src).

End Hex.


(** ** Errors of the standard library

    The error values that the packages used by the client produce. *)

Inductive syntax_msg :=
| InvalidCharacter (c : ascii) (context : string)
| UnexpectedEnd
| ExceededMaxDepth.

Inductive lib_error :=
| SyntaxError (m : syntax_msg)               (* *json.SyntaxError *)
| UnmarshalTypeError (val : string) (ty : string)  (* *json.UnmarshalTypeError *)
| EOF                                        (* io.EOF *)
| ErrUnexpectedEOF                           (* io.ErrUnexpectedEOF *)
| ErrorString (msg : string)                 (* errors.New(msg) *)
| PlatformError (msg : string).              (* net, net/url, net/http, json.Marshal *)

(** ** encoding/json, decoding side *)

Module Json.

Local Open Scope char_scope.

Definition quote : ascii := "034".
Definition code (c : ascii) : N := N_of_ascii c.

Definition isSpace (c : ascii) : bool :=
  Ascii.eqb c " " || Ascii.eqb c "009" || Ascii.eqb c "013" || Ascii.eqb c "010".
Definition isDigit (c : ascii) : bool := (48 <=? code c)%N && (code c <=? 57)%N.
Definition isDigit19 (c : ascii) : bool := (49 <=? code c)%N && (code c <=? 57)%N.
Definition isHex (c : ascii) : bool :=
  isDigit c || ((97 <=? code c)%N && (code c <=? 102)%N)
            || ((65 <=? code c)%N && (code c <=? 70)%N).

(** A scanned JSON value.  Numbers and strings keep their source text (a
    string: the text between the quotes, escapes unresolved); every member
    of an object keeps its name, the source text of its value and the
    value. *)
Inductive value :=
| Null
| Bool (b : bool)
| Number (lit : string)
| Str (raw : string)
| Array (xs : list value)
| Object (ms : list (string * string * value)).

Definition member : Type := string * string * value.

(** *** The scanner (scanner.go)

    One byte at a time, with a stack of the enclosing arrays and objects.
    The modes are the step functions of scanner.go; the frames refine its
    parse states with the members and elements read so far. *)
Inductive mode :=
| BeginValueOrEmpty | BeginValue | BeginStringOrEmpty | BeginString
| EndValue
| InString | InStringEsc | InStringEscU (n : nat)
| Neg | Num1 | Num0 | Dot | Dot0 | Exp | ExpSign | Exp0
| Lit (expect : list ascii) (name : string) (v : value).

Inductive frame :=
| FObjKey (start : nat) (ms : list member)
| FObjColon (start : nat) (ms : list member) (key : string)
| FObjValue (start : nat) (ms : list member) (key : string)
| FObjNext (start : nat) (ms : list member)
| FArrValue (start : nat) (xs : list value)
| FArrNext (start : nat) (xs : list value).

Record scanner := Scanner {
  sc_mode : mode;
  sc_stack : list frame;
  sc_seen : list ascii;    (* the bytes read so far, last one first *)
  sc_pos : nat;            (* their number *)
  sc_lit : nat             (* where the current literal started *)
}.

Definition maxNestingDepth : N := 10000.

Inductive step_result :=
| Continue (m : mode) (st : list frame) (lit : nat)
| Finished (raw : string) (v : value) (consumed : bool)
| Failed (e : syntax_msg).

(** The bytes from offset [start] up to the current one; [last] is the
    current byte when it belongs to the text. *)
Definition text_from (s : scanner) (start : nat) (last : list ascii) : string :=
  string_of_list_ascii (rev (take (sc_pos s - start) (sc_seen s)) ++ last).

(** A value is complete: it goes to the frame waiting for it. *)
Definition complete (s : scanner) (st : list frame) (raw : string) (v : value)
    (consumed : bool) : step_result :=
  match st with
  | [] => Finished raw v consumed
  | FObjKey o ms :: st' =>
      match v with
      | Str k => Continue EndValue (FObjColon o ms k :: st') (sc_lit s)
      | _ => Failed UnexpectedEnd
      end
  | FObjValue o ms k :: st' =>
      Continue EndValue (FObjNext o ((k, raw, v) :: ms) :: st') (sc_lit s)
  | FArrValue o xs :: st' =>
      Continue EndValue (FArrNext o (v :: xs) :: st') (sc_lit s)
  | _ => Failed UnexpectedEnd
  end.

(** stateEndValue *)
Definition end_value (s : scanner) (st : list frame) (c : ascii) : step_result :=
  if isSpace c then Continue EndValue st (sc_lit s) else
  match st with
  | FObjColon o ms k :: st' =>
      if Ascii.eqb c ":" then Continue BeginValue (FObjValue o ms k :: st') (sc_lit s)
      else Failed (InvalidCharacter c "after object key")
  | FObjNext o ms :: st' =>
      if Ascii.eqb c "," then Continue BeginString (FObjKey o ms :: st') (sc_lit s)
      else if Ascii.eqb c "}" then
        complete s st' (text_from s o [c]) (Object (rev ms)) true
      else Failed (InvalidCharacter c "after object key:value pair")
  | FArrNext o xs :: st' =>
      if Ascii.eqb c "," then Continue BeginValue (FArrValue o xs :: st') (sc_lit s)
      else if Ascii.eqb c "]" then
        complete s st' (text_from s o [c]) (Array (rev xs)) true
      else Failed (InvalidCharacter c "after array element")
  | _ => Failed (InvalidCharacter c "after top-level value")
  end.

(** The end of a number is seen at the byte after it, which is then handled
    as the byte after a value. *)
Definition end_number (s : scanner) (c : ascii) : step_result :=
  match complete s (sc_stack s) (text_from s (sc_lit s) [])
                 (Number (text_from s (sc_lit s) [])) false with
  | Continue _ st _ => end_value s st c
  | r => r
  end.

(** pushParseState *)
Definition push (s : scanner) (f : frame) (m : mode) : step_result :=
  if (maxNestingDepth <? N.of_nat (length (f :: sc_stack s)))%N
  then Failed ExceededMaxDepth
  else Continue m (f :: sc_stack s) (sc_lit s).

(** stateBeginValue *)
Definition begin_value (s : scanner) (c : ascii) : step_result :=
  let st := sc_stack s in
  let p := sc_pos s in
  if isSpace c then Continue BeginValue st (sc_lit s)
  else if Ascii.eqb c "{" then push s (FObjKey p []) BeginStringOrEmpty
  else if Ascii.eqb c "[" then push s (FArrValue p []) BeginValueOrEmpty
  else if Ascii.eqb c quote then Continue InString st p
  else if Ascii.eqb c "-" then Continue Neg st p
  else if Ascii.eqb c "0" then Continue Num0 st p
  else if Ascii.eqb c "t" then Continue (Lit ["r"; "u"; "e"] "true" (Bool true)) st p
  else if Ascii.eqb c "f" then Continue (Lit ["a"; "l"; "s"; "e"] "false" (Bool false)) st p
  else if Ascii.eqb c "n" then Continue (Lit ["u"; "l"; "l"] "null" Null) st p
  else if isDigit19 c then Continue Num1 st p
  else Failed (InvalidCharacter c "looking for beginning of value").

(** stateBeginString *)
Definition begin_string (s : scanner) (c : ascii) : step_result :=
  if isSpace c then Continue BeginString (sc_stack s) (sc_lit s)
  else if Ascii.eqb c quote then Continue InString (sc_stack s) (sc_pos s)
  else Failed (InvalidCharacter c "looking for beginning of object key string").

(** One step of the scanner on byte [c]. *)
Definition feed (s : scanner) (c : ascii) : step_result :=
  let st := sc_stack s in
  let keep m := Continue m st (sc_lit s) in
  match sc_mode s with
  | BeginValue => begin_value s c
  | BeginValueOrEmpty =>
      if isSpace c then keep BeginValueOrEmpty
      else if Ascii.eqb c "]" then
        match st with
        | FArrValue o xs :: st' => complete s st' (text_from s o [c]) (Array (rev xs)) true
        | _ => Failed (InvalidCharacter c "looking for beginning of value")
        end
      else begin_value s c
  | BeginStringOrEmpty =>
      if isSpace c then keep BeginStringOrEmpty
      else if Ascii.eqb c "}" then
        match st with
        | FObjKey o ms :: st' => complete s st' (text_from s o [c]) (Object (rev ms)) true
        | _ => Failed (InvalidCharacter c "looking for beginning of object key string")
        end
      else begin_string s c
  | BeginString => begin_string s c
  | EndValue => end_value s st c
  | InString =>
      if Ascii.eqb c quote then
        complete s st (text_from s (sc_lit s) [c]) (Str (text_from s (S (sc_lit s)) [])) true
      else if Ascii.eqb c "\" then keep InStringEsc
      else if (code c <? 32)%N then Failed (InvalidCharacter c "in string literal")
      else keep InString
  | InStringEsc =>
      if Ascii.eqb c "b" || Ascii.eqb c "f" || Ascii.eqb c "n" || Ascii.eqb c "r"
         || Ascii.eqb c "t" || Ascii.eqb c "\" || Ascii.eqb c "/" || Ascii.eqb c quote
      then keep InString
      else if Ascii.eqb c "u" then keep (InStringEscU 0)
      else Failed (InvalidCharacter c "in string escape code")
  | InStringEscU n =>
      if isHex c then keep (if Nat.eqb n 3 then InString else InStringEscU (S n))
      else Failed (InvalidCharacter c "in \u hexadecimal character escape")
  | Neg =>
      if Ascii.eqb c "0" then keep Num0
      else if isDigit19 c then keep Num1
      else Failed (InvalidCharacter c "in numeric literal")
  | Num1 =>
      if isDigit c then keep Num1
      else if Ascii.eqb c "." then keep Dot
      else if Ascii.eqb c "e" || Ascii.eqb c "E" then keep Exp
      else end_number s c
  | Num0 =>
      if Ascii.eqb c "." then keep Dot
      else if Ascii.eqb c "e" || Ascii.eqb c "E" then keep Exp
      else end_number s c
  | Dot =>
      if isDigit c then keep Dot0
      else Failed (InvalidCharacter c "after decimal point in numeric literal")
  | Dot0 =>
      if isDigit c then keep Dot0
      else if Ascii.eqb c "e" || Ascii.eqb c "E" then keep Exp
      else end_number s c
  | Exp =>
      if Ascii.eqb c "+" || Ascii.eqb c "-" then keep ExpSign
      else if isDigit c then keep Exp0
      else Failed (InvalidCharacter c "in exponent of numeric literal")
  | ExpSign =>
      if isDigit c then keep Exp0
      else Failed (InvalidCharacter c "in exponent of numeric literal")
  | Exp0 =>
      if isDigit c then keep Exp0
      else end_number s c
  | Lit expect name v =>
      match expect with
      | [] => Failed UnexpectedEnd
      | x :: rest =>
          if Ascii.eqb c x then
            match rest with
            | [] => complete s st (text_from s (sc_lit s) [c]) v true
            | _ => keep (Lit rest name v)
            end
          else Failed (InvalidCharacter c ("in literal " ++ name))
      end
  end.

Definition start : scanner := Scanner BeginValue [] [] 0 0.

Definition advance (s : scanner) (c : ascii) (m : mode) (st : list frame) (lit : nat) : scanner :=
  Scanner m st (c :: sc_seen s) (S (sc_pos s)) lit.

(** Scanning up to the end of the first value.  [Found raw v rest]: the
    value, its source text and the bytes that follow it; [AtEnd s]: the
    input ended first. *)
Inductive scan_result :=
| Found (raw : string) (v : value) (rest : string)
| Bad (e : syntax_msg)
| AtEnd (s : scanner).

Fixpoint scan (s : scanner) (data : string) : scan_result :=
  match data with
  | EmptyString => AtEnd s
  | String c rest =>
      match feed s c with
      | Continue m st lit => scan (advance s c m st lit) rest
      | Finished raw v consumed => Found raw v (if consumed then rest else data)
      | Failed e => Bad e
      end
  end.

(** scanner.eof: at the end of the input the scanner is stepped on a space;
    an input that ends inside a value is an error. *)
Definition eof (s : scanner) : (string * value) + syntax_msg :=
  match feed s " " with
  | Finished raw v _ => inl (raw, v)
  | Failed e => inr e
  | Continue _ _ _ => inr UnexpectedEnd
  end.

Fixpoint first_nonspace (s : string) : option ascii :=
  match s with
  | EmptyString => None
  | String c rest => if isSpace c then first_nonspace rest else Some c
  end.

(** checkValid: the whole input is one JSON value, white space around it. *)
Definition checkValid (data : string) : (string * value) + syntax_msg :=
  match scan start data with
  | Found raw v rest =>
      match first_nonspace rest with
      | None => inl (raw, v)
      | Some c => inr (InvalidCharacter c "after top-level value")
      end
  | Bad e => inr e
  | AtEnd s => eof s
  end.

(** *** Strings (unquoteBytes in decode.go, unicode/utf8, unicode/utf16) *)

Local Open Scope Z_scope.

Definition ReplacementChar : Z := 65533.

Definition hexval (c : ascii) : Z :=
  let n := byte_val c in
  if isDigit c then n - 48 else if 97 <=? n then n - 87 else n - 55.

(** getu4: the value of four hexadecimal digits, -1 if one is not a digit. *)
Definition getu4 (a b c d : ascii) : Z :=
  if isHex a && isHex b && isHex c && isHex d
  then ((hexval a * 16 + hexval b) * 16 + hexval c) * 16 + hexval d
  else -1.

Definition isSurrogate (r : Z) : bool := (55296 <=? r) && (r <? 57344).

(** utf16.DecodeRune *)
Definition utf16_DecodeRune (r1 r2 : Z) : Z :=
  if (55296 <=? r1) && (r1 <? 56320) && (56320 <=? r2) && (r2 <? 57344)
  then Z.lor (Z.shiftl (r1 - 55296) 10) (r2 - 56320) + 65536
  else ReplacementChar.

(** utf8.EncodeRune *)
Definition EncodeRune (r : Z) : list ascii :=
  let cont x := byte_chr (Z.lor 128 (Z.land x 63)) in
  if (0 <=? r) && (r <? 128) then [byte_chr r]
  else if (0 <=? r) && (r <? 2048) then
    [byte_chr (Z.lor 192 (Z.shiftr r 6)); cont r]
  else if (r <? 0) || (1114111 <? r) || isSurrogate r then
    [byte_chr 239; byte_chr 191; byte_chr 189]
  else if r <? 65536 then
    [byte_chr (Z.lor 224 (Z.shiftr r 12)); cont (Z.shiftr r 6); cont r]
  else
    [byte_chr (Z.lor 240 (Z.shiftr r 18)); cont (Z.shiftr r 12); cont (Z.shiftr r 6); cont r].

Definition between (lo hi : Z) (c : ascii) : bool :=
  (lo <=? byte_val c) && (byte_val c <=? hi).

(** The number of continuation bytes of the UTF-8 sequence that starts with
    [c] and goes on in [rest]; 0 when there is no valid sequence of two or
    more bytes there (utf8.DecodeRune gives RuneError and width 1). *)
Definition utf8_tail (c : ascii) (rest : list ascii) : nat :=
  let b := byte_val c in
  if between 194 223 c then
    match rest with
    | c1 :: _ => if between 128 191 c1 then 1%nat else 0%nat
    | _ => 0%nat
    end
  else if between 224 239 c then
    match rest with
    | c1 :: c2 :: _ =>
        let lo := if b =? 224 then 160 else 128 in
        let hi := if b =? 237 then 159 else 191 in
        if between lo hi c1 && between 128 191 c2 then 2%nat else 0%nat
    | _ => 0%nat
    end
  else if between 240 244 c then
    match rest with
    | c1 :: c2 :: c3 :: _ =>
        let lo := if b =? 240 then 144 else 128 in
        let hi := if b =? 244 then 143 else 191 in
        if between lo hi c1 && between 128 191 c2 && between 128 191 c3
        then 3%nat else 0%nat
    | _ => 0%nat
    end
  else 0%nat.

Definition escaped (e : ascii) : ascii :=
  if Ascii.eqb e "b" then "008"
  else if Ascii.eqb e "f" then "012"
  else if Ascii.eqb e "n" then "010"
  else if Ascii.eqb e "r" then "013"
  else if Ascii.eqb e "t" then "009"
  else e.

(** unquoteBytes on the text between the quotes.  [copy] bytes are taken
    over as they are (the rest of a valid UTF-8 sequence); a byte that starts
    no valid sequence becomes U+FFFD.  The scanner has accepted the text, so
    an escape is never cut short; the [[]] answers stand for the failure of
    unquoteBytes, which is not reached. *)
Fixpoint unquote_list (copy : nat) (s : list ascii) : list ascii :=
  match s with
  | [] => []
  | c :: rest =>
      match copy with
      | S k => c :: unquote_list k rest
      | O =>
          if Ascii.eqb c "\" then
            match rest with
            | [] => []
            | e :: rest1 =>
                if Ascii.eqb e "u" then
                  match rest1 with
                  | h1 :: h2 :: h3 :: h4 :: rest2 =>
                      let rr := getu4 h1 h2 h3 h4 in
                      if rr <? 0 then []
                      else if isSurrogate rr then
                        match rest2 with
                        | b :: u :: l1 :: l2 :: l3 :: l4 :: rest3 =>
                            let rr1 := if Ascii.eqb b "\" && Ascii.eqb u "u"
                                       then getu4 l1 l2 l3 l4 else -1 in
                            let dec := utf16_DecodeRune rr rr1 in
                            if dec =? ReplacementChar
                            then EncodeRune ReplacementChar ++ unquote_list 0 rest2
                            else EncodeRune dec ++ unquote_list 0 rest3
                        | _ => EncodeRune ReplacementChar ++ unquote_list 0 rest2
                        end
                      else EncodeRune rr ++ unquote_list 0 rest2
                  | _ => []
                  end
                else escaped e :: unquote_list 0 rest1
            end
          else if byte_val c <? 128 then c :: unquote_list 0 rest
          else
            match utf8_tail c rest with
            | O => EncodeRune ReplacementChar ++ unquote_list 0 rest
            | n => c :: unquote_list n rest
            end
      end
  end.

Definition unquote (raw : string) : string :=
  string_of_list_ascii (unquote_list 0 (list_ascii_of_string raw)).

(** *** Field names (foldName in fold.go)

    A member name selects the struct field whose name is equal to it after
    folding: ASCII letters to upper case, U+017F (long s) to S and U+212A
    (Kelvin sign) to K.  The folding of the other runes is left out: no
    rune outside ASCII folds to an ASCII character besides these two, and
    the field names of this library are ASCII. *)
Fixpoint fold_list (s : list ascii) : list ascii :=
  match s with
  | [] => []
  | c :: rest =>
      if between 97 122 c then byte_chr (byte_val c - 32) :: fold_list rest
      else
        match rest with
        | c1 :: rest1 =>
            if (byte_val c =? 197) && (byte_val c1 =? 191) then "S" :: fold_list rest1
            else
              match rest1 with
              | c2 :: rest2 =>
                  if (byte_val c =? 226) && (byte_val c1 =? 132) && (byte_val c2 =? 170)
                  then "K" :: fold_list rest2
                  else c :: fold_list rest
              | [] => c :: fold_list rest
              end
        | [] => c :: fold_list rest
        end
  end.

Definition foldName (s : string) : string :=
  string_of_list_ascii (fold_list (list_ascii_of_string s)).

(** The field a member is stored in: the folded, unquoted member name. *)
Definition field_of (m : member) : string := foldName (unquote (fst (fst m))).

(** *** Numbers (strconv.ParseInt with base 10 and 64 bits) *)

Fixpoint digits_val (acc : Z) (s : list ascii) : option Z :=
  match s with
  | [] => Some acc
  | c :: rest => if isDigit c then digits_val (acc * 10 + (byte_val c - 48)) rest else None
  end.

Definition ParseInt (s : string) : option Z :=
  let l := list_ascii_of_string s in
  let '(neg, ds) :=
    match l with
    | c :: rest => if Ascii.eqb c "-" then (true, rest)
                   else if Ascii.eqb c "+" then (false, rest) else (false, l)
    | [] => (false, l)
    end in
  match ds with
  | [] => None
  | _ =>
      match digits_val 0 ds with
      | None => None
      | Some n =>
          if neg then (if n <=? 2 ^ 63 then Some (- n) else None)
          else (if n <? 2 ^ 63 then Some n else None)
      end
  end.

(** *** Storing a value in a Go variable (decode.go)

    A value that does not fit the type of the variable leaves the variable
    as it is and is reported as an UnmarshalTypeError; decoding goes on, and
    Unmarshal returns the first such error at the end (saveError). *)
Definition saveError (saved new : option lib_error) : option lib_error :=
  match saved with
  | Some _ => saved
  | None => new
  end.

Definition kind (v : value) : string :=
  match v with
  | Null => "null"
  | Bool _ => "bool"
  | Number _ => "number"
  | Str _ => "string"
  | Array _ => "array"
  | Object _ => "object"
  end.

Definition mismatch (v : value) (ty : string) : option lib_error :=
  Some (UnmarshalTypeError (kind v) ty).

(** into a [string] *)
Definition store_string (v : value) (cur : string) : string * option lib_error :=
  match v with
  | Str raw => (unquote raw, None)
  | Null => (cur, None)
  | _ => (cur, mismatch v "string")
  end.

(** into an [int] (64 bits) *)
Definition store_int (v : value) (cur : Z) : Z * option lib_error :=
  match v with
  | Number lit =>
      match ParseInt lit with
      | Some n => (n, None)
      | None => (cur, Some (UnmarshalTypeError ("number " ++ lit) "int"))
      end
  | Null => (cur, None)
  | _ => (cur, mismatch v "int")
  end.

(** into a struct: the members are stored one after the other, in the
    order of the text, each by [field] (which gets the folded name, the
    source text and the value of the member). *)
Definition store_member {T} (field : string -> string -> value -> T -> T * option lib_error)
    (acc : T * option lib_error) (m : member) : T * option lib_error :=
  let '(t', e) := field (field_of m) (snd (fst m)) (snd m) (fst acc) in
  (t', saveError (snd acc) e).

Definition store_members {T} (field : string -> string -> value -> T -> T * option lib_error)
    (ms : list member) (t : T) (saved : option lib_error) : T * option lib_error :=
  fold_left (store_member field) ms (t, saved).

Definition store_struct {T} (ty : string)
    (field : string -> string -> value -> T -> T * option lib_error)
    (v : value) (t : T) : T * option lib_error :=
  match v with
  | Object ms => store_members field ms t None
  | Null => (t, None)
  | _ => (t, mismatch v ty)
  end.

(** into a [map[string]string]: nil becomes an empty map, every member is
    written under its unquoted name, with the empty string when its value is
    no string; null makes the map nil. *)
Definition store_entry (acc : gmap string string * option lib_error) (mb : member)
    : gmap string string * option lib_error :=
  let '(s, e) := store_string (snd mb) "" in
  (<[ unquote (fst (fst mb)) := s ]> (fst acc), saveError (snd acc) e).

Definition store_map (v : value) (cur : option (gmap string string))
    : option (gmap string string) * option lib_error :=
  match v with
  | Object ms =>
      let '(m, e) := fold_left store_entry ms (default ∅ cur, None) in
      (Some m, e)
  | Null => (None, None)
  | _ => (cur, mismatch v "map[string]string")
  end.

(** json.Unmarshal(data, &t), for a variable whose type stores a value by
    [store]: nothing is stored unless the whole input is valid. *)
Definition Unmarshal {T} (store : value -> T -> T * option lib_error)
    (data : string) (t : T) : T * option lib_error :=
  match checkValid data with
  | inr e => (t, Some (SyntaxError e))
  | inl (_, v) => store v t
  end.

Definition is_composite (v : value) : bool :=
  match v with
  | Array _ | Object _ => true
  | _ => false
  end.

End Json.

(** ** net/http: the response

    Of http.Response the client reads the status code and the body.  A body
    is what reading it to the end yields: the bytes, and the error that ends
    them if they do not end with EOF. *)

Record ReadCloser := { rc_data : string; rc_err : option lib_error }.

(** ioutil.ReadAll *)
Definition ReadAll (b : ReadCloser) : string * option lib_error :=
  (rc_data b, rc_err b).

(** the reader after it was read to the end *)
Definition drained (b : ReadCloser) : ReadCloser :=
  {| rc_data := ""; rc_err := rc_err b |}.

(** the reader after Close *)
Definition closed : ReadCloser :=
  {| rc_data := ""; rc_err := Some (PlatformError "http: read on closed response body") |}.

Record Response := { StatusCode : Z; Body : ReadCloser }.

Definition StatusBadRequest : Z := 400.

(** ** The API error structs

    Both hold a [*http.Response].  [checkResponse] sets it to the response
    it was given, so the struct and the caller share that object; decoding
    can make it nil or, from nil, a new object of its own. *)

Inductive resp_ref :=
| RefNil
| RefShared                 (* the response given to checkResponse *)
| RefOwn (r : Response).    (* an object no one else points to *)

Module ErrorResponse.
Record t := Make {
  Response : resp_ref;
  Message : string;      (* `json:"error"` *)
  Code : string          (* `json:"code"` *)
}.
End ErrorResponse.

Module ValidationErrorResponse.
Record t := Make {
  Response : resp_ref;
  Errors : option (gmap string string)   (* `json:"errors"`; None is the nil map *)
}.
End ValidationErrorResponse.

(** The values of Go's [error] interface that the client returns. *)
Inductive error :=
| LibError (e : lib_error)
| ErrorResponseOf (e : ErrorResponse.t)                       (* *ErrorResponse *)
| ValidationErrorResponseOf (e : ValidationErrorResponse.t).  (* *ValidationErrorResponse *)

(** ** json.Unmarshal into the API error structs

    Neither struct excludes its [Response] field from JSON (there is no
    `json:"-"` tag), so a member named Response is decoded into the
    http.Response behind the pointer.  Of that struct the field StatusCode
    is modelled.  Its other fields (listed below by their folded names) are
    not: a body that names one of them inside a Response member is outside
    the model, and decoding it gives [None]. *)

Definition http_Response_other_fields : list string :=
  ["STATUS"; "PROTO"; "PROTOMAJOR"; "PROTOMINOR"; "HEADER"; "BODY";
   "CONTENTLENGTH"; "TRANSFERENCODING"; "CLOSE"; "UNCOMPRESSED"; "TRAILER";
   "REQUEST"; "TLS"].

Definition store_Response_member (acc : option (Response * option lib_error))
    (m : Json.member) : option (Response * option lib_error) :=
  '(r, saved) ← acc;
  if String.eqb (Json.field_of m) "STATUSCODE" then
    let '(n, e) := Json.store_int (snd m) (StatusCode r) in
    Some ({| StatusCode := n; Body := Body r |}, Json.saveError saved e)
  else if existsb (String.eqb (Json.field_of m)) http_Response_other_fields
  then None
  else Some (r, saved).

Definition store_Response_members (ms : list Json.member) (r : Response)
    : option (Response * option lib_error) :=
  fold_left store_Response_member ms (Some (r, None)).

(** the zero http.Response that decoding allocates behind a nil pointer
    (its nil Body is written as the empty reader; nothing reads it) *)
Definition zero_Response : Response :=
  {| StatusCode := 0; Body := {| rc_data := ""; rc_err := None |} |}.

(** Storing a value through a [*http.Response] field: null makes the
    pointer nil; otherwise a nil pointer first gets a new object, and an
    object is decoded into what the pointer points to.  [shared] is the
    response of checkResponse. *)
Definition store_Response_ptr (v : Json.value) (ref : resp_ref) (shared : Response)
    : option (resp_ref * Response * option lib_error) :=
  match v with
  | Json.Null => Some (RefNil, shared, None)
  | Json.Object ms =>
      match ref with
      | RefShared =>
          '(r', e) ← store_Response_members ms shared; Some (RefShared, r', e)
      | RefOwn x =>
          '(x', e) ← store_Response_members ms x; Some (RefOwn x', shared, e)
      | RefNil =>
          '(x', e) ← store_Response_members ms zero_Response; Some (RefOwn x', shared, e)
      end
  | _ =>
      Some (match ref with RefNil => RefOwn zero_Response | _ => ref end,
            shared, Json.mismatch v "http.Response")
  end.

(** One member stored in an ErrorResponse. *)
Definition ErrorResponse_field (m : Json.member) (er : ErrorResponse.t) (shared : Response)
    : option (ErrorResponse.t * Response * option lib_error) :=
  let name := Json.field_of m in
  if String.eqb name "RESPONSE" then
    '(ref, shared', e) ← store_Response_ptr (snd m) (ErrorResponse.Response er) shared;
    Some (ErrorResponse.Make ref (ErrorResponse.Message er) (ErrorResponse.Code er), shared', e)
  else if String.eqb name "ERROR" then
    let '(s, e) := Json.store_string (snd m) (ErrorResponse.Message er) in
    Some (ErrorResponse.Make (ErrorResponse.Response er) s (ErrorResponse.Code er), shared, e)
  else if String.eqb name "CODE" then
    let '(s, e) := Json.store_string (snd m) (ErrorResponse.Code er) in
    Some (ErrorResponse.Make (ErrorResponse.Response er) (ErrorResponse.Message er) s, shared, e)
  else Some (er, shared, None).

Definition ErrorResponse_member
    (acc : option (ErrorResponse.t * Response * option lib_error)) (m : Json.member)
    : option (ErrorResponse.t * Response * option lib_error) :=
  '(er, shared, saved) ← acc;
  '(er', shared', e) ← ErrorResponse_field m er shared;
  Some (er', shared', Json.saveError saved e).

Definition ErrorResponse_members (ms : list Json.member) (er : ErrorResponse.t)
    (shared : Response) : option (ErrorResponse.t * Response * option lib_error) :=
  fold_left ErrorResponse_member ms (Some (er, shared, None)).

(** json.Unmarshal(data, errorResponse) *)
Definition Unmarshal_ErrorResponse (data : string) (er : ErrorResponse.t) (shared : Response)
    : option (ErrorResponse.t * Response * option lib_error) :=
  match Json.checkValid data with
  | inr e => Some (er, shared, Some (SyntaxError e))
  | inl (_, Json.Object ms) => ErrorResponse_members ms er shared
  | inl (_, Json.Null) => Some (er, shared, None)
  | inl (_, v) => Some (er, shared, Json.mismatch v "coinspaid.ErrorResponse")
  end.

(** One member stored in a ValidationErrorResponse. *)
Definition ValidationErrorResponse_field (m : Json.member)
    (ve : ValidationErrorResponse.t) (shared : Response)
    : option (ValidationErrorResponse.t * Response * option lib_error) :=
  let name := Json.field_of m in
  if String.eqb name "RESPONSE" then
    '(ref, shared', e) ← store_Response_ptr (snd m) (ValidationErrorResponse.Response ve) shared;
    Some (ValidationErrorResponse.Make ref (ValidationErrorResponse.Errors ve), shared', e)
  else if String.eqb name "ERRORS" then
    let '(mp, e) := Json.store_map (snd m) (ValidationErrorResponse.Errors ve) in
    Some (ValidationErrorResponse.Make (ValidationErrorResponse.Response ve) mp, shared, e)
  else Some (ve, shared, None).

Definition ValidationErrorResponse_member
    (acc : option (ValidationErrorResponse.t * Response * option lib_error))
    (m : Json.member)
    : option (ValidationErrorResponse.t * Response * option lib_error) :=
  '(ve, shared, saved) ← acc;
  '(ve', shared', e) ← ValidationErrorResponse_field m ve shared;
  Some (ve', shared', Json.saveError saved e).

Definition ValidationErrorResponse_members (ms : list Json.member)
    (ve : ValidationErrorResponse.t) (shared : Response)
    : option (ValidationErrorResponse.t * Response * option lib_error) :=
  fold_left ValidationErrorResponse_member ms (Some (ve, shared, None)).

(** json.Unmarshal(data, validationErrorResponse) *)
Definition Unmarshal_ValidationErrorResponse (data : string)
    (ve : ValidationErrorResponse.t) (shared : Response)
    : option (ValidationErrorResponse.t * Response * option lib_error) :=
  match Json.checkValid data with
  | inr e => Some (ve, shared, Some (SyntaxError e))
  | inl (_, Json.Object ms) => ValidationErrorResponse_members ms ve shared
  | inl (_, Json.Null) => Some (ve, shared, None)
  | inl (_, v) => Some (ve, shared, Json.mismatch v "coinspaid.ValidationErrorResponse")
  end.

(** ** checkResponse

    The result is the response object after the call and the error returned
    ([None] for nil); no result ([None] outside) when the body leaves the
    model of the decoder. *)
Definition checkResponse (r : Response) : option (Response * option error) :=
  let c := StatusCode r in
  if (200 <=? c) && (c <=? 299) then Some (r, None) else
  let errorResponse := ErrorResponse.Make RefShared "" "" in
  let '(body, err) := ReadAll (Body r) in
  let r := {| StatusCode := StatusCode r; Body := drained (Body r) |} in
  match err with
  | Some _ => Some (r, Some (ErrorResponseOf errorResponse))
  | None =>
      '(errorResponse, r) ←
        (if (0 <? String.length body)%nat then
           '(er, r', err) ← Unmarshal_ErrorResponse body errorResponse r;
           match err with
           | Some _ =>
               Some (ErrorResponse.Make (ErrorResponse.Response er) body (ErrorResponse.Code er), r')
           | None => Some (er, r')
           end
         else Some (errorResponse, r));
      if StatusCode r =? StatusBadRequest then
        let validationErrorResponse := ValidationErrorResponse.Make RefShared None in
        '(ve, r', _) ← Unmarshal_ValidationErrorResponse body validationErrorResponse r;
        Some (r', Some (ValidationErrorResponseOf ve))
      else Some (r, Some (ErrorResponseOf errorResponse))
  end.

(** ** The json.Unmarshaler interface and Decoder.Decode *)

Class Unmarshaler (T : Type) := UnmarshalJSON : string -> T -> T * option lib_error.

(** json.NewDecoder(body).Decode(v) for a [v] that points to an
    Unmarshaler: the first JSON value of the stream is handed to
    UnmarshalJSON as it is written; what follows it is not looked at.  A
    read error counts only if the bytes before it hold no complete value;
    the end of a number, a string or a literal shows at the byte after it. *)
Definition Decoder_Decode {T} `{Unmarshaler T} (b : ReadCloser) (v : T)
    : T * option lib_error :=
  match Json.scan Json.start (rc_data b) with
  | Json.Found raw val rest =>
      match rc_err b with
      | Some e =>
          if negb (Json.is_composite val) && String.eqb rest ""
          then (v, Some e) else UnmarshalJSON raw v
      | None => UnmarshalJSON raw v
      end
  | Json.Bad e => (v, Some (SyntaxError e))
  | Json.AtEnd s =>
      match rc_err b with
      | Some e => (v, Some e)
      | None =>
          match Json.eof s with
          | inl (raw, _) => UnmarshalJSON raw v
          | inr _ =>
              (v, Some (match Json.first_nonspace (rc_data b) with
                        | Some _ => ErrUnexpectedEOF
                        | None => EOF
                        end))
          end
      end
  end.

(** ** The output types *)

Module Address.
Record t := Make {
  ID : Z;                 (* int, `json:"id"` *)
  Currency : string;      (* `json:"currency"` *)
  ConvertTo : string;     (* `json:"convert_to"` *)
  Address : string;       (* `json:"address"` *)
  Tag : string;           (* `json:"tag"` *)
  ForeignID : string      (* `json:"foreign_id"` *)
}.
Definition zero : t := Make 0 "" "" "" "" "".
End Address.

(** the fields of [Alias] (Address without its methods) *)
Definition Address_field (name raw : string) (v : Json.value) (a : Address.t)
    : Address.t * option lib_error :=
  let '(Address.Make id cur conv addr tag fid) := a in
  if String.eqb name "ID" then
    let '(n, e) := Json.store_int v id in (Address.Make n cur conv addr tag fid, e)
  else if String.eqb name "CURRENCY" then
    let '(s, e) := Json.store_string v cur in (Address.Make id s conv addr tag fid, e)
  else if String.eqb name "CONVERT_TO" then
    let '(s, e) := Json.store_string v conv in (Address.Make id cur s addr tag fid, e)
  else if String.eqb name "ADDRESS" then
    let '(s, e) := Json.store_string v addr in (Address.Make id cur conv s tag fid, e)
  else if String.eqb name "TAG" then
    let '(s, e) := Json.store_string v tag in (Address.Make id cur conv addr s fid, e)
  else if String.eqb name "FOREIGN_ID" then
    let '(s, e) := Json.store_string v fid in (Address.Make id cur conv addr tag s, e)
  else (a, None).

(** the field of [temp], a struct { Data Alias `json:"data"` } *)
Definition Address_temp_field (name raw : string) (v : Json.value) (data : Address.t)
    : Address.t * option lib_error :=
  if String.eqb name "DATA"
  then Json.store_struct "coinspaid.Alias" Address_field v data
  else (data, None).

(** Address.UnmarshalJSON (pointer receiver) *)
Definition Address_UnmarshalJSON (data : string) (a : Address.t)
    : Address.t * option lib_error :=
  let temp := Address.zero in
  let '(temp, err) :=
    Json.Unmarshal (Json.store_struct "struct { Data coinspaid.Alias }" Address_temp_field)
                   data temp in
  match err with
  | Some e => (a, Some e)
  | None => (temp, None)
  end.

#[export] Instance Address_Unmarshaler : Unmarshaler Address.t := Address_UnmarshalJSON.

(** Address.UnmarshalJSON in the earlier revision of coinspaid.go: it
    returns nil where the later one returns the error of json.Unmarshal. *)
Definition Address_UnmarshalJSON_earlier (data : string) (a : Address.t)
    : Address.t * option lib_error :=
  let temp := Address.zero in
  let '(temp, err) :=
    Json.Unmarshal (Json.store_struct "struct { Data coinspaid.Alias }" Address_temp_field)
                   data temp in
  match err with
  | Some e => (a, None)
  | None => (temp, None)
  end.

(** type ID string *)
Definition ID : Type := string.

(** ID.UnmarshalJSON (pointer receiver) *)
Definition ID_UnmarshalJSON (data : string) (id : ID) : ID * option lib_error :=
  (data, None).

#[export] Instance ID_Unmarshaler : Unmarshaler ID := ID_UnmarshalJSON.

Module WithdrawCryptoPayload.
Record t := Make {
  ID : ID;                     (* `json:"id"` *)
  ForeignID : string;          (* `json:"foreign_id"` *)
  Type_ : string;              (* Type, `json:"type"` *)
  Status : string;             (* `json:"status"` *)
  Amount : string;             (* `json:"amount"` *)
  SenderCurrency : string;     (* `json:"sender_currency"` *)
  SenderAmount : string;       (* `json:"sender_amount"` *)
  ReceiverCurrency : string;   (* `json:"receiver_currency"` *)
  ReceiverAmount : string      (* `json:"receiver_amount"` *)
}.
Definition zero : t := Make "" "" "" "" "" "" "" "" "".
End WithdrawCryptoPayload.

(** the fields of [Alias] (WithdrawCryptoPayload without its methods); the
    field of type ID is an Unmarshaler and gets the source text of the
    member's value, whatever the value is *)
Definition WithdrawCryptoPayload_field (name raw : string) (v : Json.value)
    (p : WithdrawCryptoPayload.t) : WithdrawCryptoPayload.t * option lib_error :=
  let '(WithdrawCryptoPayload.Make id fid ty st am sc sa rcur ra) := p in
  if String.eqb name "ID" then
    let '(i, e) := UnmarshalJSON raw id in
    (WithdrawCryptoPayload.Make i fid ty st am sc sa rcur ra, e)
  else if String.eqb name "FOREIGN_ID" then
    let '(s, e) := Json.store_string v fid in
    (WithdrawCryptoPayload.Make id s ty st am sc sa rcur ra, e)
  else if String.eqb name "TYPE" then
    let '(s, e) := Json.store_string v ty in
    (WithdrawCryptoPayload.Make id fid s st am sc sa rcur ra, e)
  else if String.eqb name "STATUS" then
    let '(s, e) := Json.store_string v st in
    (WithdrawCryptoPayload.Make id fid ty s am sc sa rcur ra, e)
  else if String.eqb name "AMOUNT" then
    let '(s, e) := Json.store_string v am in
    (WithdrawCryptoPayload.Make id fid ty st s sc sa rcur ra, e)
  else if String.eqb name "SENDER_CURRENCY" then
    let '(s, e) := Json.store_string v sc in
    (WithdrawCryptoPayload.Make id fid ty st am s sa rcur ra, e)
  else if String.eqb name "SENDER_AMOUNT" then
    let '(s, e) := Json.store_string v sa in
    (WithdrawCryptoPayload.Make id fid ty st am sc s rcur ra, e)
  else if String.eqb name "RECEIVER_CURRENCY" then
    let '(s, e) := Json.store_string v rcur in
    (WithdrawCryptoPayload.Make id fid ty st am sc sa s ra, e)
  else if String.eqb name "RECEIVER_AMOUNT" then
    let '(s, e) := Json.store_string v ra in
    (WithdrawCryptoPayload.Make id fid ty st am sc sa rcur s, e)
  else (p, None).

Definition WithdrawCryptoPayload_temp_field (name raw : string) (v : Json.value)
    (data : WithdrawCryptoPayload.t) : WithdrawCryptoPayload.t * option lib_error :=
  if String.eqb name "DATA"
  then Json.store_struct "coinspaid.Alias" WithdrawCryptoPayload_field v data
  else (data, None).

(** WithdrawCryptoPayload.UnmarshalJSON (pointer receiver) *)
Definition WithdrawCryptoPayload_UnmarshalJSON (data : string) (a : WithdrawCryptoPayload.t)
    : WithdrawCryptoPayload.t * option lib_error :=
  let temp := WithdrawCryptoPayload.zero in
  let '(temp, err) :=
    Json.Unmarshal (Json.store_struct "struct { Data coinspaid.Alias }"
                                      WithdrawCryptoPayload_temp_field)
                   data temp in
  match err with
  | Some e => (a, Some e)
  | None => (temp, None)
  end.

#[export] Instance WithdrawCryptoPayload_Unmarshaler : Unmarshaler WithdrawCryptoPayload.t :=
  WithdrawCryptoPayload_UnmarshalJSON.

(** ** The input types *)

Module TakeAddressInput.
Record t := Make {
  ForeignID : string;   (* `json:"foreign_id"` *)
  Currency : string     (* `json:"currency"` *)
}.
End TakeAddressInput.

Module WithdrawCryptoInput.
Record t (float64 : Type) := Make {
  ForeignID : string;   (* `json:"foreign_id"` *)
  Amount : float64;     (* `json:"amount"` *)
  Currency : string;    (* `json:"currency"` *)
  Address : string;     (* `json:"address"` *)
  Tag : string          (* `json:"tag"` *)
}.
Arguments Make {float64}.
Arguments ForeignID {float64}.
Arguments Amount {float64}.
Arguments Currency {float64}.
Arguments Address {float64}.
Arguments Tag {float64}.
End WithdrawCryptoInput.

(** ** net/http: requests and the client *)

Record Request := {
  Method : string;
  RequestURL : string;
  Header : gmap string (list string);
  RequestBody : string
}.

(** req.Header.Set(key, value); the keys the client sets are in canonical
    form already. *)
Definition Header_Set (key value : string) (req : Request) : Request :=
  {| Method := Method req; RequestURL := RequestURL req;
     Header := <[ key := [value] ]> (Header req); RequestBody := RequestBody req |}.

(** http.Client, of which the client sets the timeout (in nanoseconds) *)
Record HTTPClient := { Timeout : Z }.

Definition Second : Z := 1000000000.

(** ** The platform

    What the client uses of net/url, of the JSON encoder, of net/http and of
    the network, left open: URLs and their functions, the serialization of
    the two inputs, the check http.NewRequest makes on its arguments, and
    the round trip, which may depend on the requests sent before. *)
Class Platform := {
  URL : Type;
  float64 : Type;
  url_Parse : string -> URL + lib_error;
  url_ResolveReference : URL -> string -> URL;
  url_String : URL -> string;
  json_Marshal_TakeAddressInput : TakeAddressInput.t -> string + lib_error;
  json_Marshal_WithdrawCryptoInput : WithdrawCryptoInput.t float64 -> string + lib_error;
  http_NewRequest_error : string -> string -> option lib_error;
  http_Do : HTTPClient -> list Request -> Request -> Response + lib_error
}.

Section Client.
Context `{Platform}.

(** http.NewRequest(method, url, bytes.NewReader(body)) *)
Definition http_NewRequest (method url body : string) : Request + lib_error :=
  match http_NewRequest_error method url with
  | Some e => inr e
  | None => inl {| Method := method; RequestURL := url; Header := ∅; RequestBody := body |}
  end.

(** Client manages communication with the Coinspaid API. *)
Record Client := {
  apiKey : string;
  apiSecret : string;
  BaseURL : URL;
  httpClient : HTTPClient
}.

(** NewClient returns a new instance of the Coinspaid client with the
    provided options. *)
Definition NewClient (apiKey apiSecret baseEndpoint : string)
    : option Client * option error :=
  if String.eqb apiKey "" || String.eqb apiSecret "" || String.eqb baseEndpoint "" then
    (None, Some (LibError (ErrorString
       "apiKey, apiSecret and baseEndpoint are required to create a Client")))
  else
    let httpClient := {| Timeout := Second * 10 |} in
    match url_Parse baseEndpoint with
    | inr _ => (None, Some (LibError (ErrorString "can't parse base endpoint")))
    | inl baseURL =>
        (Some {| apiKey := apiKey; apiSecret := apiSecret;
                 httpClient := httpClient; BaseURL := baseURL |}, None)
    end.

(** createSignedRequestHeader: HMAC-SHA-512 of the body under the API
    secret, in hexadecimal. *)
Definition createSignedRequestHeader (client : Client) (body : string)
    : string * option error :=
  let h := HMAC.Sum (bytes_of_string (apiSecret client)) (bytes_of_string body) in
  let sha := Hex.EncodeToString h in
  (sha, None).

(** *** The state the methods run in

    The client the method is called on, and the requests put on the wire so
    far (the last one first).  A computation yields no value ([None]) when a
    response body leaves the model of the decoder (see [checkResponse]);
    the state is kept in that case too. *)
Record State := { self : Client; wire : list Request }.

Definition M (A : Type) : Type := State -> option A * State.

Definition ret {A} (a : A) : M A := fun st => (Some a, st).

Definition bind {A B} (m : M A) (k : A -> M B) : M B :=
  fun st =>
    match m st with
    | (Some a, st') => k a st'
    | (None, st') => (None, st')
    end.

Definition get_self : M Client := fun st => (Some (self st), st).

Definition modelled {A} (o : option A) : M A := fun st => (o, st).

(** httpClient.Do(req) *)
Definition Do (c : HTTPClient) (req : Request) : M (Response + lib_error) :=
  fun st =>
    (Some (http_Do c (wire st) req), {| self := self st; wire := req :: wire st |}).

End Client.

Notation "'do' p <- m 'in' k" := (bind m (fun p => k))
  (at level 10, p pattern, m at level 100, k at level 200).

Section Operations.
Context `{Platform}.

(** doRequest sends the request with an HTTP client of its own, classifies
    the response and decodes the body of a successful one into [v].  The
    result is [v] after the call, the response returned (its body closed by
    the deferred Close) and the error. *)
Definition doRequest {T} `{Unmarshaler T} (req : Request) (v : T)
    : M (T * option Response * option error) :=
  let httpClient := {| Timeout := Second * 10 |} in
  do r <- Do httpClient req in
  match r with
  | inr err => ret (v, None, Some (LibError err))
  | inl res =>
      do (res, err) <- modelled (checkResponse res) in
      match err with
      | Some e => ret (v, None, Some e)
      | None =>
          let '(v', err) := Decoder_Decode (Body res) v in
          ret (v', Some {| StatusCode := StatusCode res; Body := closed |},
               option_map LibError err)
      end
  end.

(** TakeAddress returns the address for depositing crypto. *)
Definition TakeAddress (input : TakeAddressInput.t) : M (option Address.t * option error) :=
  do client <- get_self in
  let url := url_ResolveReference (BaseURL client) "addresses/take" in
  match json_Marshal_TakeAddressInput input with
  | inr err => ret (None, Some (LibError err))
  | inl j =>
      match http_NewRequest "POST" (url_String url) j with
      | inr err => ret (None, Some (LibError err))
      | inl req =>
          let '(signedBody, err) := createSignedRequestHeader client j in
          match err with
          | Some e => ret (None, Some e)
          | None =>
              let req := Header_Set "Accept" "application/json" req in
              let req := Header_Set "Content-Type" "application/json" req in
              let req := Header_Set "X-Processing-Key" (apiKey client) req in
              let req := Header_Set "X-Processing-Signature" signedBody req in
              let address := Address.zero in
              do (address, _, err) <- doRequest req address in
              match err with
              | Some e => ret (None, Some e)
              | None => ret (Some address, None)
              end
          end
      end
  end.

(** WithdrawCrypto withdraws crypto to any specified address. *)
Definition WithdrawCrypto (input : WithdrawCryptoInput.t float64)
    : M (option WithdrawCryptoPayload.t * option error) :=
  do client <- get_self in
  let url := url_ResolveReference (BaseURL client) "withdrawal/crypto" in
  match json_Marshal_WithdrawCryptoInput input with
  | inr err => ret (None, Some (LibError err))
  | inl j =>
      match http_NewRequest "POST" (url_String url) j with
      | inr err => ret (None, Some (LibError err))
      | inl req =>
          let '(signedBody, err) := createSignedRequestHeader client j in
          match err with
          | Some e => ret (None, Some e)
          | None =>
              let req := Header_Set "Accept" "application/json" req in
              let req := Header_Set "Content-Type" "application/json" req in
              let req := Header_Set "X-Processing-Key" (apiKey client) req in
              let req := Header_Set "X-Processing-Signature" signedBody req in
              let withdrawCryptoPayload := WithdrawCryptoPayload.zero in
              do (withdrawCryptoPayload, _, err) <- doRequest req withdrawCryptoPayload in
              match err with
              | Some e => ret (None, Some e)
              | None => ret (Some withdrawCryptoPayload, None)
              end
          end
      end
  end.

End Operations.

(** ** A test server

    The platform of the package's tests (httptest.NewServer with a handler
    that writes one fixed response): URLs are their text, a float64 is named
    by its decimal literal, every request is well formed and every round
    trip is answered by [reply].  The two inputs are serialized field by
    field; the strings of the tests need no escaping. *)

(** [dq s] is [s] with every apostrophe replaced by a double quote: JSON
    text is written with apostrophes in this file. *)
Fixpoint dq (s : string) : string :=
  match s with
  | EmptyString => EmptyString
  | String c rest => String (if Ascii.eqb c "'" then Json.quote else c) (dq rest)
  end.

Definition httptest (reply : Response + lib_error) : Platform := {|
  URL := string;
  float64 := string;
  url_Parse := fun s => inl s;
  url_ResolveReference := fun base path => base +:+ "/" +:+ path;
  url_String := fun u => u;
  json_Marshal_TakeAddressInput := fun i =>
    inl (dq "{'foreign_id':'" +:+ TakeAddressInput.ForeignID i +:+
         dq "','currency':'" +:+ TakeAddressInput.Currency i +:+ dq "'}");
  json_Marshal_WithdrawCryptoInput := fun i =>
    inl (dq "{'foreign_id':'" +:+ WithdrawCryptoInput.ForeignID i +:+
         dq "','amount':" +:+ WithdrawCryptoInput.Amount i +:+
         dq ",'currency':'" +:+ WithdrawCryptoInput.Currency i +:+
         dq "','address':'" +:+ WithdrawCryptoInput.Address i +:+
         dq "','tag':'" +:+ WithdrawCryptoInput.Tag i +:+ dq "'}");
  http_NewRequest_error := fun _ _ => None;
  http_Do := fun _ _ _ => reply
|}.

(** a response with the given status and body, read without error *)
Definition respond (status : Z) (body : string) : Response :=
  {| StatusCode := status; Body := {| rc_data := body; rc_err := None |} |}.

(** the client of the tests, Client{apiKey: "key", apiSecret: "secret", ...},
    before it has sent anything *)
Definition test_state (reply : Response + lib_error) : @State (httptest reply) :=
  @Build_State (httptest reply)
    (@Build_Client (httptest reply) "key" "secret" "http://127.0.0.1" {| Timeout := 0 |})
    [].

Definition takeAddressInput : TakeAddressInput.t :=
  TakeAddressInput.Make "user-id:2048" "EUR".

Definition withdrawCryptoInput : WithdrawCryptoInput.t string :=
  WithdrawCryptoInput.Make "user-id:2048" "200000000" "BTC"
    "3P3QsMVK89JBNqZQv5zMAKG8FK3kJM4rjt" "".

(** the bodies of the tests *)
Definition okResponse : string := dq "{
		'data': {
			'id': 1,
			'currency': 'EUR',
			'convert_to': 'EUR',
			'address': '12983h13ro1hrt24it432t',
			'tag': 'tag-123',
			'foreign_id': 'user-id:2048'
		}
	}".

Definition invalidAuthResponse : string := dq "{
		'error': 'Bad key header',
		'code': 'bad_header_key'
	}".

Definition badRequestResponse : string := dq "{
		'errors': {
			'foreign_id': 'The foreign id field is required.'
		}
	}".

Definition withdrawCryptoOkResponse : string := dq "{
		'data': {
			'id': 1,
			'foreign_id': 'user-id:2048',
			'type': 'withdrawal',
			'status': 'processing',
			'amount': '0.01000000',
			'sender_amount': '0.01000000',
			'sender_currency': 'ETH',
			'receiver_amount': '0.01000000',
			'receiver_currency': 'ETH'
		}
	}".

(** ** The vocabulary of the properties

    What the statements below are written in: readings of a body that
    follow the specification and not the decoder, and the observations made
    of a run. *)

(** a digit of lower-case hexadecimal *)
Definition lower_hex (c : ascii) : bool :=
  Json.isDigit c || ((97 <=? Json.code c)%N && (Json.code c <=? 102)%N).

(** the member is stored in the field with this folded name *)
Definition names (field : string) (m : Json.member) : bool :=
  String.eqb (Json.field_of m) field.

(** The body is a JSON object with a member for the field Response of the
    error structs. *)
Definition names_Response (body : string) : bool :=
  match Json.checkValid body with
  | inl (_, Json.Object ms) => existsb (names "RESPONSE") ms
  | _ => false
  end.

(** What the members of an object leave in a string field that held [cur]:
    the string of the last member for that field that holds a string. *)
Definition last_string (field : string) (ms : list Json.member) (cur : string) : string :=
  fold_left (fun acc m =>
               if names field m then
                 match snd m with
                 | Json.Str raw => Json.unquote raw
                 | _ => acc
                 end
               else acc)
            ms cur.

(** a value that a string field refuses *)
Definition no_string (v : Json.value) : bool :=
  match v with
  | Json.Str _ | Json.Null => false
  | _ => true
  end.

(** a member for [error] or [code] whose value is refused *)
Definition misfit (m : Json.member) : bool :=
  (names "ERROR" m || names "CODE" m) && no_string (snd m).

(** What the members of an object leave in the field Errors. *)
Definition errors_of (ms : list Json.member) (cur : option (gmap string string))
    : option (gmap string string) :=
  fold_left (fun acc m => if names "ERRORS" m then fst (Json.store_map (snd m) acc) else acc)
            ms cur.

(** the entry a member of the errors object makes in the map *)
Definition entry (mb : Json.member) : string * string :=
  (Json.unquote (fst (fst mb)), fst (Json.store_string (snd mb) "")).

(** [decoded_error body] is the message and the code that the members of
    the body give to an ErrorResponse, and whether json.Unmarshal reports an
    error: the body is no valid JSON, is neither an object nor null, or has
    a member for error or code that is refused. *)
Definition decoded_error (body : string) : string * string * bool :=
  match Json.checkValid body with
  | inr _ => ("", "", true)
  | inl (_, Json.Object ms) =>
      (last_string "ERROR" ms "", last_string "CODE" ms "", existsb misfit ms)
  | inl (_, Json.Null) => ("", "", false)
  | inl (_, _) => ("", "", true)
  end.

(** [decoded_errors body] is the map that the members of the body give to a
    ValidationErrorResponse. *)
Definition decoded_errors (body : string) : option (gmap string string) :=
  match Json.checkValid body with
  | inl (_, Json.Object ms) => errors_of ms None
  | _ => None
  end.

(** The response after checkResponse has read its body. *)
Definition after_read (r : Response) : Response :=
  {| StatusCode := StatusCode r; Body := drained (Body r) |}.

(** The error checkResponse returns for a response outside 200-299 whose
    body was read in full and names no Response member. *)
Definition classified (r : Response) : error :=
  let body := rc_data (Body r) in
  if StatusCode r =? StatusBadRequest then
    ValidationErrorResponseOf (ValidationErrorResponse.Make RefShared (decoded_errors body))
  else
    let '(msg, code, failed) := decoded_error body in
    ErrorResponseOf (ErrorResponse.Make RefShared (if failed then body else msg) code).


(** [set_byte i b body] is [body] with the byte at index [i] replaced by
    [b]. *)
Fixpoint set_byte (i : nat) (b : ascii) (body : string) : string :=
  match body with
  | EmptyString => EmptyString
  | String c rest =>
      match i with
      | O => String b rest
      | S k => String c (set_byte k b rest)
      end
  end.

Section Observations.
Context `{Platform}.

(** A computation that leaves the client it runs on as it found it. *)
Definition keeps_self {A} (m : M A) : Prop := forall st, self (snd (m st)) = self st.

(** The request an operation sends for the serialized input [j]. *)
Definition request_of (client : Client) (path j : string) : Request :=
  Header_Set "X-Processing-Signature" (fst (createSignedRequestHeader client j))
    (Header_Set "X-Processing-Key" (apiKey client)
       (Header_Set "Content-Type" "application/json"
          (Header_Set "Accept" "application/json"
             {| Method := "POST";
                RequestURL := url_String (url_ResolveReference (BaseURL client) path);
                Header := ∅; RequestBody := j |}))).

(** The result of an operation, from the result of the round trip. *)
Definition outcome {T} `{Unmarshaler T} (zero : T) (r : Response + lib_error)
    : option (option T * option error) :=
  match r with
  | inr err => Some (None, Some (LibError err))
  | inl res =>
      match checkResponse res with
      | None => None
      | Some (_, Some e) => Some (None, Some e)
      | Some (res', None) =>
          match Decoder_Decode (Body res') zero with
          | (_, Some e) => Some (None, Some (LibError e))
          | (v, None) => Some (Some v, None)
          end
      end
  end.

(** In state [st] the request for [path] with body [j] is well formed and
    the server answers it with [r]. *)
Definition served (st : State) (path j : string) (r : Response) : Prop :=
  http_NewRequest_error "POST"
    (url_String (url_ResolveReference (BaseURL (self st)) path)) = None
  /\ http_Do {| Timeout := Second * 10 |} (wire st) (request_of (self st) path j) = inl r.

(** Both operations, when the server answers with [r], return the error [e]
    and no output. *)
Definition operations_return (st : State) (r : Response) (e : error) : Prop :=
  (forall input j,
     json_Marshal_TakeAddressInput input = inl j ->
     served st "addresses/take" j r ->
     fst (TakeAddress input st) = Some (None, Some e))
  /\ (forall input j,
        json_Marshal_WithdrawCryptoInput input = inl j ->
        served st "withdrawal/crypto" j r ->
        fst (WithdrawCrypto input st) = Some (None, Some e)).

End Observations.

(** A body and the same body with one byte changed never have the same
    signature. *)
Definition one_byte_changes_signature : Prop :=
  forall (P : Platform) (client : @Client P) (body : string) (i : nat) (b : ascii),
    (i < String.length body)%nat ->
    String.get i body <> Some b ->
    fst (createSignedRequestHeader client (set_byte i b body))
    <> fst (createSignedRequestHeader client body).

(** ** More vocabulary *)


(** A second test server, which also refuses what the standard library
    refuses of an input and of a URL: json.Marshal fails on the float64 NaN,
    http.NewRequest on a URL with a space in it. *)
Definition has_space (s : string) : bool :=
  existsb (Ascii.eqb " ") (list_ascii_of_string s).

Definition strict_httptest (reply : Response + lib_error) : Platform := {|
  URL := string;
  float64 := string;
  url_Parse := fun s => inl s;
  url_ResolveReference := fun base path => base +:+ "/" +:+ path;
  url_String := fun u => u;
  json_Marshal_TakeAddressInput := @json_Marshal_TakeAddressInput (httptest reply);
  json_Marshal_WithdrawCryptoInput := fun i =>
    if String.eqb (WithdrawCryptoInput.Amount i) "NaN"
    then inr (PlatformError "json: unsupported value: NaN")
    else @json_Marshal_WithdrawCryptoInput (httptest reply) i;
  http_NewRequest_error := fun _ url =>
    if has_space url then Some (PlatformError "net/url: invalid character in host name")
    else None;
  http_Do := fun _ _ _ => reply
|}.

Definition strict_state (base : string) (reply : Response + lib_error)
    : @State (strict_httptest reply) :=
  @Build_State (strict_httptest reply)
    (@Build_Client (strict_httptest reply) "key" "secret" base {| Timeout := 0 |})
    [].

(** a member for one of the fields of http.Response that are not modelled *)
Definition other_Response_field (m : Json.member) : bool :=
  existsb (String.eqb (Json.field_of m)) http_Response_other_fields.

(** What the members of a Response object leave in the status [c] of the
    response: the number of the last member StatusCode that holds an
    integer of 64 bits. *)
Definition last_status (inner : list Json.member) (c : Z) : Z :=
  fold_left (fun acc m =>
               if names "STATUSCODE" m then
                 match snd m with
                 | Json.Number lit =>
                     match Json.ParseInt lit with
                     | Some n => n
                     | None => acc
                     end
                 | _ => acc
                 end
               else acc)
            inner c.

(** ** Bodies made from values

    The text of an answer, made from the values it carries: what a server
    that encodes its answers without white space and without escapes sends.
    [plain] strings need no escape: printable ASCII without the quote and
    the backslash. *)

(** the decimal text of an integer *)
Definition int_text (n : Z) : string := NilZero.string_of_int (Z.to_int n).

Definition plain_char (c : ascii) : bool :=
  (32 <=? Json.code c)%N && (Json.code c <? 128)%N
  && negb (Ascii.eqb c Json.quote) && negb (Ascii.eqb c "\").

Definition plain (s : string) : bool := forallb plain_char (list_ascii_of_string s).

Definition error_body (m c : string) : string :=
  dq "{'error':'" +:+ m +:+ dq "','code':'" +:+ c +:+ dq "'}".

Definition digits (s : string) : bool := forallb Json.isDigit (list_ascii_of_string s).

Definition Address_body (a : Address.t) : string :=
  dq "{'data':{'id':" +:+ int_text (Address.ID a)
  +:+ dq ",'currency':'" +:+ Address.Currency a
  +:+ dq "','convert_to':'" +:+ Address.ConvertTo a
  +:+ dq "','address':'" +:+ Address.Address a
  +:+ dq "','tag':'" +:+ Address.Tag a
  +:+ dq "','foreign_id':'" +:+ Address.ForeignID a +:+ dq "'}}".

Definition plain_Address (a : Address.t) : bool :=
  plain (Address.Currency a) && plain (Address.ConvertTo a) && plain (Address.Address a)
  && plain (Address.Tag a) && plain (Address.ForeignID a).

(** the envelope of a withdrawal, the id written as it is *)
Definition WithdrawCryptoPayload_body (p : WithdrawCryptoPayload.t) : string :=
  dq "{'data':{'id':" +:+ WithdrawCryptoPayload.ID p
  +:+ dq ",'foreign_id':'" +:+ WithdrawCryptoPayload.ForeignID p
  +:+ dq "','type':'" +:+ WithdrawCryptoPayload.Type_ p
  +:+ dq "','status':'" +:+ WithdrawCryptoPayload.Status p
  +:+ dq "','amount':'" +:+ WithdrawCryptoPayload.Amount p
  +:+ dq "','sender_amount':'" +:+ WithdrawCryptoPayload.SenderAmount p
  +:+ dq "','sender_currency':'" +:+ WithdrawCryptoPayload.SenderCurrency p
  +:+ dq "','receiver_amount':'" +:+ WithdrawCryptoPayload.ReceiverAmount p
  +:+ dq "','receiver_currency':'" +:+ WithdrawCryptoPayload.ReceiverCurrency p
  +:+ dq "'}}".

Definition plain_WithdrawCryptoPayload (p : WithdrawCryptoPayload.t) : bool :=
  plain (WithdrawCryptoPayload.ForeignID p) && plain (WithdrawCryptoPayload.Type_ p)
  && plain (WithdrawCryptoPayload.Status p) && plain (WithdrawCryptoPayload.Amount p)
  && plain (WithdrawCryptoPayload.SenderAmount p)
  && plain (WithdrawCryptoPayload.SenderCurrency p)
  && plain (WithdrawCryptoPayload.ReceiverAmount p)
  && plain (WithdrawCryptoPayload.ReceiverCurrency p).

(** the body of a validation error: an object errors with one member for
    every entry *)
Fixpoint entries_text (l : list (string * string)) : string :=
  match l with
  | [] => ""
  | (k, v) :: l' =>
      dq "'" +:+ k +:+ dq "':'" +:+ v +:+ dq "'"
      +:+ match l' with
          | [] => ""
          | _ => "," +:+ entries_text l'
          end
  end.

Definition errors_body (l : list (string * string)) : string :=
  dq "{'errors':{" +:+ entries_text l +:+ "}}".

Definition plain_entry (e : string * string) : bool := plain (fst e) && plain (snd e).

(** * Properties *)

(** ** The signer *)

Lemma be_bytes_length (n : nat) (x : Z) : length (SHA512.be_bytes n x) = n.
Proof. induction n as [|n IH]; simpl; [reflexivity | now rewrite IH]. Qed.

Lemma block_length (h blk : list Z) : length (SHA512.block h blk) = 8%nat.
Proof. reflexivity. Qed.

Lemma fold_block_length (blks : list (list Z)) (h : list Z) :
  length h = 8%nat -> length (fold_left SHA512.block blks h) = 8%nat.
Proof.
  revert h; induction blks as [|b blks IH]; intros h Hh; simpl; [exact Hh|].
  apply IH, block_length.
Qed.

Lemma digest_bytes_length (h : list Z) :
  length h = 8%nat -> length (concat (map (SHA512.be_bytes 8) h)) = 64%nat.
Proof.
  intros Hh.
  do 8 (destruct h as [|? h]; [discriminate Hh|]).
  destruct h; [reflexivity | discriminate Hh].
Qed.

(** The digest has [SHA512.Size] bytes, whatever the message. *)
Lemma Sum512_length (msg : list Z) : length (SHA512.Sum512 msg) = SHA512.Size.
Proof.
  unfold SHA512.Sum512, SHA512.Size.
  apply digest_bytes_length, fold_block_length; reflexivity.
Qed.

Lemma HMAC_Sum_length (key body : list Z) : length (HMAC.Sum key body) = 64%nat.
Proof. unfold HMAC.Sum; apply Sum512_length. Qed.

Lemma Encode_length (src : list Z) : length (Hex.Encode src) = (2 * length src)%nat.
Proof. induction src as [|b src IH]; simpl; [reflexivity | rewrite IH; lia]. Qed.

Lemma string_of_list_ascii_length (l : list ascii) :
  String.length (string_of_list_ascii l) = length l.
Proof. induction l as [|c l IH]; simpl; [reflexivity | now rewrite IH]. Qed.

Lemma digit_lower_hex (n : Z) : lower_hex (Hex.digit n) = true.
Proof.
  unfold Hex.digit. generalize (Z.to_nat n) as k. intros k.
  do 16 (destruct k as [|k]; [reflexivity|]).
  reflexivity.
Qed.

Lemma Encode_lower_hex (src : list Z) : forallb lower_hex (Hex.Encode src) = true.
Proof.
  induction src as [|b src IH]; simpl; [reflexivity|].
  now rewrite !digit_lower_hex, IH.
Qed.

(** The model of HMAC-SHA-512 agrees with test case 2 of RFC 4231. *)
Example HMAC_SHA512_rfc4231_case2 :
  Hex.EncodeToString (HMAC.Sum (bytes_of_string "Jefe")
                               (bytes_of_string "what do ya want for nothing?"))
  = "164b7a7bfcf819e2e395fbe73b56e0a387bd64222e831fd610270cd7ea2505549758bf75c05a994a6d034f65f8f0e6fdcaeab1a34d4a6b4b636e070a38bce737".
Proof. vm_compute. reflexivity. Qed.

(** C4. The signature of a body is the lower-case hexadecimal text of the
    HMAC-SHA-512 digest of the body under the client's secret, and never an
    error.  It is a function of the secret and the body alone (two clients
    that differ in everything but the secret sign alike), and it is 128
    characters long, each of them one of 0-9 and a-f. *)
Theorem createSignedRequestHeader_hmac_sha512_hex `{Platform}
    (secret body : string) (key key' : string) (url url' : URL) (hc hc' : HTTPClient) :
  let client := {| apiKey := key; apiSecret := secret; BaseURL := url; httpClient := hc |} in
  let client' := {| apiKey := key'; apiSecret := secret; BaseURL := url'; httpClient := hc' |} in
  let sig := fst (createSignedRequestHeader client body) in
  snd (createSignedRequestHeader client body) = None
  /\ sig = Hex.EncodeToString (HMAC.Sum (bytes_of_string secret) (bytes_of_string body))
  /\ createSignedRequestHeader client' body = createSignedRequestHeader client body
  /\ String.length sig = 128%nat
  /\ forallb lower_hex (list_ascii_of_string sig) = true.
Proof.
  cbv zeta. unfold createSignedRequestHeader; simpl.
  repeat split.
  - unfold Hex.EncodeToString.
    rewrite string_of_list_ascii_length, Encode_length, HMAC_Sum_length. reflexivity.
  - unfold Hex.EncodeToString.
    rewrite list_ascii_of_string_of_list_ascii. apply Encode_lower_hex.
Qed.

(** C5 is [one_byte_changes_signature], collision freedom of HMAC-SHA-512 on
    a body and the same body with one byte changed; it is neither proved
    nor refuted here.  This is one such pair. *)
Example one_byte_changed_once :
  let client := @Build_Client (httptest (inr EOF)) "key" "secret" "" {| Timeout := 0 |} in
  fst (createSignedRequestHeader client (set_byte 2 "F" (dq "{'foreign_id':'1'}")))
  <> fst (createSignedRequestHeader client (dq "{'foreign_id':'1'}")).
Proof. vm_compute. discriminate. Qed.

(** ** The constructor *)

(** C6. NewClient returns an error, and no client, exactly when one of its
    three arguments is the empty string or url.Parse rejects the endpoint;
    otherwise it returns, without an error, the client that holds the key,
    the secret, the parsed endpoint and an HTTP client with a timeout of ten
    seconds.  NewClient is a function of its arguments: it runs outside the
    state of the wire and sends nothing. *)
Theorem NewClient_error_iff `{Platform} (key secret endpoint : string) :
  (snd (NewClient key secret endpoint) <> None
     <-> key = "" \/ secret = "" \/ endpoint = "" \/ exists e, url_Parse endpoint = inr e)
  /\ (snd (NewClient key secret endpoint) <> None
        <-> fst (NewClient key secret endpoint) = None)
  /\ (forall u, key <> "" -> secret <> "" -> endpoint <> "" -> url_Parse endpoint = inl u ->
        NewClient key secret endpoint
        = (Some {| apiKey := key; apiSecret := secret; BaseURL := u;
                   httpClient := {| Timeout := 10 * Second |} |}, None)).
Proof.
  unfold NewClient.
  destruct (String.eqb_spec key "") as [Hk|Hk];
  destruct (String.eqb_spec secret "") as [Hs|Hs];
  destruct (String.eqb_spec endpoint "") as [He|He]; simpl;
  try (repeat split; intros; try discriminate; try congruence; tauto).
  destruct (url_Parse endpoint) as [u|e] eqn:Hp; simpl.
  - repeat split; intros; try congruence; try (exfalso; auto; fail).
    + destruct H0 as [?|[?|[?|[e He']]]]; congruence.
    + replace u0 with u by congruence. reflexivity.
  - repeat split; intros; try congruence; eauto 6.
Qed.

(** C6 at work on the platform of the tests: an empty secret gives the
    error and no client, three non-empty arguments give the client. *)
Lemma NewClient_error_iff_witness :
  @NewClient (httptest (inr EOF)) "key" "" "https://app.coinspaid.com/api/v2/"
  = (None, Some (LibError (ErrorString
       "apiKey, apiSecret and baseEndpoint are required to create a Client")))
  /\ @NewClient (httptest (inr EOF)) "key" "secret" "https://app.coinspaid.com/api/v2/"
     = (Some (@Build_Client (httptest (inr EOF)) "key" "secret"
                "https://app.coinspaid.com/api/v2/" {| Timeout := 10 * Second |}), None).
Proof.
  split; [reflexivity|].
  apply (proj2 (proj2 (@NewClient_error_iff (httptest (inr EOF)) "key" "secret"
                         "https://app.coinspaid.com/api/v2/")));
    try discriminate; reflexivity.
Defined.

(** ** The client is not written to *)

Section Frame.
Context `{Platform}.

Lemma keeps_self_ret {A} (a : A) : keeps_self (ret a).
Proof. intros st; reflexivity. Qed.

Lemma keeps_self_bind {A B} (m : M A) (k : A -> M B) :
  keeps_self m -> (forall a, keeps_self (k a)) -> keeps_self (bind m k).
Proof.
  intros Hm Hk st. unfold bind.
  specialize (Hm st). destruct (m st) as [[a|] st']; simpl in *.
  - rewrite Hk. exact Hm.
  - exact Hm.
Qed.

Lemma keeps_self_get_self : keeps_self get_self.
Proof. intros st; reflexivity. Qed.

Lemma keeps_self_modelled {A} (o : option A) : keeps_self (modelled o).
Proof. intros st; reflexivity. Qed.

Lemma keeps_self_Do (c : HTTPClient) (req : Request) : keeps_self (Do c req).
Proof. intros st; reflexivity. Qed.

Lemma keeps_self_doRequest {T} `{Unmarshaler T} (req : Request) (v : T) :
  keeps_self (doRequest req v).
Proof.
  unfold doRequest.
  apply keeps_self_bind; [apply keeps_self_Do|].
  intros [res|err]; [|apply keeps_self_ret].
  apply keeps_self_bind; [apply keeps_self_modelled|].
  intros [res' [e|]]; [apply keeps_self_ret|].
  destruct (Decoder_Decode (Body res') v); apply keeps_self_ret.
Qed.

End Frame.

(** C8. Neither operation writes to the client: whatever the platform, the
    input, the state before the call and the answer of the server, the
    client after TakeAddress or WithdrawCrypto (key, secret, base URL and
    HTTP client) is the client before it. *)
Theorem operations_keep_client `{Platform}
    (takeInput : TakeAddressInput.t) (withdrawInput : WithdrawCryptoInput.t float64)
    (st : State) :
  self (snd (TakeAddress takeInput st)) = self st
  /\ self (snd (WithdrawCrypto withdrawInput st)) = self st.
Proof.
  split.
  - revert st. change (keeps_self (TakeAddress takeInput)). unfold TakeAddress.
    apply keeps_self_bind; [apply keeps_self_get_self|]. intros client.
    destruct (json_Marshal_TakeAddressInput takeInput); [|apply keeps_self_ret].
    destruct (http_NewRequest _ _ _); [|apply keeps_self_ret].
    simpl. apply keeps_self_bind; [apply keeps_self_doRequest|].
    intros [[a rsp] [e|]]; apply keeps_self_ret.
  - revert st. change (keeps_self (WithdrawCrypto withdrawInput)). unfold WithdrawCrypto.
    apply keeps_self_bind; [apply keeps_self_get_self|]. intros client.
    destruct (json_Marshal_WithdrawCryptoInput withdrawInput); [|apply keeps_self_ret].
    destruct (http_NewRequest _ _ _); [|apply keeps_self_ret].
    simpl. apply keeps_self_bind; [apply keeps_self_doRequest|].
    intros [[a rsp] [e|]]; apply keeps_self_ret.
Qed.

(** ** What an operation does with the answer of the server *)

Section Runs.
Context `{Platform}.

Lemma doRequest_run {T} `{Unmarshaler T} (req : Request) (v : T) (st : State) :
  snd (doRequest req v st) = {| self := self st; wire := req :: wire st |}
  /\ match fst (doRequest req v st) with
     | Some (v', _, None) => outcome v (http_Do {| Timeout := Second * 10 |} (wire st) req)
                             = Some (Some v', None)
     | Some (_, _, Some e) => outcome v (http_Do {| Timeout := Second * 10 |} (wire st) req)
                              = Some (None, Some e)
     | None => outcome v (http_Do {| Timeout := Second * 10 |} (wire st) req) = None
     end.
Proof.
  unfold doRequest, bind, Do, modelled, ret, outcome; simpl.
  destruct (http_Do _ (wire st) req) as [res|err]; simpl; [|split; reflexivity].
  destruct (checkResponse res) as [[res' [e|]]|]; simpl; try (split; reflexivity).
  destruct (Decoder_Decode (Body res') v) as [v' [e|]]; simpl; split; reflexivity.
Qed.

Lemma TakeAddress_run (input : TakeAddressInput.t) (st : State) (j : string) :
  json_Marshal_TakeAddressInput input = inl j ->
  http_NewRequest_error "POST"
    (url_String (url_ResolveReference (BaseURL (self st)) "addresses/take")) = None ->
  let req := request_of (self st) "addresses/take" j in
  TakeAddress input st
  = (outcome Address.zero (http_Do {| Timeout := Second * 10 |} (wire st) req),
     {| self := self st; wire := req :: wire st |}).
Proof.
  intros Hj Hreq req. unfold TakeAddress, bind at 1, get_self.
  rewrite Hj. unfold http_NewRequest. rewrite Hreq.
  cbn [createSignedRequestHeader]. unfold bind.
  match goal with |- context [doRequest ?r Address.zero st] => change r with req end.
  pose proof (doRequest_run req Address.zero st) as [Hst Hres].
  destruct (doRequest req Address.zero st) as [[[[a rsp] [e|]]|] st']; simpl in *;
    subst st'; rewrite Hres; reflexivity.
Qed.

Lemma WithdrawCrypto_run (input : WithdrawCryptoInput.t float64) (st : State) (j : string) :
  json_Marshal_WithdrawCryptoInput input = inl j ->
  http_NewRequest_error "POST"
    (url_String (url_ResolveReference (BaseURL (self st)) "withdrawal/crypto")) = None ->
  let req := request_of (self st) "withdrawal/crypto" j in
  WithdrawCrypto input st
  = (outcome WithdrawCryptoPayload.zero (http_Do {| Timeout := Second * 10 |} (wire st) req),
     {| self := self st; wire := req :: wire st |}).
Proof.
  intros Hj Hreq req. unfold WithdrawCrypto, bind at 1, get_self.
  rewrite Hj. unfold http_NewRequest. rewrite Hreq.
  cbn [createSignedRequestHeader]. unfold bind.
  match goal with |- context [doRequest ?r WithdrawCryptoPayload.zero st] => change r with req end.
  pose proof (doRequest_run req WithdrawCryptoPayload.zero st) as [Hst Hres].
  destruct (doRequest req WithdrawCryptoPayload.zero st) as [[[[a rsp] [e|]]|] st']; simpl in *;
    subst st'; rewrite Hres; reflexivity.
Qed.

End Runs.

(** ** The decoder on the API error structs *)

Lemma store_string_spec (v : Json.value) (cur : string) :
  Json.store_string v cur
  = (match v with Json.Str raw => Json.unquote raw | _ => cur end,
     if no_string v then Json.mismatch v "string" else None).
Proof. destruct v; reflexivity. Qed.

Lemma saveError_is_Some (saved e : option lib_error) :
  is_Some (Json.saveError saved e) <-> is_Some saved \/ is_Some e.
Proof.
  destruct saved, e; simpl; split; intros Hs; eauto;
    destruct Hs as [Hs|Hs]; eauto; destruct Hs; discriminate.
Qed.

Ltac saved_cases :=
  split; intros Hs;
  repeat match goal with
         | Hs : _ \/ _ |- _ => destruct Hs as [Hs|Hs]
         | Hs : is_Some None |- _ => destruct Hs; discriminate
         end;
  auto; try (left; right; eexists; reflexivity).

Lemma ErrorResponse_members_plain (ms : list Json.member) :
  forall (er : ErrorResponse.t) (r : Response) (saved : option lib_error),
  existsb (names "RESPONSE") ms = false ->
  exists e,
    fold_left ErrorResponse_member ms (Some (er, r, saved))
    = Some (ErrorResponse.Make (ErrorResponse.Response er)
              (last_string "ERROR" ms (ErrorResponse.Message er))
              (last_string "CODE" ms (ErrorResponse.Code er)), r, e)
    /\ (is_Some e <-> is_Some saved \/ existsb misfit ms = true).
Proof.
  induction ms as [|m ms IH]; intros er r saved Hno; simpl in *.
  - exists saved. destruct er; split; [reflexivity|].
    split; [auto | intros [Hs|Hs]; [exact Hs | discriminate]].
  - apply orb_false_iff in Hno as [Hm Hms].
    unfold ErrorResponse_field, misfit. unfold names in Hm |- *. rewrite Hm.
    destruct (String.eqb (Json.field_of m) "ERROR") eqn:Herr.
    + assert (String.eqb (Json.field_of m) "CODE" = false) as Hcode.
      { apply String.eqb_eq in Herr. rewrite Herr. reflexivity. }
      rewrite Hcode, store_string_spec; simpl.
      destruct (IH (ErrorResponse.Make (ErrorResponse.Response er)
                      (match snd m with Json.Str raw => Json.unquote raw
                                   | _ => ErrorResponse.Message er end)
                      (ErrorResponse.Code er)) r
                   (Json.saveError saved
                      (if no_string (snd m) then Json.mismatch (snd m) "string" else None))
                   Hms) as [e [Hfold He]].
      exists e. split; [exact Hfold|].
      rewrite He, saveError_is_Some.
      destruct (no_string (snd m)); simpl; saved_cases.
    + destruct (String.eqb (Json.field_of m) "CODE") eqn:Hcode.
      * rewrite store_string_spec; simpl.
        destruct (IH (ErrorResponse.Make (ErrorResponse.Response er)
                        (ErrorResponse.Message er)
                        (match snd m with Json.Str raw => Json.unquote raw
                                     | _ => ErrorResponse.Code er end)) r
                     (Json.saveError saved
                        (if no_string (snd m) then Json.mismatch (snd m) "string" else None))
                     Hms) as [e [Hfold He]].
        exists e. split; [exact Hfold|].
        rewrite He, saveError_is_Some.
        destruct (no_string (snd m)); simpl; saved_cases.
      * simpl.
        destruct (IH er r (Json.saveError saved None) Hms) as [e [Hfold He]].
        exists e. split; [exact Hfold|].
        rewrite He, saveError_is_Some. saved_cases.
Qed.

Lemma ValidationErrorResponse_members_plain (ms : list Json.member) :
  forall (ve : ValidationErrorResponse.t) (r : Response) (saved : option lib_error),
  existsb (names "RESPONSE") ms = false ->
  exists e,
    fold_left ValidationErrorResponse_member ms (Some (ve, r, saved))
    = Some (ValidationErrorResponse.Make (ValidationErrorResponse.Response ve)
              (errors_of ms (ValidationErrorResponse.Errors ve)), r, e).
Proof.
  induction ms as [|m ms IH]; intros ve r saved Hno; simpl in *.
  - exists saved. destruct ve; reflexivity.
  - apply orb_false_iff in Hno as [Hm Hms].
    unfold ValidationErrorResponse_field. unfold names in Hm |- *. rewrite Hm.
    destruct (String.eqb (Json.field_of m) "ERRORS") eqn:Herr.
    + destruct (Json.store_map (snd m) (ValidationErrorResponse.Errors ve)) as [mp e'] eqn:Hmap.
      simpl.
      destruct (IH (ValidationErrorResponse.Make (ValidationErrorResponse.Response ve) mp)
                   r (Json.saveError saved e') Hms) as [e Hfold].
      exists e. exact Hfold.
    + simpl. destruct (IH ve r (Json.saveError saved None) Hms) as [e Hfold].
      exists e. exact Hfold.
Qed.

Lemma store_entries_spec (kvs : list Json.member) :
  forall acc : gmap string string * option lib_error,
  fst (fold_left Json.store_entry kvs acc)
  = fold_right (fun p => <[ p.1 := p.2 ]>) (fst acc) (rev (map entry kvs)).
Proof.
  induction kvs as [|kv kvs IH]; intros acc; simpl; [reflexivity|].
  rewrite IH, fold_right_app. simpl.
  unfold Json.store_entry, entry.
  destruct (Json.store_string (snd kv) ""); reflexivity.
Qed.

(** An errors object on a nil map gives the map of its entries, a later
    entry replacing an earlier one of the same name. *)
Lemma store_map_object (kvs : list Json.member) :
  fst (Json.store_map (Json.Object kvs) None) = Some (list_to_map (rev (map entry kvs))).
Proof.
  unfold Json.store_map.
  pose proof (store_entries_spec kvs (default ∅ None, None)) as Hfold.
  destruct (fold_left Json.store_entry kvs (default ∅ None, None)) as [m e].
  simpl in *. rewrite Hfold. reflexivity.
Qed.

Lemma errors_of_skip (ms : list Json.member) (cur : option (gmap string string)) :
  existsb (names "ERRORS") ms = false -> errors_of ms cur = cur.
Proof.
  revert cur; induction ms as [|m ms IH]; intros cur Hno; simpl in *; [reflexivity|].
  apply orb_false_iff in Hno as [Hm Hms].
  unfold errors_of in *; simpl. rewrite Hm. apply IH, Hms.
Qed.

(** One member named errors, holding an object: the field Errors gets the
    map of its entries. *)
Lemma errors_of_envelope (pre post kvs : list Json.member) (k raw : string) :
  names "ERRORS" (k, raw, Json.Object kvs) = true ->
  existsb (names "ERRORS") (pre ++ post) = false ->
  errors_of (pre ++ (k, raw, Json.Object kvs) :: post) None
  = Some (list_to_map (rev (map entry kvs))).
Proof.
  intros Hk Hno. rewrite existsb_app in Hno. apply orb_false_iff in Hno as [Hpre Hpost].
  unfold errors_of. rewrite fold_left_app.
  fold (errors_of pre None). rewrite (errors_of_skip pre None Hpre).
  cbn [fold_left]. rewrite Hk.
  fold (errors_of post (fst (Json.store_map (snd (k, raw, Json.Object kvs)) None))).
  rewrite errors_of_skip by exact Hpost.
  apply store_map_object.
Qed.

Lemma Unmarshal_ErrorResponse_plain (body : string) (r : Response) :
  names_Response body = false ->
  exists e,
    Unmarshal_ErrorResponse body (ErrorResponse.Make RefShared "" "") r
    = Some (ErrorResponse.Make RefShared (decoded_error body).1.1 (decoded_error body).1.2,
            r, e)
    /\ (is_Some e <-> (decoded_error body).2 = true).
Proof.
  unfold names_Response, Unmarshal_ErrorResponse, decoded_error.
  destruct (Json.checkValid body) as [[raw v]|e]; intros Hno.
  - destruct v; try (eexists; split; [reflexivity|]; simpl; split; intros Hs;
                     [reflexivity | eexists; reflexivity]).
    + exists None. split; [reflexivity|]. simpl. split; intros Hs; [destruct Hs|]; discriminate.
    + unfold ErrorResponse_members.
      destruct (ErrorResponse_members_plain ms (ErrorResponse.Make RefShared "" "") r None Hno)
        as [e [Hfold He]].
      exists e. split; [exact Hfold|]. simpl. rewrite He.
      split; [intros [Hs|Hs]; [destruct Hs; discriminate | exact Hs] | auto].
  - eexists; split; [reflexivity|]. simpl. split; intros Hs; [reflexivity | eexists; reflexivity].
Qed.

Lemma Unmarshal_ValidationErrorResponse_plain (body : string) (r : Response) :
  names_Response body = false ->
  exists e,
    Unmarshal_ValidationErrorResponse body (ValidationErrorResponse.Make RefShared None) r
    = Some (ValidationErrorResponse.Make RefShared (decoded_errors body), r, e).
Proof.
  unfold names_Response, Unmarshal_ValidationErrorResponse, decoded_errors.
  destruct (Json.checkValid body) as [[raw v]|e]; intros Hno.
  - destruct v; try (eexists; reflexivity).
    unfold ValidationErrorResponse_members.
    destruct (ValidationErrorResponse_members_plain ms
                (ValidationErrorResponse.Make RefShared None) r None Hno) as [e Hfold].
    exists e. exact Hfold.
  - eexists; reflexivity.
Qed.

Lemma checkResponse_plain (r : Response) :
  (200 <=? StatusCode r) && (StatusCode r <=? 299) = false ->
  rc_err (Body r) = None ->
  names_Response (rc_data (Body r)) = false ->
  checkResponse r = Some (after_read r, Some (classified r)).
Proof.
  intros Hc Hread Hno. unfold checkResponse, classified, ReadAll.
  rewrite Hc, Hread. fold (after_read r).
  destruct (Unmarshal_ErrorResponse_plain (rc_data (Body r)) (after_read r) Hno)
    as [e1 [Hu1 He1]].
  destruct (Unmarshal_ValidationErrorResponse_plain (rc_data (Body r)) (after_read r) Hno)
    as [e2 Hu2].
  destruct (decoded_error (rc_data (Body r))) as [[msg code] failed] eqn:Hdec.
  simpl in Hu1, He1.
  destruct (0 <? String.length (rc_data (Body r)))%nat eqn:Hlen.
  - rewrite Hu1. simpl.
    destruct e1 as [e1|]; simpl.
    + assert (failed = true) as -> by (apply He1; eexists; reflexivity).
      destruct (StatusCode r =? StatusBadRequest); [rewrite Hu2|]; reflexivity.
    + assert (failed = false) as ->.
      { destruct failed; [|reflexivity]. destruct He1 as [_ He1].
        destruct (He1 eq_refl); discriminate. }
      destruct (StatusCode r =? StatusBadRequest); [rewrite Hu2|]; reflexivity.
  - assert (rc_data (Body r) = "") as Hempty.
    { destruct (rc_data (Body r)); [reflexivity | discriminate Hlen]. }
    simpl. rewrite Hempty in *. vm_compute in Hdec. injection Hdec as <- <- <-.
    destruct (StatusCode r =? StatusBadRequest); [rewrite Hu2|]; reflexivity.
Qed.

(** ** The operations on a classified or an undecodable answer *)

Section Served.
Context `{Platform}.

Lemma TakeAddress_served (input : TakeAddressInput.t) (j : string) (st : State) (r : Response) :
  json_Marshal_TakeAddressInput input = inl j ->
  served st "addresses/take" j r ->
  fst (TakeAddress input st) = outcome Address.zero (inl r).
Proof.
  intros Hj [Hreq Hdo]. rewrite (TakeAddress_run input st j Hj Hreq). simpl.
  rewrite Hdo. reflexivity.
Qed.

Lemma WithdrawCrypto_served (input : WithdrawCryptoInput.t float64) (j : string)
    (st : State) (r : Response) :
  json_Marshal_WithdrawCryptoInput input = inl j ->
  served st "withdrawal/crypto" j r ->
  fst (WithdrawCrypto input st) = outcome WithdrawCryptoPayload.zero (inl r).
Proof.
  intros Hj [Hreq Hdo]. rewrite (WithdrawCrypto_run input st j Hj Hreq). simpl.
  rewrite Hdo. reflexivity.
Qed.

Lemma classifier_error_returned (st : State) (r r' : Response) (e : error) :
  checkResponse r = Some (r', Some e) -> operations_return st r e.
Proof.
  intros Hc. split; intros input j Hj Hs.
  - rewrite (TakeAddress_served input j st r Hj Hs). simpl. rewrite Hc. reflexivity.
  - rewrite (WithdrawCrypto_served input j st r Hj Hs). simpl. rewrite Hc. reflexivity.
Qed.

End Served.

Lemma not_success_false (c : Z) :
  ~ (200 <= c <= 299) -> (200 <=? c) && (c <=? 299) = false.
Proof.
  intros Hc. destruct (Z.leb_spec 200 c), (Z.leb_spec c 299); simpl; try reflexivity. lia.
Qed.

Lemma success_true (c : Z) : 200 <= c <= 299 -> (200 <=? c) && (c <=? 299) = true.
Proof. intros Hc. apply andb_true_iff; split; apply Z.leb_le; lia. Qed.

Lemma checkResponse_success (r : Response) :
  200 <= StatusCode r <= 299 -> checkResponse r = Some (r, None).
Proof. intros Hc. unfold checkResponse. rewrite (success_true _ Hc). reflexivity. Qed.

(** ** The request on the wire *)

(** The request carries the serialized input as its body, the key of the
    client, and the signature of exactly that body. *)
Lemma request_of_signed `{Platform} (client : Client) (path j : string) :
  RequestBody (request_of client path j) = j
  /\ Method (request_of client path j) = "POST"
  /\ Header (request_of client path j) !! "X-Processing-Key" = Some [apiKey client]
  /\ Header (request_of client path j) !! "X-Processing-Signature"
     = Some [fst (createSignedRequestHeader client j)].
Proof.
  unfold request_of, Header_Set; cbn [RequestBody Method Header].
  repeat split; try (rewrite lookup_insert_ne by discriminate); apply lookup_insert_eq.
Qed.

(** An operation whose input is serialized and whose request is well formed
    puts that one request on the wire. *)
Lemma TakeAddress_sends_one `{Platform} (input : TakeAddressInput.t) (st : State) (j : string) :
  json_Marshal_TakeAddressInput input = inl j ->
  http_NewRequest_error "POST"
    (url_String (url_ResolveReference (BaseURL (self st)) "addresses/take")) = None ->
  wire (snd (TakeAddress input st)) = request_of (self st) "addresses/take" j :: wire st.
Proof. intros Hj Hreq. rewrite (TakeAddress_run input st j Hj Hreq). reflexivity. Qed.

(** ** Successful answers *)

(** The test of the package (TestTakeAddress): the address of the answer,
    and no error. *)
Example TakeAddress_test_answer :
  let reply := inl (respond 200 okResponse) in
  fst (@TakeAddress (httptest reply) takeAddressInput (test_state reply))
  = Some (Some (Address.Make 1 "EUR" "EUR" "12983h13ro1hrt24it432t" "tag-123" "user-id:2048"),
          None).
Proof. vm_compute. reflexivity. Qed.



Lemma httptest_served (r : Response) (path j : string) :
  @served (httptest (inl r)) (test_state (inl r)) path j r.
Proof. split; reflexivity. Qed.


(** ** Answers outside 200-299 *)

(** C2, as stated, fails.  The body of this 403 answer does not parse as
    the envelope (the member error holds a number, and json.Unmarshal
    reports it), and the message of the error is the text of the body; but
    its code is not empty: the member code was stored before Unmarshal
    returned. *)
Lemma misfit_keeps_code :
  let body := dq "{'error':5,'code':'x'}" in
  (exists er r e, Unmarshal_ErrorResponse body (ErrorResponse.Make RefShared "" "")
                    (after_read (respond 403 body)) = Some (er, r, Some e))
  /\ checkResponse (respond 403 body)
     = Some (after_read (respond 403 body),
             Some (ErrorResponseOf (ErrorResponse.Make RefShared body "x"))).
Proof.
  split.
  - vm_compute. do 3 eexists. reflexivity.
  - vm_compute. reflexivity.
Qed.

(** C2, amended.  For an answer whose status is neither in 200-299 nor 400,
    whose body is read in full and names no member Response, checkResponse
    returns an ErrorResponse, and so do both operations.  Its message and
    code are those of the members error and code of the body.  When
    json.Unmarshal reports an error the message is the text of the body
    instead: when the body is empty or no valid JSON (the code is then
    empty), and when it is an object in which error or code holds something
    else than a string or null (the code is then what the members code
    left).  A 403 answer with the body of the package's test gives the
    message "Bad key header" and the code "bad_header_key", from
    checkResponse and from TakeAddress. *)
Theorem generic_error_from_envelope :
  (forall (P : Platform) (st : @State P) (r : Response),
     let body := rc_data (Body r) in
     let er := ErrorResponse.Make RefShared
                 (if (decoded_error body).2 then body else (decoded_error body).1.1)
                 (decoded_error body).1.2 in
     ~ (200 <= StatusCode r <= 299) ->
     StatusCode r <> 400 ->
     rc_err (Body r) = None ->
     names_Response body = false ->
     checkResponse r = Some (after_read r, Some (ErrorResponseOf er))
     /\ operations_return st r (ErrorResponseOf er)
     /\ (body = "" \/ (exists e, Json.checkValid body = inr e) ->
         ErrorResponse.Message er = body /\ ErrorResponse.Code er = "")
     /\ (forall raw ms, Json.checkValid body = inl (raw, Json.Object ms) ->
           ErrorResponse.Code er = last_string "CODE" ms ""
           /\ ErrorResponse.Message er
              = if existsb misfit ms then body else last_string "ERROR" ms ""))
  /\ checkResponse (respond 403 invalidAuthResponse)
     = Some (after_read (respond 403 invalidAuthResponse),
             Some (ErrorResponseOf
                     (ErrorResponse.Make RefShared "Bad key header" "bad_header_key")))
  /\ (let reply := inl (respond 403 invalidAuthResponse) in
      fst (@TakeAddress (httptest reply) takeAddressInput (test_state reply))
      = Some (None, Some (ErrorResponseOf
                            (ErrorResponse.Make RefShared "Bad key header" "bad_header_key")))).
Proof.
  split; [|split; vm_compute; reflexivity].
  intros P st r body er Hc H400 Hread Hno.
  assert (checkResponse r = Some (after_read r, Some (ErrorResponseOf er))) as Hcheck.
  { rewrite (checkResponse_plain r (not_success_false _ Hc) Hread Hno).
    unfold classified. fold body.
    destruct (Z.eqb_spec (StatusCode r) StatusBadRequest) as [Heq|_]; [contradiction|].
    subst er. destruct (decoded_error body) as [[msg code] failed]. reflexivity. }
  split; [exact Hcheck|].
  split; [exact (classifier_error_returned st r _ _ Hcheck)|].
  split.
  - intros Hbad.
    assert (exists e, Json.checkValid body = inr e) as [e He].
    { destruct Hbad as [Hempty|Hbad]; [|exact Hbad].
      rewrite Hempty. vm_compute. eexists; reflexivity. }
    subst er. unfold decoded_error. rewrite He. simpl. split; reflexivity.
  - intros raw ms Hv. subst er. unfold decoded_error. rewrite Hv. simpl.
    split; [reflexivity|]. destruct (existsb misfit ms); reflexivity.
Qed.

(** The amended C2 at work: answers of the test server with status 500, one
    with an HTML page for a body and one with an empty body.  TakeAddress
    returns an ErrorResponse with the text of the body for a message and an
    empty code. *)
Lemma generic_error_from_envelope_witness :
  let r := respond 500 "<html>Internal Server Error</html>" in
  let r0 := respond 500 "" in
  (~ (200 <= StatusCode r <= 299) /\ StatusCode r <> 400
   /\ rc_err (Body r) = None /\ names_Response (rc_data (Body r)) = false)
  /\ fst (@TakeAddress (httptest (inl r)) takeAddressInput (test_state (inl r)))
     = Some (None, Some (ErrorResponseOf
                           (ErrorResponse.Make RefShared
                              "<html>Internal Server Error</html>" "")))
  /\ fst (@TakeAddress (httptest (inl r0)) takeAddressInput (test_state (inl r0)))
     = Some (None, Some (ErrorResponseOf (ErrorResponse.Make RefShared "" ""))).
Proof.
  intros r r0.
  assert (forall c : Z, c = 500 -> ~ (200 <= c <= 299)) as H500 by (intros c ->; lia).
  split; [repeat split; [apply H500; reflexivity | discriminate]|].
  split.
  - refine (proj1 (proj1 (proj2 (proj1 generic_error_from_envelope (httptest (inl r))
                                   (test_state (inl r)) r _ _ _ _)))
              takeAddressInput _ eq_refl (httptest_served r _ _)).
    + apply H500; reflexivity.
    + discriminate.
    + reflexivity.
    + vm_compute; reflexivity.
  - refine (proj1 (proj1 (proj2 (proj1 generic_error_from_envelope (httptest (inl r0))
                                   (test_state (inl r0)) r0 _ _ _ _)))
              takeAddressInput _ eq_refl (httptest_served r0 _ _)).
    + apply H500; reflexivity.
    + discriminate.
    + reflexivity.
    + vm_compute; reflexivity.
Defined.

(** C3, as stated, fails on two answers with status 400, each of which gets
    an ErrorResponse and not a validation error.  The first body breaks off
    while it is read: checkResponse returns the ErrorResponse it has made
    so far.  The second body has a member Response; it is decoded into the
    response that the ErrorResponse points to, which is the response under
    classification, and sets its status to 403 before the status is
    compared with 400. *)
Lemma bad_request_without_validation_error :
  let broken := {| StatusCode := 400;
                   Body := {| rc_data := dq "{'errors':{'foreign_id':'The fo";
                              rc_err := Some ErrUnexpectedEOF |} |} in
  let body := dq "{'Response':{'StatusCode':403},'errors':{'foreign_id':'required'}}" in
  checkResponse broken
  = Some (after_read broken, Some (ErrorResponseOf (ErrorResponse.Make RefShared "" "")))
  /\ checkResponse (respond 400 body)
     = Some ({| StatusCode := 403; Body := drained (Body (respond 400 body)) |},
             Some (ErrorResponseOf (ErrorResponse.Make RefShared "" ""))).
Proof. split; vm_compute; reflexivity. Qed.

(** C3, amended.  For an answer with status 400 whose body is read in full
    and names no member Response, checkResponse returns a
    ValidationErrorResponse, and so do both operations.  Its mapping is the
    one decoded from the body: when the body is an object with one member
    errors that holds an object, the mapping has an entry for every member
    of that object, the last one of a name winning.  For the body of the
    package's test the mapping has the key foreign_id, from checkResponse
    and from TakeAddress. *)
Theorem validation_error_from_envelope :
  (forall (P : Platform) (st : @State P) (r : Response),
     let body := rc_data (Body r) in
     let ve := ValidationErrorResponse.Make RefShared (decoded_errors body) in
     StatusCode r = 400 ->
     rc_err (Body r) = None ->
     names_Response body = false ->
     checkResponse r = Some (after_read r, Some (ValidationErrorResponseOf ve))
     /\ operations_return st r (ValidationErrorResponseOf ve)
     /\ (forall raw pre k rawv kvs post,
           Json.checkValid body
           = inl (raw, Json.Object (pre ++ (k, rawv, Json.Object kvs) :: post)) ->
           names "ERRORS" (k, rawv, Json.Object kvs) = true ->
           existsb (names "ERRORS") (pre ++ post) = false ->
           ValidationErrorResponse.Errors ve = Some (list_to_map (rev (map entry kvs)))))
  /\ (exists errors : gmap string string,
        checkResponse (respond 400 badRequestResponse)
        = Some (after_read (respond 400 badRequestResponse),
                Some (ValidationErrorResponseOf
                        (ValidationErrorResponse.Make RefShared (Some errors))))
        /\ fst (@TakeAddress (httptest (inl (respond 400 badRequestResponse)))
                  (TakeAddressInput.Make "" "INEXISTENT")
                  (test_state (inl (respond 400 badRequestResponse))))
           = Some (None, Some (ValidationErrorResponseOf
                                 (ValidationErrorResponse.Make RefShared (Some errors))))
        /\ errors !! "foreign_id" = Some "The foreign id field is required.").
Proof.
  split.
  - intros P st r body ve H400 Hread Hno.
    assert (checkResponse r = Some (after_read r, Some (ValidationErrorResponseOf ve)))
      as Hcheck.
    { rewrite (checkResponse_plain r) by
        (try apply not_success_false; try assumption; rewrite H400; lia).
      unfold classified. rewrite H400. reflexivity. }
    split; [exact Hcheck|].
    split; [exact (classifier_error_returned st r _ _ Hcheck)|].
    intros raw pre k rawv kvs post Hv Hk Hothers.
    subst ve. simpl. unfold decoded_errors. rewrite Hv.
    apply errors_of_envelope; assumption.
  - eexists. split; [vm_compute; reflexivity|].
    split; vm_compute; reflexivity.
Qed.

(** The amended C3 at work: the test server answers with status 400 and the
    body of the package's test.  TakeAddress returns a validation error
    whose mapping is the single entry of the body. *)
Lemma validation_error_from_envelope_witness :
  let r := respond 400 badRequestResponse in
  (StatusCode r = 400 /\ rc_err (Body r) = None /\ names_Response (rc_data (Body r)) = false)
  /\ fst (@TakeAddress (httptest (inl r)) takeAddressInput (test_state (inl r)))
     = Some (None,
             Some (ValidationErrorResponseOf
                     (ValidationErrorResponse.Make RefShared
                        (Some (list_to_map
                                 [("foreign_id", "The foreign id field is required.")]))))).
Proof.
  intros r. split; [repeat split; vm_compute; reflexivity|].
  refine (eq_trans
            (proj1 (proj1 (proj2 (proj1 validation_error_from_envelope (httptest (inl r))
                                    (test_state (inl r)) r _ _ _)))
               takeAddressInput _ eq_refl (httptest_served r _ _)) _).
  - reflexivity.
  - reflexivity.
  - vm_compute; reflexivity.
  - vm_compute; reflexivity.
Defined.

(** C9, as stated, fails.  On this 400 answer json.Unmarshal reports an
    error (the member b of the errors object holds a number) and the error
    is ignored, but the mapping is not left empty: it has the entry of a,
    and an entry with the empty string for b. *)
Lemma failed_unmarshal_keeps_entries :
  let body := dq "{'errors':{'a':'x','b':5}}" in
  (exists ve r e,
     Unmarshal_ValidationErrorResponse body (ValidationErrorResponse.Make RefShared None)
       (after_read (respond 400 body)) = Some (ve, r, Some e))
  /\ exists errors : gmap string string,
       checkResponse (respond 400 body)
       = Some (after_read (respond 400 body),
               Some (ValidationErrorResponseOf
                       (ValidationErrorResponse.Make RefShared (Some errors))))
       /\ errors !! "a" = Some "x" /\ errors !! "b" = Some "".
Proof.
  split.
  - vm_compute. do 3 eexists. reflexivity.
  - eexists. split; [vm_compute; reflexivity|]. split; vm_compute; reflexivity.
Qed.

(** C9, amended.  For an answer with status 400 whose body is read in full
    and names no member Response, checkResponse returns a
    ValidationErrorResponse whatever the body is and whatever json.Unmarshal
    says of it, and never the ErrorResponse with the text of the body.  The
    mapping is nil when the body is empty, is no valid JSON or is no JSON
    object; otherwise it is what the members errors of the body left in it,
    also when json.Unmarshal reports an error. *)
Theorem bad_request_always_validation_error (r : Response) :
  let body := rc_data (Body r) in
  let ve := ValidationErrorResponse.Make RefShared (decoded_errors body) in
  StatusCode r = 400 ->
  rc_err (Body r) = None ->
  names_Response body = false ->
  checkResponse r = Some (after_read r, Some (ValidationErrorResponseOf ve))
  /\ (forall r' er, checkResponse r <> Some (r', Some (ErrorResponseOf er)))
  /\ (body = "" \/ (exists e, Json.checkValid body = inr e) ->
      ValidationErrorResponse.Errors ve = None)
  /\ (forall raw v, Json.checkValid body = inl (raw, v) ->
        ValidationErrorResponse.Errors ve
        = match v with Json.Object ms => errors_of ms None | _ => None end).
Proof.
  intros body ve H400 Hread Hno.
  assert (checkResponse r = Some (after_read r, Some (ValidationErrorResponseOf ve)))
    as Hcheck.
  { rewrite (checkResponse_plain r) by
      (try apply not_success_false; try assumption; rewrite H400; lia).
    unfold classified. rewrite H400. reflexivity. }
  split; [exact Hcheck|].
  split; [intros r' er; rewrite Hcheck; discriminate|].
  split.
  - intros Hbad.
    assert (exists e, Json.checkValid body = inr e) as [e He].
    { destruct Hbad as [Hempty|Hbad]; [|exact Hbad].
      rewrite Hempty. vm_compute. eexists; reflexivity. }
    subst ve. simpl. unfold decoded_errors. rewrite He. reflexivity.
  - intros raw v Hv. subst ve. simpl. unfold decoded_errors. rewrite Hv.
    destruct v; reflexivity.
Qed.

(** The amended C9 at work: an answer with status 400 and an HTML page for
    a body.  checkResponse returns a validation error with a nil mapping. *)
Lemma bad_request_always_validation_error_witness :
  let r := respond 400 "<html>Bad Request</html>" in
  (StatusCode r = 400 /\ rc_err (Body r) = None /\ names_Response (rc_data (Body r)) = false)
  /\ checkResponse r
     = Some (after_read r,
             Some (ValidationErrorResponseOf (ValidationErrorResponse.Make RefShared None))).
Proof.
  intros r. split; [repeat split; vm_compute; reflexivity|].
  refine (proj1 (bad_request_always_validation_error r eq_refl eq_refl _)).
  vm_compute; reflexivity.
Defined.

(** ** The identifier of a withdrawal *)

(** C10. ID.UnmarshalJSON never fails and takes the bytes it is given as
    they are: the number 1 becomes the text of one character, the string
    abc the text of five characters, quotes included; and so they do in the
    field ID of a decoded withdrawal. *)
Theorem ID_UnmarshalJSON_verbatim (data : string) (id : ID) :
  ID_UnmarshalJSON data id = (data, None)
  /\ (fst (ID_UnmarshalJSON "1" id) = "1" /\ String.length (fst (ID_UnmarshalJSON "1" id)) = 1%nat)
  /\ (fst (ID_UnmarshalJSON (dq "'abc'") id) = dq "'abc'"
      /\ String.length (fst (ID_UnmarshalJSON (dq "'abc'") id)) = 5%nat)
  /\ WithdrawCryptoPayload.ID
       (fst (WithdrawCryptoPayload_UnmarshalJSON (dq "{'data':{'id': 1 }}")
               WithdrawCryptoPayload.zero)) = "1"
  /\ WithdrawCryptoPayload.ID
       (fst (WithdrawCryptoPayload_UnmarshalJSON (dq "{'data':{'id': 'abc' }}")
               WithdrawCryptoPayload.zero)) = dq "'abc'".
Proof. repeat split; vm_compute; reflexivity. Qed.

(** C7. When the server answers a withdrawal with a status in 200-299 and
    the body of the package's test (foreign_id "user-id:2048", id 1),
    WithdrawCrypto returns, without an error, a payload whose ForeignID is
    "user-id:2048" and whose ID is the text 1, which reads as the number
    1. *)
Theorem WithdrawCrypto_decodes_test_answer `{Platform}
    (st : State) (input : WithdrawCryptoInput.t float64) (j : string) (status : Z) :
  200 <= status <= 299 ->
  json_Marshal_WithdrawCryptoInput input = inl j ->
  served st "withdrawal/crypto" j (respond status withdrawCryptoOkResponse) ->
  exists p,
    fst (WithdrawCrypto input st) = Some (Some p, None)
    /\ WithdrawCryptoPayload.ForeignID p = "user-id:2048"
    /\ WithdrawCryptoPayload.ID p = "1"
    /\ Json.ParseInt (WithdrawCryptoPayload.ID p) = Some 1.
Proof.
  intros Hc Hj Hs.
  rewrite (WithdrawCrypto_served input j st _ Hj Hs).
  unfold outcome.
  rewrite (checkResponse_success (respond status withdrawCryptoOkResponse) Hc).
  change (Body (respond status withdrawCryptoOkResponse))
    with {| rc_data := withdrawCryptoOkResponse; rc_err := None |}.
  set (d := Decoder_Decode _ _). vm_compute in d. subst d. cbv iota beta.
  eexists. split; [reflexivity|]. repeat split.
Qed.

(** C7 at work: the withdrawal of the package's test against the test
    server. *)
Lemma WithdrawCrypto_decodes_test_answer_witness :
  let reply := inl (respond 200 withdrawCryptoOkResponse) in
  200 <= 200 <= 299
  /\ exists p,
       fst (@WithdrawCrypto (httptest reply) withdrawCryptoInput (test_state reply))
       = Some (Some p, None)
       /\ WithdrawCryptoPayload.ForeignID p = "user-id:2048"
       /\ WithdrawCryptoPayload.ID p = "1"
       /\ Json.ParseInt (WithdrawCryptoPayload.ID p) = Some 1.
Proof.
  intros reply. split; [lia|].
  refine (@WithdrawCrypto_decodes_test_answer (httptest reply) (test_state reply)
            withdrawCryptoInput _ 200 _ eq_refl (httptest_served _ _ _)).
  lia.
Defined.

(** ** The earlier revision

    Address.UnmarshalJSON of the earlier revision never reports an error;
    the later one reports the member data that holds a number. *)
Example Address_UnmarshalJSON_earlier_is_silent :
  (forall data a, snd (Address_UnmarshalJSON_earlier data a) = None)
  /\ snd (Address_UnmarshalJSON (dq "{'data': 5}") Address.zero)
     = Some (UnmarshalTypeError "number" "coinspaid.Alias").
Proof.
  split; [|vm_compute; reflexivity].
  intros data a. unfold Address_UnmarshalJSON_earlier.
  destruct (Json.Unmarshal _ data Address.zero) as [t [e|]]; reflexivity.
Qed.

(** * Further properties *)

(** ** Before an answer *)

Section BeforeAnAnswer.
Context `{Platform}.


Lemma TakeAddress_unserialized (input : TakeAddressInput.t) (st : State) (e : lib_error) :
  json_Marshal_TakeAddressInput input = inr e ->
  TakeAddress input st = (Some (None, Some (LibError e)), st).
Proof. intros He. unfold TakeAddress, bind, get_self, ret. rewrite He. reflexivity. Qed.

Lemma TakeAddress_unrequested (input : TakeAddressInput.t) (st : State) (j : string)
    (e : lib_error) :
  json_Marshal_TakeAddressInput input = inl j ->
  http_NewRequest_error "POST"
    (url_String (url_ResolveReference (BaseURL (self st)) "addresses/take")) = Some e ->
  TakeAddress input st = (Some (None, Some (LibError e)), st).
Proof.
  intros Hj He. unfold TakeAddress, bind, get_self, ret, http_NewRequest.
  rewrite Hj, He. reflexivity.
Qed.

Lemma WithdrawCrypto_unserialized (input : WithdrawCryptoInput.t float64) (st : State)
    (e : lib_error) :
  json_Marshal_WithdrawCryptoInput input = inr e ->
  WithdrawCrypto input st = (Some (None, Some (LibError e)), st).
Proof. intros He. unfold WithdrawCrypto, bind, get_self, ret. rewrite He. reflexivity. Qed.

Lemma WithdrawCrypto_unrequested (input : WithdrawCryptoInput.t float64) (st : State)
    (j : string) (e : lib_error) :
  json_Marshal_WithdrawCryptoInput input = inl j ->
  http_NewRequest_error "POST"
    (url_String (url_ResolveReference (BaseURL (self st)) "withdrawal/crypto")) = Some e ->
  WithdrawCrypto input st = (Some (None, Some (LibError e)), st).
Proof.
  intros Hj He. unfold WithdrawCrypto, bind, get_self, ret, http_NewRequest.
  rewrite Hj, He. reflexivity.
Qed.

End BeforeAnAnswer.

(** X1. An operation whose input json.Marshal refuses, or whose URL
    http.NewRequest refuses, returns that failure and no output, and puts
    nothing on the wire: the state after the call is the state before. *)
Theorem nothing_sent_for_bad_input `{Platform} (st : State) (e : lib_error) :
  (forall input,
     json_Marshal_TakeAddressInput input = inr e
     \/ (exists j, json_Marshal_TakeAddressInput input = inl j
                   /\ http_NewRequest_error "POST"
                        (url_String (url_ResolveReference (BaseURL (self st))
                                       "addresses/take")) = Some e) ->
     TakeAddress input st = (Some (None, Some (LibError e)), st))
  /\ (forall input,
        json_Marshal_WithdrawCryptoInput input = inr e
        \/ (exists j, json_Marshal_WithdrawCryptoInput input = inl j
                      /\ http_NewRequest_error "POST"
                           (url_String (url_ResolveReference (BaseURL (self st))
                                          "withdrawal/crypto")) = Some e) ->
        WithdrawCrypto input st = (Some (None, Some (LibError e)), st)).
Proof.
  split; intros input [He|[j [Hj He]]].
  - exact (TakeAddress_unserialized input st e He).
  - exact (TakeAddress_unrequested input st j e Hj He).
  - exact (WithdrawCrypto_unserialized input st e He).
  - exact (WithdrawCrypto_unrequested input st j e Hj He).
Qed.

(** X1 at work: a withdrawal of NaN is not sent, and neither is a request
    for an address when the base URL has a space in it. *)
Lemma nothing_sent_for_bad_input_witness :
  let reply := inl (respond 200 okResponse) in
  @WithdrawCrypto (strict_httptest reply)
     (WithdrawCryptoInput.Make "user-id:2048" "NaN" "BTC" "3P3Q" "")
     (strict_state "http://127.0.0.1" reply)
  = (Some (None, Some (LibError (PlatformError "json: unsupported value: NaN"))),
     strict_state "http://127.0.0.1" reply)
  /\ @TakeAddress (strict_httptest reply) takeAddressInput (strict_state "http://a b" reply)
     = (Some (None, Some (LibError (PlatformError "net/url: invalid character in host name"))),
        strict_state "http://a b" reply).
Proof.
  intros reply. split.
  - apply (proj2 (@nothing_sent_for_bad_input (strict_httptest reply)
                    (strict_state "http://127.0.0.1" reply) _)).
    left. reflexivity.
  - apply (proj1 (@nothing_sent_for_bad_input (strict_httptest reply)
                    (strict_state "http://a b" reply) _)).
    right. eexists. split; reflexivity.
Defined.

(** X2. An operation whose input is serialized to [j] and whose URL is
    accepted puts one request on the wire, on top of what was there: a POST
    to the base URL resolved with the path of the operation, with [j] for a
    body and four headers, of which X-Processing-Key is the key of the
    client and X-Processing-Signature the HMAC-SHA-512 of [j], the bytes of
    the body, under the secret of the client, in 128 hexadecimal digits. *)
Theorem one_signed_request `{Platform} (st : State) :
  let sent (path j : string) (w : list Request) :=
    exists req,
      w = req :: wire st
      /\ Method req = "POST"
      /\ RequestURL req = url_String (url_ResolveReference (BaseURL (self st)) path)
      /\ RequestBody req = j
      /\ Header req
         = list_to_map
             [("X-Processing-Signature",
               [Hex.EncodeToString (HMAC.Sum (bytes_of_string (apiSecret (self st)))
                                             (bytes_of_string (RequestBody req)))]);
              ("X-Processing-Key", [apiKey (self st)]);
              ("Content-Type", ["application/json"]);
              ("Accept", ["application/json"])]
      /\ (forall sig, Header req !! "X-Processing-Signature" = Some [sig] ->
            String.length sig = 128%nat) in
  (forall input j,
     json_Marshal_TakeAddressInput input = inl j ->
     http_NewRequest_error "POST"
       (url_String (url_ResolveReference (BaseURL (self st)) "addresses/take")) = None ->
     sent "addresses/take" j (wire (snd (TakeAddress input st))))
  /\ (forall input j,
        json_Marshal_WithdrawCryptoInput input = inl j ->
        http_NewRequest_error "POST"
          (url_String (url_ResolveReference (BaseURL (self st)) "withdrawal/crypto")) = None ->
        sent "withdrawal/crypto" j (wire (snd (WithdrawCrypto input st)))).
Proof.
  assert (forall path j,
            exists req, request_of (self st) path j :: wire st = req :: wire st
              /\ Method req = "POST"
              /\ RequestURL req = url_String (url_ResolveReference (BaseURL (self st)) path)
              /\ RequestBody req = j
              /\ Header req
                 = list_to_map
                     [("X-Processing-Signature",
                       [Hex.EncodeToString
                          (HMAC.Sum (bytes_of_string (apiSecret (self st)))
                                    (bytes_of_string (RequestBody req)))]);
                      ("X-Processing-Key", [apiKey (self st)]);
                      ("Content-Type", ["application/json"]);
                      ("Accept", ["application/json"])]
              /\ (forall sig, Header req !! "X-Processing-Signature" = Some [sig] ->
                    String.length sig = 128%nat)) as Hreq.
  { intros path j. exists (request_of (self st) path j).
    repeat split.
    intros sig. unfold request_of, Header_Set; cbn [Header].
    rewrite lookup_insert_eq. intros Hsig. injection Hsig as <-.
    unfold createSignedRequestHeader, Hex.EncodeToString; cbn [fst].
    rewrite string_of_list_ascii_length, Encode_length, HMAC_Sum_length. reflexivity. }
  cbv zeta. split; intros input j Hj Hr.
  - rewrite (TakeAddress_run input st j Hj Hr). apply Hreq.
  - rewrite (WithdrawCrypto_run input st j Hj Hr). apply Hreq.
Qed.

(** X2 at work: the request of the package's test. *)
Lemma one_signed_request_witness :
  let reply := inl (respond 200 okResponse) in
  exists req,
    wire (snd (@TakeAddress (httptest reply) takeAddressInput (test_state reply))) = [req]
    /\ Method req = "POST"
    /\ RequestURL req = "http://127.0.0.1/addresses/take"
    /\ RequestBody req = dq "{'foreign_id':'user-id:2048','currency':'EUR'}"
    /\ Header req !! "X-Processing-Key" = Some ["key"].
Proof.
  intros reply.
  destruct (proj1 (@one_signed_request (httptest reply) (test_state reply))
              takeAddressInput _ eq_refl eq_refl)
    as [req [Hw [Hm [Hu [Hb [Hh _]]]]]].
  exists req. repeat split; try assumption.
  rewrite Hh. reflexivity.
Defined.

(** X3. When the round trip itself fails, the operation returns the error of
    the transport as it is and no output.  The request went out once, to an
    HTTP client with a timeout of ten seconds, and is not sent again. *)
Theorem transport_error_returned `{Platform} (st : State) (err : lib_error) :
  (forall input j,
     json_Marshal_TakeAddressInput input = inl j ->
     http_NewRequest_error "POST"
       (url_String (url_ResolveReference (BaseURL (self st)) "addresses/take")) = None ->
     http_Do {| Timeout := 10 * Second |} (wire st)
             (request_of (self st) "addresses/take" j) = inr err ->
     TakeAddress input st
     = (Some (None, Some (LibError err)),
        {| self := self st; wire := request_of (self st) "addresses/take" j :: wire st |}))
  /\ (forall input j,
        json_Marshal_WithdrawCryptoInput input = inl j ->
        http_NewRequest_error "POST"
          (url_String (url_ResolveReference (BaseURL (self st)) "withdrawal/crypto")) = None ->
        http_Do {| Timeout := 10 * Second |} (wire st)
                (request_of (self st) "withdrawal/crypto" j) = inr err ->
        WithdrawCrypto input st
        = (Some (None, Some (LibError err)),
           {| self := self st; wire := request_of (self st) "withdrawal/crypto" j :: wire st |})).
Proof.
  split; intros input j Hj Hr Hdo.
  - rewrite (TakeAddress_run input st j Hj Hr). cbv zeta.
    change (Second * 10) with (10 * Second). rewrite Hdo. reflexivity.
  - rewrite (WithdrawCrypto_run input st j Hj Hr). cbv zeta.
    change (Second * 10) with (10 * Second). rewrite Hdo. reflexivity.
Qed.

(** X3 at work: the test server is down. *)
Lemma transport_error_returned_witness :
  let down := inr (PlatformError "dial tcp 127.0.0.1:80: connect: connection refused") in
  fst (@TakeAddress (httptest down) takeAddressInput (test_state down))
  = Some (None, Some (LibError
            (PlatformError "dial tcp 127.0.0.1:80: connect: connection refused")))
  /\ length (wire (snd (@TakeAddress (httptest down) takeAddressInput (test_state down))))
     = 1%nat.
Proof.
  intros down.
  rewrite (proj1 (@transport_error_returned (httptest down) (test_state down) _)
             takeAddressInput _ eq_refl eq_refl eq_refl).
  split; reflexivity.
Defined.


(** X5. The HTTP client that the Client holds is not used: doRequest makes
    one of its own for every call.  Two clients that differ in their HTTP
    client only get the same result from an operation and leave the same
    requests on the wire. *)
Theorem httpClient_of_client_unused `{Platform}
    (takeInput : TakeAddressInput.t) (withdrawInput : WithdrawCryptoInput.t float64)
    (key secret : string) (url : URL) (hc hc' : HTTPClient) (w : list Request) :
  let st := {| self := {| apiKey := key; apiSecret := secret; BaseURL := url;
                          httpClient := hc |}; wire := w |} in
  let st' := {| self := {| apiKey := key; apiSecret := secret; BaseURL := url;
                           httpClient := hc' |}; wire := w |} in
  (fst (TakeAddress takeInput st) = fst (TakeAddress takeInput st')
   /\ wire (snd (TakeAddress takeInput st)) = wire (snd (TakeAddress takeInput st')))
  /\ (fst (WithdrawCrypto withdrawInput st) = fst (WithdrawCrypto withdrawInput st')
      /\ wire (snd (WithdrawCrypto withdrawInput st))
         = wire (snd (WithdrawCrypto withdrawInput st'))).
Proof.
  intros st st'. split.
  - destruct (json_Marshal_TakeAddressInput takeInput) as [j|e] eqn:Hj.
    + destruct (http_NewRequest_error "POST"
                  (url_String (url_ResolveReference url "addresses/take")))
        as [e|] eqn:Hr.
      * rewrite (TakeAddress_unrequested takeInput st j e Hj Hr),
                (TakeAddress_unrequested takeInput st' j e Hj Hr). split; reflexivity.
      * rewrite (TakeAddress_run takeInput st j Hj Hr),
                (TakeAddress_run takeInput st' j Hj Hr). split; reflexivity.
    + rewrite (TakeAddress_unserialized takeInput st e Hj),
              (TakeAddress_unserialized takeInput st' e Hj). split; reflexivity.
  - destruct (json_Marshal_WithdrawCryptoInput withdrawInput) as [j|e] eqn:Hj.
    + destruct (http_NewRequest_error "POST"
                  (url_String (url_ResolveReference url "withdrawal/crypto")))
        as [e|] eqn:Hr.
      * rewrite (WithdrawCrypto_unrequested withdrawInput st j e Hj Hr),
                (WithdrawCrypto_unrequested withdrawInput st' j e Hj Hr). split; reflexivity.
      * rewrite (WithdrawCrypto_run withdrawInput st j Hj Hr),
                (WithdrawCrypto_run withdrawInput st' j Hj Hr). split; reflexivity.
    + rewrite (WithdrawCrypto_unserialized withdrawInput st e Hj),
              (WithdrawCrypto_unserialized withdrawInput st' e Hj). split; reflexivity.
Qed.

(** X6. A client made by NewClient sends its requests to the endpoint it
    was given, as url.Parse read it, under the key it was given, signed
    with the secret it was given. *)
Theorem NewClient_then_TakeAddress `{Platform}
    (key secret endpoint : string) (client : Client) (input : TakeAddressInput.t)
    (j : string) (u : URL) :
  NewClient key secret endpoint = (Some client, None) ->
  url_Parse endpoint = inl u ->
  json_Marshal_TakeAddressInput input = inl j ->
  http_NewRequest_error "POST" (url_String (url_ResolveReference u "addresses/take")) = None ->
  exists req,
    wire (snd (TakeAddress input {| self := client; wire := [] |})) = [req]
    /\ RequestURL req = url_String (url_ResolveReference u "addresses/take")
    /\ RequestBody req = j
    /\ Header req !! "X-Processing-Key" = Some [key]
    /\ Header req !! "X-Processing-Signature"
       = Some [Hex.EncodeToString (HMAC.Sum (bytes_of_string secret) (bytes_of_string j))].
Proof.
  intros Hnew Hu Hj Hr. unfold NewClient in Hnew. rewrite Hu in Hnew.
  destruct (String.eqb key "" || String.eqb secret "" || String.eqb endpoint "");
    [discriminate Hnew|].
  injection Hnew as <-.
  exists (request_of {| apiKey := key; apiSecret := secret; httpClient := {| Timeout := Second * 10 |};
                        BaseURL := u |} "addresses/take" j).
  set (c := {| apiKey := key; apiSecret := secret;
               httpClient := {| Timeout := Second * 10 |}; BaseURL := u |}).
  split.
  - rewrite (TakeAddress_run input {| self := c; wire := [] |} j Hj Hr). reflexivity.
  - unfold request_of, Header_Set; cbn [RequestURL RequestBody Header BaseURL apiKey].
    repeat split; try (rewrite lookup_insert_ne by discriminate); apply lookup_insert_eq.
Qed.

(** X6 at work on the test server. *)
Lemma NewClient_then_TakeAddress_witness :
  let reply := inl (respond 200 okResponse) in
  exists req,
    wire (snd (@TakeAddress (httptest reply) takeAddressInput
                 (@Build_State (httptest reply)
                    (@Build_Client (httptest reply) "key" "secret" "http://127.0.0.1"
                       {| Timeout := Second * 10 |}) [])))
    = [req]
    /\ RequestURL req = "http://127.0.0.1/addresses/take"
    /\ RequestBody req = dq "{'foreign_id':'user-id:2048','currency':'EUR'}"
    /\ Header req !! "X-Processing-Key" = Some ["key"]
    /\ Header req !! "X-Processing-Signature"
       = Some [Hex.EncodeToString
                 (HMAC.Sum (bytes_of_string "secret")
                    (bytes_of_string (dq "{'foreign_id':'user-id:2048','currency':'EUR'}")))].
Proof.
  intros reply.
  exact (@NewClient_then_TakeAddress (httptest reply) "key" "secret" "http://127.0.0.1"
           _ takeAddressInput _ _ eq_refl eq_refl eq_refl eq_refl).
Defined.

(** ** More of checkResponse *)



(** X8. When the body of an answer outside 200-299 cannot be read to its
    end, checkResponse returns an ErrorResponse with an empty message and
    an empty code, for status 400 as for any other; what was read of the
    body is dropped.  Both operations return that error. *)
Theorem unread_body_gives_bare_error `{Platform} (st : State) (r : Response)
    (err : lib_error) :
  ~ (200 <= StatusCode r <= 299) ->
  rc_err (Body r) = Some err ->
  checkResponse r
  = Some (after_read r, Some (ErrorResponseOf (ErrorResponse.Make RefShared "" "")))
  /\ operations_return st r (ErrorResponseOf (ErrorResponse.Make RefShared "" "")).
Proof.
  intros Hc Herr.
  assert (checkResponse r
          = Some (after_read r, Some (ErrorResponseOf (ErrorResponse.Make RefShared "" ""))))
    as Hcheck.
  { unfold checkResponse, ReadAll. rewrite (not_success_false _ Hc), Herr. reflexivity. }
  split; [exact Hcheck | exact (classifier_error_returned st r _ _ Hcheck)].
Qed.

(** X8 at work: a 403 answer whose body breaks off. *)
Lemma unread_body_gives_bare_error_witness :
  let r := {| StatusCode := 403;
              Body := {| rc_data := dq "{'error':'Bad key header','co";
                         rc_err := Some ErrUnexpectedEOF |} |} in
  fst (@TakeAddress (httptest (inl r)) takeAddressInput (test_state (inl r)))
  = Some (None, Some (ErrorResponseOf (ErrorResponse.Make RefShared "" ""))).
Proof.
  intros r.
  refine (proj1 (proj2 (@unread_body_gives_bare_error (httptest (inl r))
                          (test_state (inl r)) r ErrUnexpectedEOF _ eq_refl))
            takeAddressInput _ eq_refl (httptest_served r _ _)).
  vm_compute. intros [_ Hle]. apply Hle. reflexivity.
Defined.

(** ** The member Response of a body *)

Lemma store_Response_member_status (m : Json.member) (r : Response)
    (saved : option lib_error) :
  other_Response_field m = false ->
  exists e,
    store_Response_member (Some (r, saved)) m
    = Some ({| StatusCode := last_status [m] (StatusCode r); Body := Body r |}, e).
Proof.
  intros Hm. unfold store_Response_member, last_status, names. cbn [mbind option_bind fold_left].
  unfold other_Response_field in Hm. rewrite Hm.
  destruct (String.eqb (Json.field_of m) "STATUSCODE").
  - unfold Json.store_int.
    destruct (snd m) as [| |lit| | |]; try (eexists; destruct r; reflexivity).
    destruct (Json.ParseInt lit) as [n|]; eexists; destruct r; reflexivity.
  - eexists; destruct r; reflexivity.
Qed.

Lemma store_Response_members_status (inner : list Json.member) :
  forall (r : Response) (saved : option lib_error),
  existsb other_Response_field inner = false ->
  exists e,
    fold_left store_Response_member inner (Some (r, saved))
    = Some ({| StatusCode := last_status inner (StatusCode r); Body := Body r |}, e).
Proof.
  induction inner as [|m inner IH]; intros r saved Hno.
  - exists saved. destruct r; reflexivity.
  - cbn [existsb] in Hno. apply orb_false_iff in Hno as [Hm Hinner].
    cbn [fold_left].
    destruct (store_Response_member_status m r saved Hm) as [e1 Hstep]. rewrite Hstep.
    destruct (IH {| StatusCode := last_status [m] (StatusCode r); Body := Body r |} e1 Hinner)
      as [e He].
    exists e. rewrite He. reflexivity.
Qed.

(** The members either leave every status as it is or set every status to
    the same number. *)
Lemma last_status_cases (inner : list Json.member) :
  (forall c, last_status inner c = c) \/ (exists n, forall c, last_status inner c = n).
Proof.
  induction inner as [|m inner IH]; [left; reflexivity|].
  unfold last_status in *; simpl.
  destruct IH as [Hid|[n Hn]]; [|right; exists n; intros c; apply Hn].
  destruct (names "STATUSCODE" m); [|left; intros c; apply Hid].
  destruct (snd m) as [| |lit| | |]; try (left; intros c; apply Hid).
  destruct (Json.ParseInt lit) as [n|]; [|left; intros c; apply Hid].
  right. exists n. intros c. apply Hid.
Qed.

Lemma last_status_idempotent (inner : list Json.member) (c : Z) :
  last_status inner (last_status inner c) = last_status inner c.
Proof.
  destruct (last_status_cases inner) as [Hid|[n Hn]].
  - rewrite !Hid. reflexivity.
  - rewrite !Hn. reflexivity.
Qed.

Lemma names_Response_not_errors (m : Json.member) :
  names "RESPONSE" m = true -> names "ERRORS" m = false.
Proof.
  unfold names. intros Hm. apply String.eqb_eq in Hm. rewrite Hm. reflexivity.
Qed.

(** An ErrorResponse that points to the response, decoded from an object
    with one member Response that holds an object. *)
Lemma ErrorResponse_members_rewrite (pre post inner : list Json.member) (k raw : string)
    (er : ErrorResponse.t) (r : Response) :
  ErrorResponse.Response er = RefShared ->
  names "RESPONSE" (k, raw, Json.Object inner) = true ->
  existsb (names "RESPONSE") (pre ++ post) = false ->
  existsb other_Response_field inner = false ->
  exists er' e,
    ErrorResponse_members (pre ++ (k, raw, Json.Object inner) :: post) er r
    = Some (er', {| StatusCode := last_status inner (StatusCode r); Body := Body r |}, e)
    /\ ErrorResponse.Response er' = RefShared.
Proof.
  intros Href Hk Hno Hinner.
  rewrite existsb_app in Hno. apply orb_false_iff in Hno as [Hpre Hpost].
  unfold ErrorResponse_members. rewrite fold_left_app.
  destruct (ErrorResponse_members_plain pre er r None Hpre) as [e1 [Hfold1 _]].
  rewrite Hfold1. cbn [fold_left].
  unfold ErrorResponse_member at 2. cbn [mbind option_bind].
  unfold ErrorResponse_field. unfold names in Hk. rewrite Hk.
  cbn [ErrorResponse.Response snd store_Response_ptr]. rewrite Href.
  unfold store_Response_members.
  destruct (store_Response_members_status inner r None Hinner) as [e2 Hinner2].
  rewrite Hinner2. cbn [mbind option_bind].
  match goal with
  | |- context [fold_left ErrorResponse_member post (Some (?x, ?y, ?z))] =>
      destruct (ErrorResponse_members_plain post x y z Hpost) as [e3 [Hfold3 _]]
  end.
  rewrite Hfold3. do 2 eexists. split; reflexivity.
Qed.

Lemma ValidationErrorResponse_members_rewrite (pre post inner : list Json.member)
    (k raw : string) (ve : ValidationErrorResponse.t) (r : Response) :
  ValidationErrorResponse.Response ve = RefShared ->
  names "RESPONSE" (k, raw, Json.Object inner) = true ->
  existsb (names "RESPONSE") (pre ++ post) = false ->
  existsb other_Response_field inner = false ->
  exists ve' e,
    ValidationErrorResponse_members (pre ++ (k, raw, Json.Object inner) :: post) ve r
    = Some (ve', {| StatusCode := last_status inner (StatusCode r); Body := Body r |}, e)
    /\ ValidationErrorResponse.Response ve' = RefShared.
Proof.
  intros Href Hk Hno Hinner.
  rewrite existsb_app in Hno. apply orb_false_iff in Hno as [Hpre Hpost].
  unfold ValidationErrorResponse_members. rewrite fold_left_app.
  destruct (ValidationErrorResponse_members_plain pre ve r None Hpre) as [e1 Hfold1].
  rewrite Hfold1. cbn [fold_left].
  unfold ValidationErrorResponse_member at 2. cbn [mbind option_bind].
  unfold ValidationErrorResponse_field. unfold names in Hk. rewrite Hk.
  cbn [ValidationErrorResponse.Response snd store_Response_ptr]. rewrite Href.
  unfold store_Response_members.
  destruct (store_Response_members_status inner r None Hinner) as [e2 Hinner2].
  rewrite Hinner2. cbn [mbind option_bind].
  match goal with
  | |- context [fold_left ValidationErrorResponse_member post (Some (?x, ?y, ?z))] =>
      destruct (ValidationErrorResponse_members_plain post x y z Hpost) as [e3 Hfold3]
  end.
  rewrite Hfold3. do 2 eexists. split; reflexivity.
Qed.

(** X9. The body of an answer can change the status the answer is
    classified by.  The field Response of the two error structs is open to
    JSON, and it points to the response under classification: when the
    body is an object with one member Response that holds an object, the
    members StatusCode of that object are stored in the response before
    checkResponse compares its status with 400.  The error returned is a
    ValidationErrorResponse exactly when the status so rewritten is 400,
    whatever the status of the answer was; both operations return it. *)
Theorem Response_member_rewrites_status `{Platform} (st : State) (r : Response)
    (raw k rawv : string) (pre inner post : list Json.member) :
  ~ (200 <= StatusCode r <= 299) ->
  rc_err (Body r) = None ->
  Json.checkValid (rc_data (Body r))
  = inl (raw, Json.Object (pre ++ (k, rawv, Json.Object inner) :: post)) ->
  names "RESPONSE" (k, rawv, Json.Object inner) = true ->
  existsb (names "RESPONSE") (pre ++ post) = false ->
  existsb other_Response_field inner = false ->
  let status := last_status inner (StatusCode r) in
  exists e,
    checkResponse r
    = Some ({| StatusCode := status; Body := drained (Body r) |}, Some e)
    /\ operations_return st r e
    /\ (status = 400 ->
        exists ve, e = ValidationErrorResponseOf ve
                   /\ ValidationErrorResponse.Response ve = RefShared)
    /\ (status <> 400 ->
        exists er, e = ErrorResponseOf er /\ ErrorResponse.Response er = RefShared).
Proof.
  intros Hc Hread Hv Hk Hno Hinner status.
  assert ((0 <? String.length (rc_data (Body r)))%nat = true) as Hlen.
  { destruct (rc_data (Body r)); [vm_compute in Hv; discriminate Hv | reflexivity]. }
  destruct (ErrorResponse_members_rewrite pre post inner k rawv
              (ErrorResponse.Make RefShared "" "") (after_read r) eq_refl Hk Hno Hinner)
    as [er [e1 [Hu1 Hr1]]].
  destruct (ValidationErrorResponse_members_rewrite pre post inner k rawv
              (ValidationErrorResponse.Make RefShared None)
              {| StatusCode := status; Body := drained (Body r) |} eq_refl Hk Hno Hinner)
    as [ve [e2 [Hu2 Hr2]]].
  cbn [StatusCode Body after_read] in Hu1, Hu2. fold status in Hu1.
  unfold status in Hu2 at 2. rewrite last_status_idempotent in Hu2. fold status in Hu2.
  assert (exists e,
            checkResponse r
            = Some ({| StatusCode := status; Body := drained (Body r) |}, Some e)
            /\ (status = 400 ->
                exists ve, e = ValidationErrorResponseOf ve
                           /\ ValidationErrorResponse.Response ve = RefShared)
            /\ (status <> 400 ->
                exists er, e = ErrorResponseOf er /\ ErrorResponse.Response er = RefShared))
    as [e [Hcheck [H400 Hnot]]].
  { unfold checkResponse, ReadAll. rewrite (not_success_false _ Hc), Hread, Hlen.
    fold (after_read r). unfold Unmarshal_ErrorResponse. rewrite Hv, Hu1.
    cbn [mbind option_bind].
    unfold Unmarshal_ValidationErrorResponse. rewrite Hv.
    destruct e1 as [e1|]; cbn [mbind option_bind StatusCode];
      (destruct (Z.eqb_spec status StatusBadRequest) as [Heq|Hne];
       [ rewrite Hu2; cbn [mbind option_bind]; eexists; split; [reflexivity|];
         split; [intros _; eexists; split; [reflexivity | exact Hr2]
                | intros Hn; contradiction]
       | eexists; split; [reflexivity|];
         split; [intros Hn; contradiction
                | intros _; eexists; split; [reflexivity|]; try exact Hr1; reflexivity] ]). }
  exists e. split; [exact Hcheck|].
  split; [exact (classifier_error_returned st r _ _ Hcheck)|].
  split; assumption.
Qed.

(** X9 at work: an answer with status 403 whose body sets the status to 400
    is reported as a validation error, and an answer with status 400 whose
    body sets the status to 403 as a generic one. *)
Lemma Response_member_rewrites_status_witness :
  let r := respond 403 (dq "{'Response':{'StatusCode':400},'errors':{'foreign_id':'x'}}") in
  let r' := respond 400 (dq "{'Response':{'StatusCode':403},'errors':{'foreign_id':'x'}}") in
  (exists ve,
     fst (@TakeAddress (httptest (inl r)) takeAddressInput (test_state (inl r)))
     = Some (None, Some (ValidationErrorResponseOf ve)))
  /\ (exists er,
        fst (@TakeAddress (httptest (inl r')) takeAddressInput (test_state (inl r')))
        = Some (None, Some (ErrorResponseOf er))).
Proof.
  intros r r'. split.
  - destruct (@Response_member_rewrites_status (httptest (inl r)) (test_state (inl r)) r
                _ _ _ [] _ _
                ltac:(vm_compute; intros [_ Hle]; apply Hle; reflexivity)
                eq_refl ltac:(vm_compute; reflexivity)
                ltac:(vm_compute; reflexivity) ltac:(vm_compute; reflexivity)
                ltac:(vm_compute; reflexivity))
      as [e [_ [Hops [H400 _]]]].
    destruct (H400 ltac:(vm_compute; reflexivity)) as [ve [-> _]].
    exists ve. exact (proj1 Hops takeAddressInput _ eq_refl (httptest_served r _ _)).
  - destruct (@Response_member_rewrites_status (httptest (inl r')) (test_state (inl r')) r'
                _ _ _ [] _ _
                ltac:(vm_compute; intros [_ Hle]; apply Hle; reflexivity)
                eq_refl ltac:(vm_compute; reflexivity)
                ltac:(vm_compute; reflexivity) ltac:(vm_compute; reflexivity)
                ltac:(vm_compute; reflexivity))
      as [e [_ [Hops [_ Hnot]]]].
    destruct (Hnot ltac:(vm_compute; discriminate)) as [er [-> _]].
    exists er. exact (proj1 Hops takeAddressInput _ eq_refl (httptest_served r' _ _)).
Defined.

(** ** The body of a successful answer *)

Lemma scan_app (data extra : string) :
  forall (s : Json.scanner) (raw : string) (v : Json.value) (rest : string),
  Json.scan s data = Json.Found raw v rest ->
  Json.scan s (data +:+ extra) = Json.Found raw v (rest +:+ extra).
Proof.
  induction data as [|c data IH]; intros s raw v rest; simpl; [discriminate|].
  destruct (Json.feed s c) as [m st lit|raw' v' consumed|e].
  - apply IH.
  - intros [= <- <- <-]. destruct consumed; reflexivity.
  - discriminate.
Qed.

Lemma Decoder_Decode_app {T} `{Unmarshaler T} (data extra raw rest : string)
    (v : Json.value) (zero : T) :
  Json.scan Json.start data = Json.Found raw v rest ->
  Decoder_Decode {| rc_data := data +:+ extra; rc_err := None |} zero
  = Decoder_Decode {| rc_data := data; rc_err := None |} zero.
Proof.
  intros Hscan. unfold Decoder_Decode; cbn [rc_data rc_err].
  rewrite (scan_app data extra _ _ _ _ Hscan), Hscan. reflexivity.
Qed.

(** X10. What follows the first JSON value in the body of a successful
    answer is not looked at: when the body starts with a complete JSON
    value, any bytes the server sends after it leave the result of the
    operation as it is without them. *)
Theorem bytes_after_the_value_ignored `{Platform} (st : State) (status : Z)
    (body extra raw rest : string) (v : Json.value) :
  200 <= status <= 299 ->
  Json.scan Json.start body = Json.Found raw v rest ->
  (forall input j,
     json_Marshal_TakeAddressInput input = inl j ->
     served st "addresses/take" j (respond status (body +:+ extra)) ->
     fst (TakeAddress input st) = outcome Address.zero (inl (respond status body)))
  /\ (forall input j,
        json_Marshal_WithdrawCryptoInput input = inl j ->
        served st "withdrawal/crypto" j (respond status (body +:+ extra)) ->
        fst (WithdrawCrypto input st)
        = outcome WithdrawCryptoPayload.zero (inl (respond status body))).
Proof.
  intros Hc Hscan. split; intros input j Hj Hs.
  - rewrite (TakeAddress_served input j st _ Hj Hs). unfold outcome.
    rewrite (checkResponse_success (respond status (body +:+ extra)) Hc),
            (checkResponse_success (respond status body) Hc).
    unfold respond; cbn [Body].
    rewrite (Decoder_Decode_app body extra raw rest v Address.zero Hscan). reflexivity.
  - rewrite (WithdrawCrypto_served input j st _ Hj Hs). unfold outcome.
    rewrite (checkResponse_success (respond status (body +:+ extra)) Hc),
            (checkResponse_success (respond status body) Hc).
    unfold respond; cbn [Body].
    rewrite (Decoder_Decode_app body extra raw rest v WithdrawCryptoPayload.zero Hscan).
    reflexivity.
Qed.

(** X10 at work: the answer of the package's test, followed by the start of
    an HTML page. *)
Lemma bytes_after_the_value_ignored_witness :
  let reply := inl (respond 200 (okResponse +:+ "<html><body>")) in
  fst (@TakeAddress (httptest reply) takeAddressInput (test_state reply))
  = Some (Some (Address.Make 1 "EUR" "EUR" "12983h13ro1hrt24it432t" "tag-123" "user-id:2048"),
          None).
Proof.
  intros reply.
  refine (eq_trans
            (proj1 (@bytes_after_the_value_ignored (httptest reply) (test_state reply) 200
                      okResponse "<html><body>" _ _ _ _ _)
               takeAddressInput _ eq_refl (httptest_served _ _ _)) _).
  - lia.
  - vm_compute. reflexivity.
  - vm_compute. reflexivity.
Defined.

Lemma scan_spaces (body : string) :
  forall s : Json.scanner,
  Json.first_nonspace body = None ->
  Json.sc_mode s = Json.BeginValue ->
  exists s', Json.scan s body = Json.AtEnd s'
             /\ Json.sc_mode s' = Json.BeginValue /\ Json.sc_stack s' = Json.sc_stack s.
Proof.
  induction body as [|c body IH]; intros s Hsp Hmode; simpl in *.
  - exists s. repeat split; assumption.
  - destruct (Json.isSpace c) eqn:Hc; [|discriminate].
    unfold Json.feed. rewrite Hmode. unfold Json.begin_value. rewrite Hc.
    destruct (IH (Json.advance s c Json.BeginValue (Json.sc_stack s) (Json.sc_lit s))
                 Hsp eq_refl) as [s' [Hscan [Hm Hst]]].
    exists s'. repeat split; assumption.
Qed.

Lemma Decoder_Decode_spaces {T} `{Unmarshaler T} (body : string) (zero : T) :
  Json.first_nonspace body = None ->
  Decoder_Decode {| rc_data := body; rc_err := None |} zero = (zero, Some EOF).
Proof.
  intros Hsp. unfold Decoder_Decode; cbn [rc_data rc_err].
  destruct (scan_spaces body Json.start Hsp eq_refl) as [s' [Hscan [Hm Hst]]].
  rewrite Hscan, Hsp. unfold Json.eof, Json.feed. rewrite Hm.
  unfold Json.begin_value. cbn [Json.isSpace]. reflexivity.
Qed.

(** X11. A successful answer with nothing in its body, or white space
    only, gives no output: both operations return io.EOF. *)
Theorem empty_answer_is_EOF `{Platform} (st : State) (status : Z) (body : string) :
  200 <= status <= 299 ->
  Json.first_nonspace body = None ->
  (forall input j,
     json_Marshal_TakeAddressInput input = inl j ->
     served st "addresses/take" j (respond status body) ->
     fst (TakeAddress input st) = Some (None, Some (LibError EOF)))
  /\ (forall input j,
        json_Marshal_WithdrawCryptoInput input = inl j ->
        served st "withdrawal/crypto" j (respond status body) ->
        fst (WithdrawCrypto input st) = Some (None, Some (LibError EOF))).
Proof.
  intros Hc Hsp. split; intros input j Hj Hs.
  - rewrite (TakeAddress_served input j st _ Hj Hs). unfold outcome.
    rewrite (checkResponse_success (respond status body) Hc).
    unfold respond; cbn [Body]. rewrite (Decoder_Decode_spaces body Address.zero Hsp).
    reflexivity.
  - rewrite (WithdrawCrypto_served input j st _ Hj Hs). unfold outcome.
    rewrite (checkResponse_success (respond status body) Hc).
    unfold respond; cbn [Body].
    rewrite (Decoder_Decode_spaces body WithdrawCryptoPayload.zero Hsp). reflexivity.
Qed.

(** X11 at work: status 204 and an empty body. *)
Lemma empty_answer_is_EOF_witness :
  let reply := inl (respond 204 "") in
  fst (@WithdrawCrypto (httptest reply) withdrawCryptoInput (test_state reply))
  = Some (None, Some (LibError EOF)).
Proof.
  intros reply.
  refine (proj2 (@empty_answer_is_EOF (httptest reply) (test_state reply) 204 "" _ eq_refl)
            withdrawCryptoInput _ eq_refl (httptest_served _ _ _)).
  lia.
Defined.

(** X12. UnmarshalJSON of an output type leaves no half-filled value: when
    json.Unmarshal fails, the receiver is as it was; when it succeeds, the
    receiver is what the data alone give, with nothing kept of what it held
    before.  Whether it fails depends on the data only. *)
Theorem UnmarshalJSON_all_or_nothing (data : string) :
  (forall a a' : Address.t,
     snd (Address_UnmarshalJSON data a) = snd (Address_UnmarshalJSON data a')
     /\ (snd (Address_UnmarshalJSON data a) <> None -> fst (Address_UnmarshalJSON data a) = a)
     /\ (snd (Address_UnmarshalJSON data a) = None ->
         fst (Address_UnmarshalJSON data a) = fst (Address_UnmarshalJSON data a')))
  /\ (forall p p' : WithdrawCryptoPayload.t,
        snd (WithdrawCryptoPayload_UnmarshalJSON data p)
        = snd (WithdrawCryptoPayload_UnmarshalJSON data p')
        /\ (snd (WithdrawCryptoPayload_UnmarshalJSON data p) <> None ->
            fst (WithdrawCryptoPayload_UnmarshalJSON data p) = p)
        /\ (snd (WithdrawCryptoPayload_UnmarshalJSON data p) = None ->
            fst (WithdrawCryptoPayload_UnmarshalJSON data p)
            = fst (WithdrawCryptoPayload_UnmarshalJSON data p'))).
Proof.
  split.
  - intros a a'. unfold Address_UnmarshalJSON.
    destruct (Json.Unmarshal _ data Address.zero) as [t [e|]]; simpl;
      repeat split; intros; try reflexivity; try discriminate; exfalso; auto.
  - intros p p'. unfold WithdrawCryptoPayload_UnmarshalJSON.
    destruct (Json.Unmarshal _ data WithdrawCryptoPayload.zero) as [t [e|]]; simpl;
      repeat split; intros; try reflexivity; try discriminate; exfalso; auto.
Qed.

(** ** Answers made from values

    The scanner is run on a text with unknown parts: byte by byte over the
    known bytes, in one step over a plain string or the digits of a number. *)

Lemma append_String (c : ascii) (a b : string) : String c a +:+ b = String c (a +:+ b).
Proof. reflexivity. Qed.

Lemma append_empty (b : string) : "" +:+ b = b.
Proof. reflexivity. Qed.

Lemma scan_String (s : Json.scanner) (c : ascii) (rest : string) :
  Json.scan s (String c rest)
  = match Json.feed s c with
    | Json.Continue m st lit => Json.scan (Json.advance s c m st lit) rest
    | Json.Finished raw v consumed => Json.Found raw v (if consumed then rest else String c rest)
    | Json.Failed e => Json.Bad e
    end.
Proof. reflexivity. Qed.

Lemma feed_plain (st : list Json.frame) (seen : list ascii) (pos lit : nat) (c : ascii) :
  plain_char c = true ->
  Json.feed (Json.Scanner Json.InString st seen pos lit) c = Json.Continue Json.InString st lit.
Proof.
  unfold plain_char, Json.feed; cbn [Json.sc_mode Json.sc_stack Json.sc_lit].
  intros Hc. apply andb_true_iff in Hc as [Hc Hb]. apply andb_true_iff in Hc as [Hc Hq].
  apply andb_true_iff in Hc as [Hlo Hhi].
  apply negb_true_iff in Hq, Hb. rewrite Hq, Hb.
  apply N.leb_le in Hlo.
  destruct (N.ltb_spec (Json.code c) 32); [lia | reflexivity].
Qed.

Lemma scan_plain (content : string) :
  forall (st : list Json.frame) (seen : list ascii) (pos lit : nat) (rest : string),
  plain content = true ->
  Json.scan (Json.Scanner Json.InString st seen pos lit) (content +:+ rest)
  = Json.scan (Json.Scanner Json.InString st
                 (rev (list_ascii_of_string content) ++ seen)
                 (pos + String.length content) lit) rest.
Proof.
  induction content as [|c content IH]; intros st seen pos lit rest Hp.
  - rewrite append_empty. cbn [list_ascii_of_string rev app String.length].
    rewrite Nat.add_0_r. reflexivity.
  - unfold plain in Hp. cbn [list_ascii_of_string forallb] in Hp.
    apply andb_true_iff in Hp as [Hc Hp].
    rewrite append_String, scan_String, (feed_plain _ _ _ _ _ Hc).
    unfold Json.advance; cbn [Json.sc_seen Json.sc_pos].
    rewrite (IH st (c :: seen) (S pos) lit rest Hp).
    cbn [list_ascii_of_string rev String.length]. rewrite <- app_assoc. cbn [app].
    rewrite Nat.add_succ_r. reflexivity.
Qed.

(** the text read since [start], when what was read since then is [t] *)
Lemma text_from_suffix (m : Json.mode) (st : list Json.frame) (seen : list ascii)
    (pos lit : nat) (t : string) (last : list ascii) :
  Json.text_from (Json.Scanner m st (rev (list_ascii_of_string t) ++ seen)
                    (pos + String.length t) lit) pos last
  = t +:+ string_of_list_ascii last.
Proof.
  unfold Json.text_from; cbn [Json.sc_pos Json.sc_seen].
  replace (pos + String.length t - pos)%nat with (length (rev (list_ascii_of_string t))).
  2:{ rewrite length_rev. clear. induction t; cbn; lia. }
  rewrite take_app_length, rev_involutive.
  clear. induction t as [|c t IH]; cbn; [reflexivity | rewrite IH; reflexivity].
Qed.

Lemma append_nil_r (s : string) : s +:+ "" = s.
Proof. induction s as [|c s IH]; [reflexivity|]. rewrite append_String, IH. reflexivity. Qed.

Lemma text_from_done (m : Json.mode) (st : list Json.frame) (seen : list ascii)
    (pos lit : nat) (last : list ascii) :
  Json.text_from (Json.Scanner m st seen pos lit) pos last = string_of_list_ascii last.
Proof.
  unfold Json.text_from; cbn [Json.sc_pos Json.sc_seen]. rewrite Nat.sub_diag. reflexivity.
Qed.

Lemma text_from_cons (m : Json.mode) (st : list Json.frame) (seen : list ascii)
    (pos lit start : nat) (c : ascii) (last : list ascii) :
  (start <= pos)%nat ->
  Json.text_from (Json.Scanner m st (c :: seen) (S pos) lit) start last
  = Json.text_from (Json.Scanner m st seen pos lit) start (c :: last).
Proof.
  intros Hle. unfold Json.text_from; cbn [Json.sc_pos Json.sc_seen].
  replace (S pos - start)%nat with (S (pos - start)) by lia.
  cbn [take rev]. rewrite <- app_assoc. reflexivity.
Qed.

Lemma text_from_seg (m : Json.mode) (st : list Json.frame) (seen : list ascii)
    (pos lit start : nat) (t : string) (last : list ascii) :
  (start <= pos)%nat ->
  Json.text_from (Json.Scanner m st (rev (list_ascii_of_string t) ++ seen)
                    (pos + String.length t) lit) start last
  = Json.text_from (Json.Scanner m st seen pos lit) start (list_ascii_of_string t ++ last).
Proof.
  intros Hle. revert seen pos Hle last.
  induction t as [|c t IH]; intros seen pos Hle last.
  - cbn [list_ascii_of_string rev app String.length]. rewrite Nat.add_0_r. reflexivity.
  - cbn [list_ascii_of_string rev String.length].
    rewrite <- app_assoc. cbn [app].
    replace (pos + S (String.length t))%nat with (S pos + String.length t)%nat by lia.
    rewrite (IH (c :: seen) (S pos)) by lia.
    rewrite text_from_cons by exact Hle. reflexivity.
Qed.

Lemma string_of_list_content (t : string) :
  string_of_list_ascii (list_ascii_of_string t ++ []) = t.
Proof. rewrite app_nil_r. apply string_of_list_ascii_of_string. Qed.

Ltac norm_text :=
  repeat first [ rewrite text_from_done
               | (rewrite text_from_cons by lia)
               | (rewrite text_from_seg by lia) ];
  rewrite ?string_of_list_content.

Ltac expose_text :=
  repeat match goal with
         | |- context [dq ?t] =>
             let v := eval vm_compute in (dq t) in change (dq t) with v
         end;
  rewrite ?append_String, ?append_empty.

Ltac step :=
  rewrite scan_String;
  match goal with
  | |- context [Json.feed ?s ?c] =>
      let r := eval cbv -[Json.text_from Nat.add Nat.sub String.append rev take app
                          list_ascii_of_string String.length string_of_list_ascii int_text]
                 in (Json.feed s c) in
      change (Json.feed s c) with r
  end;
  cbv beta iota; unfold Json.advance;
  cbn [Json.sc_seen Json.sc_pos Json.sc_mode Json.sc_stack Json.sc_lit];
  norm_text.

Lemma error_body_scanned (m c : string) :
  plain m = true -> plain c = true ->
  exists raw r1 r2,
    Json.checkValid (error_body m c)
    = inl (raw, Json.Object [("error", r1, Json.Str m); ("code", r2, Json.Str c)]).
Proof.
  intros Hm Hc. unfold Json.checkValid, error_body, Json.start.
  expose_text.
  do 10 step. rewrite (scan_plain m) by exact Hm.
  do 10 step. rewrite (scan_plain c) by exact Hc.
  do 2 step.
  cbn [Json.first_nonspace]. do 3 eexists. reflexivity.
Qed.

Lemma unquote_list_plain (l : list ascii) :
  forallb plain_char l = true -> Json.unquote_list 0 l = l.
Proof.
  induction l as [|c l IH]; [reflexivity|]. cbn [forallb]. intros Hp.
  apply andb_true_iff in Hp as [Hc Hl].
  unfold plain_char in Hc.
  apply andb_true_iff in Hc as [Hc Hb]. apply andb_true_iff in Hc as [Hc _].
  apply andb_true_iff in Hc as [_ Hhi]. apply negb_true_iff in Hb.
  cbn [Json.unquote_list]. rewrite Hb.
  assert ((byte_val c <? 128) = true) as Hlt.
  { unfold byte_val. apply N.ltb_lt in Hhi. unfold Json.code in Hhi.
    apply Z.ltb_lt. lia. }
  rewrite Hlt, (IH Hl). reflexivity.
Qed.

Lemma unquote_plain (t : string) : plain t = true -> Json.unquote t = t.
Proof.
  intros Hp. unfold Json.unquote. rewrite (unquote_list_plain _ Hp).
  apply string_of_list_ascii_of_string.
Qed.

Lemma error_body_classified (status : Z) (m c : string) :
  ~ (200 <= status <= 299) -> status <> 400 ->
  plain m = true -> plain c = true ->
  checkResponse (respond status (error_body m c))
  = Some (after_read (respond status (error_body m c)),
          Some (ErrorResponseOf (ErrorResponse.Make RefShared m c))).
Proof.
  intros Hs H400 Hm Hc.
  destruct (error_body_scanned m c Hm Hc) as [raw [r1 [r2 Hv]]].
  rewrite checkResponse_plain.
  - unfold classified. cbn [StatusCode respond Body rc_data].
    destruct (Z.eqb_spec status StatusBadRequest) as [Heq|_]; [contradiction|].
    unfold decoded_error. rewrite Hv.
    unfold last_string, misfit, names, Json.field_of; cbn [fold_left existsb fst snd].
    change (Json.foldName (Json.unquote "error")) with "ERROR".
    change (Json.foldName (Json.unquote "code")) with "CODE".
    cbn. rewrite (unquote_plain m Hm), (unquote_plain c Hc). reflexivity.
  - apply not_success_false. exact Hs.
  - reflexivity.
  - unfold names_Response. cbn [StatusCode respond Body rc_data]. rewrite Hv.
    reflexivity.
Qed.

Lemma uint_digits (d : Decimal.uint) : digits (NilEmpty.string_of_uint d) = true.
Proof. induction d; try reflexivity; exact IHd. Qed.

Lemma feed_digit (st : list Json.frame) (seen : list ascii) (pos lit : nat) (c : ascii) :
  Json.isDigit c = true ->
  Json.feed (Json.Scanner Json.Num1 st seen pos lit) c = Json.Continue Json.Num1 st lit.
Proof.
  intros Hc. unfold Json.feed; cbn [Json.sc_mode Json.sc_stack Json.sc_lit].
  rewrite Hc. reflexivity.
Qed.

Lemma scan_digits (t : string) :
  forall (st : list Json.frame) (seen : list ascii) (pos lit : nat) (rest : string),
  digits t = true ->
  Json.scan (Json.Scanner Json.Num1 st seen pos lit) (t +:+ rest)
  = Json.scan (Json.Scanner Json.Num1 st (rev (list_ascii_of_string t) ++ seen)
                 (pos + String.length t) lit) rest.
Proof.
  induction t as [|c t IH]; intros st seen pos lit rest Hp.
  - rewrite append_empty. cbn [list_ascii_of_string rev app String.length].
    rewrite Nat.add_0_r. reflexivity.
  - unfold digits in Hp. cbn [list_ascii_of_string forallb] in Hp.
    apply andb_true_iff in Hp as [Hc Hp].
    rewrite append_String, scan_String, (feed_digit _ _ _ _ _ Hc).
    unfold Json.advance; cbn [Json.sc_seen Json.sc_pos].
    rewrite (IH st (c :: seen) (S pos) lit rest Hp).
    cbn [list_ascii_of_string rev String.length]. rewrite <- app_assoc. cbn [app].
    rewrite Nat.add_succ_r. reflexivity.
Qed.

Lemma to_uint_normal (p : positive) : Decimal.unorm (Pos.to_uint p) = Pos.to_uint p.
Proof.
  rewrite <- (DecimalPos.Unsigned.to_of (Pos.to_uint p)), DecimalPos.Unsigned.of_to.
  reflexivity.
Qed.

Lemma to_uint_text (p : positive) :
  exists c t, NilEmpty.string_of_uint (Pos.to_uint p) = String c t
              /\ Json.isDigit19 c = true /\ digits t = true.
Proof.
  pose proof (to_uint_normal p) as Hn.
  pose proof (DecimalPos.Unsigned.to_uint_nonnil p) as Hnil.
  pose proof (DecimalPos.Unsigned.to_uint_nonzero p) as Hz.
  destruct (Pos.to_uint p) as [|u|u|u|u|u|u|u|u|u|u];
    try (eexists _, _; split; [reflexivity | split; [reflexivity | apply uint_digits]]).
  - contradiction.
  - exfalso. unfold Decimal.unorm in Hn. cbn [Decimal.nzhead] in Hn.
    pose proof (nzhead_nonzero u) as Hh.
    destruct (Decimal.nzhead u) eqn:E; try discriminate.
    + injection Hn as <-. contradiction.
    + exact (Hh _ eq_refl).
Qed.

Lemma to_uint_head (p : positive) :
  match Pos.to_uint p with Decimal.Nil | Decimal.D0 _ => False | _ => True end.
Proof.
  pose proof (to_uint_normal p) as Hn.
  pose proof (DecimalPos.Unsigned.to_uint_nonnil p) as Hnil.
  pose proof (DecimalPos.Unsigned.to_uint_nonzero p) as Hz.
  destruct (Pos.to_uint p) as [|u|u|u|u|u|u|u|u|u|u]; try exact I.
  - contradiction.
  - unfold Decimal.unorm in Hn. cbn [Decimal.nzhead] in Hn.
    pose proof (nzhead_nonzero u) as Hh.
    destruct (Decimal.nzhead u) eqn:E; try discriminate.
    + injection Hn as <-. contradiction.
    + exact (Hh _ eq_refl).
Qed.

Lemma digits_val_uint (d : Decimal.uint) :
  forall acc : positive,
  Json.digits_val (Z.pos acc) (list_ascii_of_string (NilEmpty.string_of_uint d))
  = Some (Z.pos (Pos.of_uint_acc d acc)).
Proof.
  induction d; intros acc;
    cbn [NilEmpty.string_of_uint list_ascii_of_string Json.digits_val Pos.of_uint_acc];
    try reflexivity;
    match goal with
    | |- context [Json.isDigit ?c] => change (Json.isDigit c) with true
    end; cbv iota; rewrite <- IHd; f_equal; unfold byte_val; cbn; lia.
Qed.

Lemma digits_val_to_uint (p : positive) :
  Json.digits_val 0 (list_ascii_of_string (NilEmpty.string_of_uint (Pos.to_uint p)))
  = Some (Z.pos p).
Proof.
  pose proof (to_uint_head p) as Hh.
  pose proof (DecimalPos.Unsigned.of_to p) as Hv.
  destruct (Pos.to_uint p) as [|u|u|u|u|u|u|u|u|u|u]; try contradiction;
    cbn [NilEmpty.string_of_uint list_ascii_of_string Json.digits_val];
    match goal with
    | |- context [Json.isDigit ?c] => change (Json.isDigit c) with true
    end; cbv iota; cbn [Pos.of_uint] in Hv; injection Hv as <-;
    apply (digits_val_uint u).
Qed.

Lemma string_of_uint_text (p : positive) :
  NilZero.string_of_uint (Pos.to_uint p) = NilEmpty.string_of_uint (Pos.to_uint p).
Proof.
  pose proof (to_uint_head p) as Hh.
  destruct (Pos.to_uint p); [contradiction | reflexivity ..].
Qed.

Lemma digit_no_sign (c : ascii) :
  Json.isDigit c = true -> Ascii.eqb c "-" = false /\ Ascii.eqb c "+" = false.
Proof.
  intros Hc. split.
  - destruct (Ascii.eqb_spec c "-") as [->|]; [discriminate Hc | reflexivity].
  - destruct (Ascii.eqb_spec c "+") as [->|]; [discriminate Hc | reflexivity].
Qed.

Lemma digit19_digit (c : ascii) : Json.isDigit19 c = true -> Json.isDigit c = true.
Proof.
  unfold Json.isDigit19, Json.isDigit. intros Hc.
  apply andb_true_iff in Hc as [Hlo Hhi]. rewrite Hhi, andb_true_r.
  apply N.leb_le in Hlo. apply N.leb_le. lia.
Qed.

Lemma ParseInt_int_text (n : Z) :
  - 2 ^ 63 <= n < 2 ^ 63 -> Json.ParseInt (int_text n) = Some n.
Proof.
  intros Hn. destruct n as [|p|p]; [reflexivity | |];
    unfold int_text, Z.to_int, NilZero.string_of_int;
    rewrite string_of_uint_text;
    pose proof (digits_val_to_uint p) as Hv;
    destruct (to_uint_text p) as [c [t [Ht [H19 _]]]];
    rewrite Ht in *; apply digit19_digit in H19;
    destruct (digit_no_sign c H19) as [Hm Hp];
    unfold Json.ParseInt; cbn [list_ascii_of_string] in *.
  - rewrite Hm, Hp, Hv.
    destruct (Z.ltb_spec (Z.pos p) (2 ^ 63)); [reflexivity | lia].
  - change (Ascii.eqb "-" "-") with true. cbv iota. rewrite Hv.
    destruct (Z.leb_spec (Z.pos p) (2 ^ 63)); [reflexivity | lia].
Qed.

Lemma feed_digit19 (st : list Json.frame) (seen : list ascii) (pos lit : nat) (c : ascii) :
  Json.isDigit19 c = true ->
  Json.feed (Json.Scanner Json.BeginValue st seen pos lit) c = Json.Continue Json.Num1 st pos
  /\ Json.feed (Json.Scanner Json.Neg st seen pos lit) c = Json.Continue Json.Num1 st lit.
Proof.
  destruct c as [[] [] [] [] [] [] [] []]; intros Hc;
    try (cbv in Hc; discriminate Hc); split; reflexivity.
Qed.

Lemma rev_cons_app (c : ascii) (l seen : list ascii) :
  rev l ++ c :: seen = rev (c :: l) ++ seen.
Proof. cbn [rev]. rewrite <- app_assoc. reflexivity. Qed.

(** the digits of a number are scanned up to the byte after them *)
Lemma scan_int (n : Z) (st : list Json.frame) (seen : list ascii) (pos lit : nat)
    (rest : string) :
  Json.scan (Json.Scanner Json.BeginValue st seen pos lit) (int_text n +:+ rest)
  = Json.scan (Json.Scanner (if n =? 0 then Json.Num0 else Json.Num1) st
                 (rev (list_ascii_of_string (int_text n)) ++ seen)
                 (pos + String.length (int_text n)) pos) rest.
Proof.
  destruct n as [|p|p].
  - change (int_text 0) with "0"%string. rewrite append_String, append_empty, scan_String.
    cbn. rewrite Nat.add_1_r. reflexivity.
  - unfold int_text, Z.to_int, NilZero.string_of_int. rewrite string_of_uint_text.
    destruct (to_uint_text p) as [c [t [-> [H19 Hd]]]].
    rewrite append_String, scan_String, (proj1 (feed_digit19 _ _ _ _ _ H19)).
    unfold Json.advance; cbn [Json.sc_seen Json.sc_pos].
    rewrite (scan_digits t _ _ _ _ _ Hd), rev_cons_app.
    cbn [Z.eqb list_ascii_of_string String.length]. rewrite Nat.add_succ_r. reflexivity.
  - unfold int_text, Z.to_int, NilZero.string_of_int. rewrite string_of_uint_text.
    destruct (to_uint_text p) as [c [t [-> [H19 Hd]]]].
    rewrite append_String, scan_String.
    change (Json.feed (Json.Scanner Json.BeginValue st seen pos lit) "-")
      with (Json.Continue Json.Neg st pos).
    cbv iota. unfold Json.advance at 1; cbn [Json.sc_seen Json.sc_pos].
    rewrite append_String, scan_String, (proj2 (feed_digit19 _ _ _ _ _ H19)).
    unfold Json.advance; cbn [Json.sc_seen Json.sc_pos].
    rewrite (scan_digits t _ _ _ _ _ Hd), !rev_cons_app.
    cbn [Z.eqb list_ascii_of_string String.length]. rewrite !Nat.add_succ_r. reflexivity.
Qed.

Lemma scan_after_int (b : bool) (st : list Json.frame) (seen : list ascii) (pos lit : nat)
    (c : ascii) (rest : string) :
  Json.isDigit c = false ->
  Json.scan (Json.Scanner (if b then Json.Num0 else Json.Num1) st seen pos lit) (String c rest)
  = Json.scan (Json.Scanner Json.Num0 st seen pos lit) (String c rest).
Proof.
  intros Hc. destruct b; [reflexivity|]. rewrite !scan_String.
  unfold Json.feed; cbn [Json.sc_mode Json.sc_stack Json.sc_lit]. rewrite Hc. reflexivity.
Qed.

Lemma string_of_list_cons (c : ascii) (l : list ascii) :
  string_of_list_ascii (c :: l) = String c (string_of_list_ascii l).
Proof. reflexivity. Qed.

Lemma string_of_list_app (t : string) (l : list ascii) :
  string_of_list_ascii (list_ascii_of_string t ++ l) = t +:+ string_of_list_ascii l.
Proof. induction t as [|c t IH]; [reflexivity|]. cbn. rewrite IH. reflexivity. Qed.

Lemma string_of_list_nil : string_of_list_ascii [] = ""%string.
Proof. reflexivity. Qed.

Ltac norm_string :=
  cbn [string_of_list_ascii];
  repeat (rewrite string_of_list_app; cbn [string_of_list_ascii]).

Lemma fold_left_step {A B} (f : A -> B -> A) (m : B) (ms : list B) (a b r : A) :
  f a m = b -> fold_left f ms b = r -> fold_left f (m :: ms) a = r.
Proof. intros <- <-. reflexivity. Qed.

Lemma store_member_None {T} (field : string -> string -> Json.value -> T -> T * option lib_error)
    (t t' : T) (k raw : string) (v : Json.value) :
  field (Json.foldName (Json.unquote k)) raw v t = (t', None) ->
  Json.store_member field (t, None) (k, raw, v) = (t', None).
Proof.
  unfold Json.store_member, Json.field_of; cbn [fst snd]. intros ->. reflexivity.
Qed.

Lemma store_string_plain (t cur : string) :
  plain t = true -> Json.store_string (Json.Str t) cur = (t, None).
Proof. intros Hp. unfold Json.store_string. rewrite (unquote_plain t Hp). reflexivity. Qed.

Lemma store_int_text (n cur : Z) :
  - 2 ^ 63 <= n < 2 ^ 63 -> Json.store_int (Json.Number (int_text n)) cur = (n, None).
Proof. intros Hn. unfold Json.store_int. rewrite (ParseInt_int_text n Hn). reflexivity. Qed.

(** one member of an object, stored in a field of a struct *)
Ltac enter_field field :=
  eapply fold_left_step;
  [ apply store_member_None;
    match goal with
    | |- field (Json.foldName (Json.unquote ?k)) _ _ _ = _ =>
        let n := eval vm_compute in (Json.foldName (Json.unquote k)) in
        change (Json.foldName (Json.unquote k)) with n;
        let f := eval cbv [field String.eqb Ascii.eqb Bool.eqb] in (field n) in
        change (field n) with f
    end;
    cbv beta iota
  | ].

Ltac store_field field :=
  enter_field field;
  [ rewrite ?store_int_text, ?store_string_plain by assumption; reflexivity | ].

Lemma Address_body_scanned (a : Address.t) :
  plain_Address a = true ->
  - 2 ^ 63 <= Address.ID a < 2 ^ 63 ->
  exists v,
    Json.scan Json.start (Address_body a) = Json.Found (Address_body a) v ""
    /\ Json.store_struct "struct { Data coinspaid.Alias }" Address_temp_field v Address.zero
       = (a, None).
Proof.
  destruct a as [id cur conv addr tag fid]. unfold plain_Address; cbn [Address.Currency
    Address.ConvertTo Address.Address Address.Tag Address.ForeignID Address.ID].
  intros Hp Hid. repeat (apply andb_true_iff in Hp as [Hp ?]).
  unfold Address_body, Json.start; cbn [Address.ID Address.Currency
    Address.ConvertTo Address.Address Address.Tag Address.ForeignID].
  expose_text. eexists. split.
  - repeat step. rewrite scan_int, scan_after_int by reflexivity.
    repeat (repeat step; rewrite scan_plain by assumption).
    repeat step. norm_string. cbn [rev app]. reflexivity.
  - unfold Json.store_struct, Json.store_members.
    enter_field Address_temp_field; [| reflexivity].
    unfold Json.store_struct, Json.store_members, Address.zero.
    repeat store_field Address_field. reflexivity.
Qed.

(** Decoder.Decode of the body made from an address gives the address back. *)
Lemma Address_body_decoded (a x : Address.t) :
  plain_Address a = true ->
  - 2 ^ 63 <= Address.ID a < 2 ^ 63 ->
  Decoder_Decode {| rc_data := Address_body a; rc_err := None |} x = (a, None).
Proof.
  intros Hp Hid. destruct (Address_body_scanned a Hp Hid) as [v [Hs Hd]].
  unfold Decoder_Decode; cbn [rc_data rc_err]. rewrite Hs.
  unfold UnmarshalJSON, Address_Unmarshaler, Address_UnmarshalJSON, Json.Unmarshal,
    Json.checkValid.
  rewrite Hs. cbn [Json.first_nonspace]. rewrite Hd. reflexivity.
Qed.

(** X13. TakeAddress gives back the address the server sent: when the
    answer has a status in 200-299 and its body is the envelope made from
    an address [a] (an id that fits 64 bits, five strings that need no
    escape), TakeAddress returns exactly [a] and no error, for every such
    address. *)
Theorem TakeAddress_returns_the_address `{Platform} (st : State)
    (input : TakeAddressInput.t) (j : string) (status : Z) (a : Address.t) :
  json_Marshal_TakeAddressInput input = inl j ->
  served st "addresses/take" j (respond status (Address_body a)) ->
  200 <= status <= 299 ->
  plain_Address a = true ->
  - 2 ^ 63 <= Address.ID a < 2 ^ 63 ->
  fst (TakeAddress input st) = Some (Some a, None).
Proof.
  intros Hj Hs Hc Hp Hid.
  rewrite (TakeAddress_served input j st _ Hj Hs). unfold outcome.
  rewrite (checkResponse_success (respond status (Address_body a)) Hc).
  change (Body (respond status (Address_body a)))
    with {| rc_data := Address_body a; rc_err := None |}.
  rewrite (Address_body_decoded a Address.zero Hp Hid). reflexivity.
Qed.

(** X13 at work: an address sent by the test server with status 201. *)
Lemma TakeAddress_returns_the_address_witness :
  let a := Address.Make 7 "EUR" "BTC" "12983h13ro1hrt24it432t" "" "user-id:2048" in
  let reply := inl (respond 201 (Address_body a)) in
  fst (@TakeAddress (httptest reply) takeAddressInput (test_state reply))
  = Some (Some a, None).
Proof.
  intros a reply.
  refine (@TakeAddress_returns_the_address (httptest reply) (test_state reply)
            takeAddressInput _ 201 a eq_refl (httptest_served _ _ _) _ eq_refl _).
  - split; discriminate.
  - split; [discriminate | reflexivity].
Defined.

(** X14. The message and the code of an error answer reach the caller: for
    a status outside 200-299 other than 400 and the body
    {"error":"m","code":"c"} with strings that need no escape,
    checkResponse returns an ErrorResponse with Message m and Code c, and
    both operations return it with no output. *)
Theorem error_envelope_returned `{Platform} (st : State) (status : Z) (m c : string) :
  ~ (200 <= status <= 299) -> status <> 400 ->
  plain m = true -> plain c = true ->
  let r := respond status (error_body m c) in
  let e := ErrorResponseOf (ErrorResponse.Make RefShared m c) in
  checkResponse r = Some (after_read r, Some e) /\ operations_return st r e.
Proof.
  intros Hs H400 Hm Hc r e.
  pose proof (error_body_classified status m c Hs H400 Hm Hc) as Hr.
  split; [exact Hr|]. exact (classifier_error_returned st r _ e Hr).
Qed.

(** X14 at work: the 403 answer of the package's test, without white
    space. *)
Lemma error_envelope_returned_witness :
  let r := respond 403 (error_body "Bad key header" "bad_header_key") in
  let e := ErrorResponseOf (ErrorResponse.Make RefShared "Bad key header" "bad_header_key") in
  checkResponse r = Some (after_read r, Some e)
  /\ @operations_return (httptest (inl r)) (test_state (inl r)) r e.
Proof.
  refine (@error_envelope_returned (httptest _) (test_state _) 403
            "Bad key header" "bad_header_key" _ _ eq_refl eq_refl).
  - intros [_ Hle]. apply Hle. reflexivity.
  - discriminate.
Defined.

Lemma WithdrawCryptoPayload_body_scanned (p : WithdrawCryptoPayload.t) (n : Z) :
  WithdrawCryptoPayload.ID p = int_text n ->
  plain_WithdrawCryptoPayload p = true ->
  exists v,
    Json.scan Json.start (WithdrawCryptoPayload_body p)
    = Json.Found (WithdrawCryptoPayload_body p) v ""
    /\ Json.store_struct "struct { Data coinspaid.Alias }" WithdrawCryptoPayload_temp_field v
         WithdrawCryptoPayload.zero
       = (p, None).
Proof.
  destruct p as [id fid ty st am sc sa rc ra].
  unfold plain_WithdrawCryptoPayload, WithdrawCryptoPayload_body;
    cbn [WithdrawCryptoPayload.ID WithdrawCryptoPayload.ForeignID WithdrawCryptoPayload.Type_
         WithdrawCryptoPayload.Status WithdrawCryptoPayload.Amount
         WithdrawCryptoPayload.SenderAmount WithdrawCryptoPayload.SenderCurrency
         WithdrawCryptoPayload.ReceiverAmount WithdrawCryptoPayload.ReceiverCurrency].
  intros -> Hp. repeat (apply andb_true_iff in Hp as [Hp ?]).
  unfold Json.start. expose_text. eexists. split.
  - repeat step. rewrite scan_int, scan_after_int by reflexivity.
    repeat (repeat step; rewrite scan_plain by assumption).
    repeat step. norm_string. cbn [rev app]. reflexivity.
  - unfold Json.store_struct, Json.store_members.
    enter_field WithdrawCryptoPayload_temp_field; [| reflexivity].
    unfold Json.store_struct, Json.store_members, WithdrawCryptoPayload.zero.
    repeat store_field WithdrawCryptoPayload_field. reflexivity.
Qed.

Lemma WithdrawCryptoPayload_body_decoded (p x : WithdrawCryptoPayload.t) (n : Z) :
  WithdrawCryptoPayload.ID p = int_text n ->
  plain_WithdrawCryptoPayload p = true ->
  Decoder_Decode {| rc_data := WithdrawCryptoPayload_body p; rc_err := None |} x = (p, None).
Proof.
  intros Hid Hp. destruct (WithdrawCryptoPayload_body_scanned p n Hid Hp) as [v [Hs Hd]].
  unfold Decoder_Decode; cbn [rc_data rc_err]. rewrite Hs.
  unfold UnmarshalJSON, WithdrawCryptoPayload_Unmarshaler, WithdrawCryptoPayload_UnmarshalJSON,
    Json.Unmarshal, Json.checkValid.
  rewrite Hs. cbn [Json.first_nonspace]. rewrite Hd. reflexivity.
Qed.

(** X15. WithdrawCrypto gives back the payload the server sent: when the
    answer has a status in 200-299 and its body is the envelope made from a
    payload [p] whose id is a number written in decimal and whose other
    fields are strings that need no escape, WithdrawCrypto returns exactly
    [p] and no error.  The ID of the payload is the text of the number, of
    any size. *)
Theorem WithdrawCrypto_returns_the_payload `{Platform} (st : State)
    (input : WithdrawCryptoInput.t float64) (j : string) (status n : Z)
    (p : WithdrawCryptoPayload.t) :
  json_Marshal_WithdrawCryptoInput input = inl j ->
  served st "withdrawal/crypto" j (respond status (WithdrawCryptoPayload_body p)) ->
  200 <= status <= 299 ->
  WithdrawCryptoPayload.ID p = int_text n ->
  plain_WithdrawCryptoPayload p = true ->
  fst (WithdrawCrypto input st) = Some (Some p, None).
Proof.
  intros Hj Hs Hc Hid Hp.
  rewrite (WithdrawCrypto_served input j st _ Hj Hs). unfold outcome.
  rewrite (checkResponse_success (respond status (WithdrawCryptoPayload_body p)) Hc).
  change (Body (respond status (WithdrawCryptoPayload_body p)))
    with {| rc_data := WithdrawCryptoPayload_body p; rc_err := None |}.
  rewrite (WithdrawCryptoPayload_body_decoded p WithdrawCryptoPayload.zero n Hid Hp).
  reflexivity.
Qed.

(** X15 at work: a payload whose id is 2^64, sent by the test server. *)
Lemma WithdrawCrypto_returns_the_payload_witness :
  let p := WithdrawCryptoPayload.Make "18446744073709551616" "user-id:2048" "withdrawal"
             "processing" "0.01000000" "ETH" "0.01000000" "ETH" "0.01000000" in
  let reply := inl (respond 200 (WithdrawCryptoPayload_body p)) in
  fst (@WithdrawCrypto (httptest reply) withdrawCryptoInput (test_state reply))
  = Some (Some p, None).
Proof.
  intros p reply.
  refine (@WithdrawCrypto_returns_the_payload (httptest reply) (test_state reply)
            withdrawCryptoInput _ 200 (2 ^ 64) p eq_refl (httptest_served _ _ _) _
            eq_refl eq_refl).
  split; discriminate.
Defined.


Lemma append_assoc (a b c : string) : (a +:+ b) +:+ c = a +:+ (b +:+ c).
Proof. induction a as [|x a IH]; [reflexivity|]. rewrite !append_String, IH. reflexivity. Qed.

Lemma scan_entry (k v : string) :
  plain k = true -> plain v = true ->
  forall (m : Json.mode) (o : nat) (ms : list Json.member) (st : list Json.frame)
         (seen : list ascii) (pos lit : nat) (rest : string),
  m = Json.BeginString \/ m = Json.BeginStringOrEmpty ->
  exists seen' pos' lit' raw,
    Json.scan (Json.Scanner m (Json.FObjKey o ms :: st) seen pos lit)
              (dq "'" +:+ k +:+ dq "':'" +:+ v +:+ dq "'" +:+ rest)
    = Json.scan (Json.Scanner Json.EndValue
                   (Json.FObjNext o ((k, raw, Json.Str v) :: ms) :: st) seen' pos' lit') rest.
Proof.
  intros Hk Hv m o ms st seen pos lit rest Hm. expose_text.
  destruct Hm as [-> | ->].
  - step. rewrite (scan_plain k) by exact Hk. repeat step.
    rewrite (scan_plain v) by exact Hv. step. do 4 eexists. reflexivity.
  - step. rewrite (scan_plain k) by exact Hk. repeat step.
    rewrite (scan_plain v) by exact Hv. step. do 4 eexists. reflexivity.
Qed.

Lemma entry_plain (k v raw : string) :
  plain k = true -> plain v = true -> entry (k, raw, Json.Str v) = (k, v).
Proof.
  intros Hk Hv. unfold entry, Json.store_string; cbn [fst snd].
  rewrite (unquote_plain k Hk), (unquote_plain v Hv). reflexivity.
Qed.

(** The entries of an object are scanned one after the other; the members
    are kept last first. *)
Lemma scan_entries (l : list (string * string)) :
  l <> [] -> forallb plain_entry l = true ->
  forall (m : Json.mode) (o : nat) (ms : list Json.member) (st : list Json.frame)
         (seen : list ascii) (pos lit : nat) (rest : string),
  m = Json.BeginString \/ m = Json.BeginStringOrEmpty ->
  exists seen' pos' lit' kvs,
    Json.scan (Json.Scanner m (Json.FObjKey o ms :: st) seen pos lit)
              (entries_text l +:+ rest)
    = Json.scan (Json.Scanner Json.EndValue (Json.FObjNext o (kvs ++ ms) :: st)
                   seen' pos' lit') rest
    /\ map entry kvs = rev l.
Proof.
  induction l as [|[k v] l IH]; [congruence|].
  intros _ Hp m o ms st seen pos lit rest Hm.
  cbn [forallb] in Hp. apply andb_true_iff in Hp as [Hkv Hl].
  apply andb_true_iff in Hkv as [Hk Hv]. cbn [fst snd] in Hk, Hv.
  cbn [entries_text]. rewrite !append_assoc.
  destruct (scan_entry k v Hk Hv m o ms st seen pos lit
              (match l with [] => "" | _ :: _ => "," +:+ entries_text l end +:+ rest) Hm)
    as [seen1 [pos1 [lit1 [raw Hs]]]].
  rewrite Hs. destruct l as [|e l'].
  - rewrite append_empty. exists seen1, pos1, lit1, [(k, raw, Json.Str v)].
    split; [reflexivity|]. cbn [map rev app]. rewrite (entry_plain k v raw Hk Hv). reflexivity.
  - rewrite append_assoc, append_String, append_empty. step.
    destruct (IH ltac:(discriminate) Hl Json.BeginString o ((k, raw, Json.Str v) :: ms) st
                (","%char :: seen1) (S pos1) lit1 rest (or_introl eq_refl))
      as [seen2 [pos2 [lit2 [kvs [Hs2 Hkvs]]]]].
    rewrite Hs2. exists seen2, pos2, lit2, (kvs ++ [(k, raw, Json.Str v)]).
    split; [rewrite <- app_assoc; reflexivity|].
    rewrite map_app, Hkvs. cbn [map rev]. rewrite (entry_plain k v raw Hk Hv). reflexivity.
Qed.

Lemma errors_body_scanned (l : list (string * string)) :
  forallb plain_entry l = true ->
  exists raw raw' kvs,
    Json.checkValid (errors_body l) = inl (raw, Json.Object [("errors", raw', Json.Object kvs)])
    /\ rev (map entry kvs) = rev l.
Proof.
  intros Hp. destruct l as [|e l].
  - exists (errors_body []), (dq "{}"), []. split; [vm_compute|]; reflexivity.
  - unfold Json.checkValid, errors_body, Json.start. expose_text. do 11 step.
    match goal with
    | |- context [Json.scan (Json.Scanner ?m (Json.FObjKey ?o ?ms :: ?st) ?seen ?pos ?lit) _] =>
        destruct (scan_entries (e :: l) ltac:(discriminate) Hp m o ms st seen pos lit "}}"
                    (or_intror eq_refl))
          as [seen' [pos' [lit' [kvs [Hs Hkvs]]]]]
    end.
    rewrite Hs. do 2 step. cbn [Json.first_nonspace rev app].
    do 3 eexists. split; [reflexivity|].
    rewrite app_nil_r, map_rev, rev_involutive. exact Hkvs.
Qed.

Lemma errors_body_classified (l : list (string * string)) :
  forallb plain_entry l = true ->
  checkResponse (respond 400 (errors_body l))
  = Some (after_read (respond 400 (errors_body l)),
          Some (ValidationErrorResponseOf
                  (ValidationErrorResponse.Make RefShared (Some (list_to_map (rev l)))))).
Proof.
  intros Hp. destruct (errors_body_scanned l Hp) as [raw [raw' [kvs [Hv Hkvs]]]].
  rewrite checkResponse_plain.
  - unfold classified. cbn [StatusCode respond Body rc_data].
    change (400 =? StatusBadRequest) with true. cbv iota.
    unfold decoded_errors. rewrite Hv.
    pose proof (errors_of_envelope [] [] kvs "errors" raw' eq_refl eq_refl) as He.
    cbn [app] in He. rewrite Hkvs in He.
    match goal with
    | |- context [errors_of ?ms None] =>
        replace (errors_of ms None) with (Some (list_to_map (rev l) : gmap string string))
          by (symmetry; exact He)
    end.
    reflexivity.
  - reflexivity.
  - reflexivity.
  - unfold names_Response. cbn [StatusCode respond Body rc_data]. rewrite Hv. reflexivity.
Qed.

(** X16. The validation messages of a 400 answer reach the caller: for
    the body made from a list of entries, names and messages that need no
    escape, checkResponse returns a ValidationErrorResponse whose Errors
    maps every name to its message, the last one where a name comes more
    than once (an empty map for no entries), and both operations return
    it with no output. *)
Theorem validation_errors_returned `{Platform} (st : State) (l : list (string * string)) :
  forallb plain_entry l = true ->
  let r := respond 400 (errors_body l) in
  let e := ValidationErrorResponseOf
             (ValidationErrorResponse.Make RefShared (Some (list_to_map (rev l)))) in
  checkResponse r = Some (after_read r, Some e) /\ operations_return st r e.
Proof.
  intros Hp r e. pose proof (errors_body_classified l Hp) as Hr.
  split; [exact Hr|]. exact (classifier_error_returned st r _ e Hr).
Qed.

(** X16 at work: two fields refused, one of them named twice. *)
Lemma validation_errors_returned_witness :
  let l := [("currency", "The currency field is required.");
            ("foreign_id", "old"); ("foreign_id", "The foreign id field is required.")] in
  let r := respond 400 (errors_body l) in
  let e := ValidationErrorResponseOf
             (ValidationErrorResponse.Make RefShared
                (Some {[ "currency" := "The currency field is required.";
                         "foreign_id" := "The foreign id field is required." ]})) in
  checkResponse r = Some (after_read r, Some e)
  /\ @operations_return (httptest (inl r)) (test_state (inl r)) r e.
Proof.
  intros l r e.
  assert (e = ValidationErrorResponseOf
                (ValidationErrorResponse.Make RefShared (Some (list_to_map (rev l))))) as ->.
  { vm_compute. reflexivity. }
  exact (@validation_errors_returned (httptest (inl r)) (test_state (inl r)) l eq_refl).
Defined.
